(** * GRADER ETL: a shallow embedding of [etl_script.py]

    The script pulls attempt records from a statistics API, validates and
    normalises each record, loads the accepted ones into PostgreSQL in one
    transaction, computes a daily aggregate and optionally publishes it to a
    spreadsheet.

    Python values are embedded as the inductive type [pyval]; a Python
    function that logs, touches the database or raises becomes a function in
    the monad [M], which threads a [world] (database table, spreadsheet and
    the trace of log lines and calls) and returns either a value or a raised
    exception.  Text is modelled with one [ascii] per character (code points
    0..255). *)

From Stdlib Require Import ZArith List String Ascii Bool Floats Lia.
From Stdlib Require Import DecimalString.
Import ListNotations.
Set Warnings "-register-all".
Open Scope string_scope.
Open Scope list_scope.
Open Scope Z_scope.

(** ** Python values *)

(** [datetime.datetime] objects (naive, no tzinfo). *)
Record datetime := mk_datetime {
  dt_year : Z; dt_month : Z; dt_day : Z;
  dt_hour : Z; dt_minute : Z; dt_second : Z; dt_microsecond : Z
}.

(** The values a JSON body or [ast.literal_eval] can produce, plus
    [datetime] objects.  A [dict] keeps its items in insertion order. *)
Inductive pyval : Type :=
| PNone
| PBool (b : bool)
| PInt (z : Z)
| PFloat (f : float)
| PStr (s : string)
| PBytes (s : string)
| PList (l : list pyval)
| PTuple (l : list pyval)
| PSet (l : list pyval)
| PDict (items : list (pyval * pyval))
| PDatetime (d : datetime).

(** Subclasses of [Exception] raised by the operations used in the script. *)
Inductive exn : Type :=
| TypeError | ValueError | SyntaxError | KeyError | IndexError
| AttributeError | MemoryError | RecursionError | ZeroDivisionError
| RequestException      (* requests.exceptions.RequestException *)
| JSONDecodeError       (* json.JSONDecodeError *)
| Psycopg2Error         (* psycopg2.Error *)
| GspreadError          (* any exception out of gspread / google.oauth2 *)
| OSError.              (* PermissionError and the like, out of Path.exists() *)

Inductive result (A : Type) : Type :=
| Ret (a : A)
| Raise (e : exn).
Arguments Ret {A} a.
Arguments Raise {A} e.

(** The dict built by [validate_record]: seven keys, each holding a Python
    value. *)
Record NormalizedAttempt := mk_attempt {
  user_id : pyval;
  oauth_consumer_key : pyval;
  lis_result_sourcedid : pyval;
  lis_outcome_service_url : pyval;
  is_correct : pyval;
  attempt_type : pyval;
  created_at : pyval
}.

(** The dict built by [get_daily_statistics]. *)
Record DailyStatistics := mk_stats {
  date : string;
  total_attempts : Z;
  successful_attempts : Z;
  failed_attempts : Z;
  run_attempts : Z;
  unique_users : Z;
  run_count : Z;
  submit_count : Z;
  success_rate : pyval
}.

(** ** Log lines and external calls *)

Inductive level := INFO | WARNING | ERROR.

(** One constructor per log line of the script; the formatted values are
    kept as arguments. *)
Inductive message : Type :=
| MsgApiRequest (start_date end_date : string)
| MsgApiReceived (n : nat)
| MsgApiStatus (status : Z)
| MsgApiRequestError
| MsgApiJsonError
| MsgPassbackNotDict (v : pyval)
| MsgPassbackParseError (e : exn)
| MsgMissingField (field : string)
| MsgBadAttemptType (v : pyval)
| MsgBadIsCorrect (v : pyval)
| MsgBadDate (v : pyval)
| MsgValidationError (e : exn)
| MsgProcessStart
| MsgProcessed (accepted skipped : nat)
| MsgTableReady
| MsgTableError (e : exn)
| MsgNoRecords
| MsgLoading (n : nat)
| MsgLoaded (count : Z)
| MsgLoadError (e : exn)
| MsgStats (stats : DailyStatistics)
| MsgStatsError (e : exn)
| MsgSheetsDisabled
| MsgSheetsUnavailable
| MsgSheetsNoCredentials
| MsgSheetsUploading
| MsgSheetsCreated
| MsgSheetsUploaded
| MsgSheetsError
| MsgStart
| MsgPeriod (start_date end_date : string)
| MsgFetchFailed
| MsgFetchEmpty
| MsgNoneValid
| MsgEtlDone (loaded : Z)
| MsgRunOk
| MsgCritical (e : exn)
| MsgRunFailed
| MsgTime.

(** What a run leaves behind, in order: its log lines, and a mark at the
    entry of each function that talks to the database or the spreadsheet. *)
Inductive event : Type :=
| Log (lv : level) (m : message)
| CallCreateTable
| CallLoad (n : nat)
| CallStats (d : string)
| CallPublish (stats : DailyStatistics).

(** ** The world and the monad *)

(** A row of the worksheet: the header line, or the nine values of one
    day's statistics. *)
Inductive sheet_row :=
| HeaderRow
| DataRow (stats : DailyStatistics).

(** The spreadsheet named GSHEETS_SPREADSHEET, as the account sees it: not
    there, there without the worksheet "Daily Statistics", or there with
    the worksheet and its rows. *)
Inductive spreadsheet :=
| NoSpreadsheet
| NoWorksheet
| Worksheet (rows : list sheet_row).

Record world := mk_world {
  table : list NormalizedAttempt;   (* committed rows of grader_attempts *)
  table_exists : bool;
  sheet : spreadsheet;
  trace : list event                (* oldest first *)
}.

Definition M (A : Type) : Type := world -> result A * world.

Definition ret {A} (a : A) : M A := fun w => (Ret a, w).

Definition raise {A} (e : exn) : M A := fun w => (Raise e, w).

Definition bind {A B} (m : M A) (k : A -> M B) : M B :=
  fun w =>
    match m w with
    | (Ret a, w') => k a w'
    | (Raise e, w') => (Raise e, w')
    end.

Declare Scope py_scope.
Delimit Scope py_scope with py.
Notation "x <- c ;; k" := (bind c (fun x => k))
  (at level 100, c at next level, right associativity) : py_scope.
Notation "c ;;; k" := (bind c (fun _ => k))
  (at level 100, right associativity) : py_scope.
Open Scope py_scope.

(** A pure operation that may raise. *)
Definition lift {A} (r : result A) : M A := fun w => (r, w).

(** [try: body except <classes> as e: handler e].  Effects of [body] before
    the exception are kept. *)
Definition try_except {A} (body : M A) (catches : exn -> bool)
    (handler : exn -> M A) : M A :=
  fun w =>
    match body w with
    | (Ret a, w') => (Ret a, w')
    | (Raise e, w') => if catches e then handler e w' else (Raise e, w')
    end.

Definition add_event (ev : event) (w : world) : world :=
  mk_world (table w) (table_exists w) (sheet w) (trace w ++ [ev]).

Definition emit (ev : event) : M unit := fun w => (Ret tt, add_event ev w).

Definition log (lv : level) (m : message) : M unit := emit (Log lv m).

(** [except Exception]: every class of [exn] is a subclass of [Exception]. *)
Definition any_Exception (e : exn) : bool := true.

Definition is_ValueError (e : exn) : bool :=
  match e with ValueError => true | _ => false end.

(** [except (ValueError, SyntaxError)]. *)
Definition is_ValueError_or_SyntaxError (e : exn) : bool :=
  match e with ValueError | SyntaxError => true | _ => false end.

Definition is_Psycopg2Error (e : exn) : bool :=
  match e with Psycopg2Error => true | _ => false end.

(** ** Operations on Python values *)

Definition is_str (k : string) (v : pyval) : bool :=
  match v with PStr s => String.eqb s k | _ => false end.

Fixpoint dict_lookup (k : string) (items : list (pyval * pyval)) : option pyval :=
  match items with
  | [] => None
  | (key, v) :: rest => if is_str k key then Some v else dict_lookup k rest
  end.

Definition is_substring (k s : string) : bool :=
  match String.index 0 k s with Some _ => true | None => false end.

(** [k in container] for a string [k]. *)
Definition py_contains (k : string) (container : pyval) : result bool :=
  match container with
  | PDict items =>
      Ret (match dict_lookup k items with Some _ => true | None => false end)
  | PStr s => Ret (is_substring k s)
  | PList l | PTuple l | PSet l => Ret (existsb (is_str k) l)
  | _ => Raise TypeError
  end.

(** [container[k]] for a string [k]. *)
Definition py_getitem (container : pyval) (k : string) : result pyval :=
  match container with
  | PDict items =>
      match dict_lookup k items with
      | Some v => Ret v
      | None => Raise KeyError
      end
  | _ => Raise TypeError
  end.

(** [container.get(k, default)]. *)
Definition py_get (container : pyval) (k : string) (default : pyval) : result pyval :=
  match container with
  | PDict items =>
      Ret (match dict_lookup k items with Some v => v | None => default end)
  | _ => Raise AttributeError
  end.

(** The library functions whose results the script only passes on. *)
Class PyRuntime := {
  (* ast.literal_eval: raises ValueError, TypeError, SyntaxError,
     MemoryError or RecursionError on malformed input *)
  literal_eval : pyval -> result pyval;
  (* repr() of floats, bytes, containers and datetimes *)
  py_repr : pyval -> string;
  (* PostgreSQL's DATE(created_at) = %s on a stored value and a parameter *)
  sql_on_date : pyval -> string -> bool
}.

Definition py_str `{PyRuntime} (v : pyval) : string :=
  match v with
  | PStr s => s
  | PNone => "None"
  | PBool true => "True"
  | PBool false => "False"
  | PInt z => NilZero.string_of_int (Z.to_int z)
  | other => py_repr other
  end.

(** [sys.int_info.default_max_str_digits], the limit of CPython 3.11 and
    of the security releases of 3.7 to 3.10 unless it is reconfigured:
    converting an int of more decimal digits to text raises [ValueError]. *)
Definition int_max_str_digits : Z := 4300.

(** [str(v)] and [format(v)] raise [ValueError]: [v] is, or a container
    holds, an int of more than [int_max_str_digits] digits. *)
Fixpoint str_overflows (v : pyval) : bool :=
  match v with
  | PInt z => 10 ^ int_max_str_digits <=? Z.abs z
  | PList l | PTuple l | PSet l => existsb str_overflows l
  | PDict items =>
      existsb (fun item => str_overflows (fst item) || str_overflows (snd item)) items
  | _ => false
  end.

(** [str(v)], with its fault. *)
Definition str `{PyRuntime} (v : pyval) : result string :=
  if str_overflows v then Raise ValueError else Ret (py_str v).

(** ** datetime.strptime

    [strptime] turns the format into a regular expression, matches it at the
    start of the input with backtracking, and rejects input left over after
    the first match.  A matcher returns every way to match, in the order the
    backtracking search tries them, so the head of the list is the match the
    regular expression engine reports. *)

Definition code (c : ascii) : N := N_of_ascii c.

(** [\d] and [[0-9]] *)
Definition is_digit (c : ascii) : bool :=
  ((48 <=? code c) && (code c <=? 57))%N.

(** [\s], also the separators of [str.split()] *)
Definition is_space (c : ascii) : bool :=
  (((9 <=? code c) && (code c <=? 13)) || ((28 <=? code c) && (code c <=? 32))
   || (code c =? 133) || (code c =? 160))%N.

Definition in_range (lo hi : ascii) (c : ascii) : bool :=
  ((code lo <=? code c) && (code c <=? code hi))%N.

Definition chr (x : ascii) (c : ascii) : bool := Ascii.eqb x c.

(** A sequence of character classes, one character each. *)
Fixpoint match_classes (classes : list (ascii -> bool)) (s : list ascii)
    : option (list ascii * list ascii) :=
  match classes with
  | [] => Some ([], s)
  | cl :: classes' =>
      match s with
      | c :: s' =>
          if cl c then
            match match_classes classes' s' with
            | Some (m, rest) => Some (c :: m, rest)
            | None => None
            end
          else None
      | [] => None
      end
  end.

(** Alternatives [a1|a2|...], tried left to right. *)
Definition match_alternatives (alts : list (list (ascii -> bool))) (s : list ascii)
    : list (list ascii * list ascii) :=
  flat_map (fun alt => match match_classes alt s with
                       | Some r => [r]
                       | None => []
                       end) alts.

(** [\s+], greedy: the longest run first, then shorter ones. *)
Fixpoint match_spaces (s : list ascii) : list (list ascii) :=
  match s with
  | c :: s' => if is_space c then match_spaces s' ++ [s'] else []
  | [] => []
  end.

Inductive directive := dir_Y | dir_m | dir_d | dir_H | dir_M | dir_S | dir_f.

Definition d09 := is_digit.

(** The regular expression of each directive, from [_strptime.TimeRE]. *)
Definition directive_regex (d : directive) : list (list (ascii -> bool)) :=
  match d with
  | dir_Y => [[d09; d09; d09; d09]]                         (* \d\d\d\d *)
  | dir_m => [[chr "1"; in_range "0" "2"];                  (* 1[0-2]|0[1-9]|[1-9] *)
              [chr "0"; in_range "1" "9"];
              [in_range "1" "9"]]
  | dir_d => [[chr "3"; in_range "0" "1"];                  (* 3[0-1]|[1-2]\d|0[1-9]|[1-9]| [1-9] *)
              [in_range "1" "2"; d09];
              [chr "0"; in_range "1" "9"];
              [in_range "1" "9"];
              [chr " "; in_range "1" "9"]]
  | dir_H => [[chr "2"; in_range "0" "3"];                  (* 2[0-3]|[0-1]\d|\d *)
              [in_range "0" "1"; d09];
              [d09]]
  | dir_M => [[in_range "0" "5"; d09]; [d09]]               (* [0-5]\d|\d *)
  | dir_S => [[chr "6"; in_range "0" "1"];                  (* 6[0-1]|[0-5]\d|\d *)
              [in_range "0" "5"; d09];
              [d09]]
  | dir_f => [[d09; d09; d09; d09; d09; d09];               (* [0-9]{1,6} *)
              [d09; d09; d09; d09; d09];
              [d09; d09; d09; d09];
              [d09; d09; d09];
              [d09; d09];
              [d09]]
  end.

Inductive format_item :=
| Directive (d : directive)
| Literal (c : ascii)
| Whitespace.

(** ['%Y-%m-%d %H:%M:%S.%f'] *)
Definition FORMAT_MICROSECONDS : list format_item :=
  [Directive dir_Y; Literal "-"; Directive dir_m; Literal "-"; Directive dir_d;
   Whitespace;
   Directive dir_H; Literal ":"; Directive dir_M; Literal ":"; Directive dir_S;
   Literal "."; Directive dir_f].

(** ['%Y-%m-%d %H:%M:%S'] *)
Definition FORMAT_SECONDS : list format_item :=
  [Directive dir_Y; Literal "-"; Directive dir_m; Literal "-"; Directive dir_d;
   Whitespace;
   Directive dir_H; Literal ":"; Directive dir_M; Literal ":"; Directive dir_S].

(** ['%Y-%m-%d'] *)
Definition FORMAT_DATE : list format_item :=
  [Directive dir_Y; Literal "-"; Directive dir_m; Literal "-"; Directive dir_d].

(** [int(s)] on a matched group: digits, possibly after a blank. *)
Definition int_of_digits (m : list ascii) : Z :=
  fold_left (fun acc c => if is_digit c then acc * 10 + (Z.of_N (code c) - 48) else acc) m 0.

(** The fields default as in [_strptime]: 1900-01-01 00:00:00.000000. *)
Definition default_fields : datetime := mk_datetime 1900 1 1 0 0 0 0.

Definition set_field (d : directive) (m : list ascii) (t : datetime) : datetime :=
  let v := int_of_digits m in
  match d with
  | dir_Y => mk_datetime v (dt_month t) (dt_day t) (dt_hour t) (dt_minute t) (dt_second t) (dt_microsecond t)
  | dir_m => mk_datetime (dt_year t) v (dt_day t) (dt_hour t) (dt_minute t) (dt_second t) (dt_microsecond t)
  | dir_d => mk_datetime (dt_year t) (dt_month t) v (dt_hour t) (dt_minute t) (dt_second t) (dt_microsecond t)
  | dir_H => mk_datetime (dt_year t) (dt_month t) (dt_day t) v (dt_minute t) (dt_second t) (dt_microsecond t)
  | dir_M => mk_datetime (dt_year t) (dt_month t) (dt_day t) (dt_hour t) v (dt_second t) (dt_microsecond t)
  | dir_S => mk_datetime (dt_year t) (dt_month t) (dt_day t) (dt_hour t) (dt_minute t) v (dt_microsecond t)
  | dir_f =>
      (* the digits are padded with zeros on the right to six places *)
      mk_datetime (dt_year t) (dt_month t) (dt_day t) (dt_hour t) (dt_minute t) (dt_second t)
                  (v * 10 ^ (6 - Z.of_nat (List.length m)))
  end.

Fixpoint match_format (items : list format_item) (s : list ascii) (t : datetime)
    : list (datetime * list ascii) :=
  match items with
  | [] => [(t, s)]
  | Directive d :: items' =>
      flat_map (fun '(m, rest) => match_format items' rest (set_field d m t))
               (match_alternatives (directive_regex d) s)
  | Literal x :: items' =>
      match s with
      | c :: rest => if chr x c then match_format items' rest t else []
      | [] => []
      end
  | Whitespace :: items' =>
      flat_map (fun rest => match_format items' rest t) (match_spaces s)
  end.

Definition is_leap (y : Z) : bool :=
  ((y mod 4 =? 0) && negb (y mod 100 =? 0)) || (y mod 400 =? 0).

Definition days_in_month (y m : Z) : Z :=
  if m =? 2 then (if is_leap y then 29 else 28)
  else if (m =? 4) || (m =? 6) || (m =? 9) || (m =? 11) then 30
  else 31.

(** The range checks of the [datetime] constructor. *)
Definition valid_datetime (t : datetime) : bool :=
  (1 <=? dt_year t) && (dt_year t <=? 9999)
  && (1 <=? dt_month t) && (dt_month t <=? 12)
  && (1 <=? dt_day t) && (dt_day t <=? days_in_month (dt_year t) (dt_month t))
  && (0 <=? dt_hour t) && (dt_hour t <=? 23)
  && (0 <=? dt_minute t) && (dt_minute t <=? 59)
  && (0 <=? dt_second t) && (dt_second t <=? 59)
  && (0 <=? dt_microsecond t) && (dt_microsecond t <=? 999999).

(** [datetime.strptime(data, format)]: [TypeError] if [data] is not a [str],
    [ValueError] if it does not match, if input remains after the match, or
    if the fields are out of range. *)
Definition strptime (data : pyval) (format : list format_item) : result datetime :=
  match data with
  | PStr s =>
      match match_format format (list_ascii_of_string s) default_fields with
      | (t, []) :: _ => if valid_datetime t then Ret t else Raise ValueError
      | _ => Raise ValueError
      end
  | _ => Raise TypeError
  end.


(** [s.split()[0]]: the first run of non-blank characters. *)
Fixpoint skip_spaces (s : list ascii) : list ascii :=
  match s with
  | c :: s' => if is_space c then skip_spaces s' else s
  | [] => []
  end.

Fixpoint take_word (s : list ascii) : list ascii :=
  match s with
  | c :: s' => if is_space c then [] else c :: take_word s'
  | [] => []
  end.

Definition split_first (s : string) : result string :=
  match skip_spaces (list_ascii_of_string s) with
  | [] => Raise IndexError
  | w => Ret (string_of_list_ascii (take_word w))
  end.

(** ** Floats: [int / int] and [round(x, 2)] *)

Definition SF_of_Z (z : Z) : spec_float :=
  match z with
  | Z0 => S754_zero false
  | Zpos p => S754_finite false p 0
  | Zneg p => S754_finite true p 0
  end.

(** True division of two ints: the correctly rounded quotient,
    [ZeroDivisionError] on a zero divisor. *)
Definition int_truediv (a b : Z) : result float :=
  if b =? 0 then Raise ZeroDivisionError
  else Ret (SF2Prim (SFdiv prec emax (SF_of_Z a) (SF_of_Z b))).

(** The integer nearest to [n / d] for [0 <= n] and [0 < d], ties to even. *)
Definition round_half_even (n d : Z) : Z :=
  let q := n / d in
  let r := n mod d in
  if 2 * r <? d then q
  else if d <? 2 * r then q + 1
  else if Z.even q then q else q + 1.

(** [round(x, 2)] on a float: the decimal with two places nearest to the
    exact value of [x] (ties to even), converted back to the nearest float.
    Infinities, NaN and integral values round to themselves. *)
Definition float_round2 (x : float) : float :=
  match Prim2SF x with
  | S754_finite s m e =>
      if 0 <=? e then x
      else
        match round_half_even (Z.pos m * 100) (2 ^ (- e)) with
        | Zpos k => SF2Prim (SFdiv prec emax (S754_finite s k 0) (SF_of_Z 100))
        | _ => SF2Prim (S754_zero s)
        end
  | _ => x
  end.

(** [round(v, 2)]: an int is returned unchanged. *)
Definition py_round2 (v : pyval) : result pyval :=
  match v with
  | PInt z => Ret (PInt z)
  | PBool b => Ret (PInt (if b then 1 else 0))
  | PFloat f => Ret (PFloat (float_round2 f))
  | _ => Raise TypeError
  end.

(** The quotient of two counts, as the specification words it: the float
    nearest to the exact ratio [a / b].  This is stated on the integers, not
    through [int_truediv]. *)
Definition nearest_float_to_ratio (a b : Z) : float :=
  let exact n :=
    match n with
    | Z0 => S754_zero false
    | Zpos p => S754_finite false p 0
    | Zneg p => S754_finite true p 0
    end in
  SF2Prim (SFdiv prec emax (exact a) (exact b)).

(** Rounding to two decimal places, as the specification words it: [r] is
    the float nearest to [k / 100], where [k] is the integer nearest to
    [100 * x], the even one of the two when [100 * x] lies halfway.  A float
    [x] is [m * 2^e] up to its sign; without a fractional part ([0 <= e]),
    and for infinities and NaN, there is nothing to round.  This is stated
    on the bits of [x], not through [float_round2]. *)
Definition rounded_to_two_places (x r : float) : Prop :=
  match Prim2SF x with
  | S754_finite s m e =>
      if 0 <=? e then r = x
      else
        exists k,
          0 <= k /\
          2 * Z.abs (Z.pos m * 100 - k * 2 ^ (- e)) <= 2 ^ (- e) /\
          (2 * Z.abs (Z.pos m * 100 - k * 2 ^ (- e)) = 2 ^ (- e) -> Z.even k = true) /\
          r = match k with
              | Zpos p => SF2Prim (SFdiv prec emax (S754_finite s p 0) (S754_finite false 100 0))
              | _ => SF2Prim (S754_zero s)
              end
  | _ => r = x
  end.

(** ** The environment of one run *)

(** Where a load meets a fault, if anywhere.  The first three are a
    [psycopg2.Error].  The last is the [ValueError] that psycopg2 raises
    while it adapts the values of a page when one of its texts holds a NUL
    character; the batch decides whether it happens, the environment records
    on which page. *)
Inductive db_fault :=
| NoFault
| FaultConnect              (* psycopg2.connect fails *)
| FaultExecute (n : nat)    (* the n-th INSERT statement fails (from 0) *)
| FaultCommit               (* COMMIT fails *)
| FaultNul (n : nat).       (* a NUL character in a text of the n-th page *)

(** The calls of [upload_to_google_sheets] into google.oauth2 and gspread. *)
Inductive gs_call :=
| GsCredentials     (* Credentials.from_service_account_file *)
| GsAuthorize       (* gspread.authorize *)
| GsOpen            (* client.open, other than SpreadsheetNotFound *)
| GsCreate          (* client.create *)
| GsWorksheet       (* spreadsheet.worksheet, other than WorksheetNotFound *)
| GsAddWorksheet    (* spreadsheet.add_worksheet *)
| GsAppendHeader    (* worksheet.append_row(headers) *)
| GsAppendRow.      (* worksheet.append_row(row_data) *)

(** What [requests.get] and [response.json()] do. *)
Inductive http_outcome :=
| HttpResponse (status_code : Z) (json : result (list pyval))
| HttpFailure.

Definition gs_call_eqb (a b : gs_call) : bool :=
  match a, b with
  | GsCredentials, GsCredentials | GsAuthorize, GsAuthorize | GsOpen, GsOpen
  | GsCreate, GsCreate | GsWorksheet, GsWorksheet | GsAddWorksheet, GsAddWorksheet
  | GsAppendHeader, GsAppendHeader | GsAppendRow, GsAppendRow => true
  | _, _ => false
  end.

Record env := mk_env {
  START_DATE : string;
  END_DATE : string;
  api : http_outcome;
  schema_fault : bool;          (* a psycopg2.Error in create_database_table *)
  load_fault : db_fault;
  stats_fault : bool;           (* a psycopg2.Error in get_daily_statistics *)
  GSHEETS_ENABLED : bool;
  GSHEETS_AVAILABLE : bool;
  credentials_exist : result bool;   (* Path(GSHEETS_CREDENTIALS).exists() *)
  sheets_fault : option gs_call      (* the spreadsheet call that raises, if reached *)
}.

Definition set_table (rows : list NormalizedAttempt) : M unit :=
  fun w => (Ret tt, mk_world rows (table_exists w) (sheet w) (trace w)).

Definition get_table : M (list NormalizedAttempt) :=
  fun w => (Ret (table w), w).

Definition mark_table_exists : M unit :=
  fun w => (Ret tt, mk_world (table w) true (sheet w) (trace w)).

Definition get_sheet : M spreadsheet :=
  fun w => (Ret (sheet w), w).

Definition set_sheet (s : spreadsheet) : M unit :=
  fun w => (Ret tt, mk_world (table w) (table_exists w) s (trace w)).

(** [worksheet.append_row]: one more row at the end of the worksheet; on a
    worksheet that is not there, the fault of the API. *)
Definition append_row (row : sheet_row) : M unit :=
  fun w =>
    match sheet w with
    | Worksheet rows =>
        (Ret tt, mk_world (table w) (table_exists w) (Worksheet (rows ++ [row])) (trace w))
    | _ => (Raise GspreadError, w)
    end.

(** [try: body finally: final]. *)
Definition try_finally {A} (body : M A) (final : M unit) : M A :=
  fun w =>
    match body w with
    | (r, w') =>
        match final w' with
        | (Ret _, w'') => (r, w'')
        | (Raise e, w'') => (Raise e, w'')
        end
    end.

(** ** psycopg2: one connection, one transaction *)

(** The rows inserted by the open transaction and [cursor.rowcount]. *)
Record cursor := mk_cursor {
  pending : list NormalizedAttempt;
  rowcount : Z;
  executed : nat           (* statements executed so far *)
}.

Definition connect (f : db_fault) : M cursor :=
  match f with
  | FaultConnect => raise Psycopg2Error
  | _ => ret (mk_cursor [] (-1) 0)
  end.

(** One page of [execute_values]: the values of the page are adapted
    ([cursor.mogrify], which raises [ValueError] on a NUL character), then
    one multi-row INSERT is executed; [rowcount] becomes the size of this
    statement. *)
Definition execute_insert (f : db_fault) (cur : cursor) (page : list NormalizedAttempt)
    : result cursor :=
  match f with
  | FaultNul n =>
      if Nat.eqb n (executed cur) then Raise ValueError
      else Ret (mk_cursor (pending cur ++ page) (Z.of_nat (List.length page)) (S (executed cur)))
  | FaultExecute n =>
      if Nat.eqb n (executed cur) then Raise Psycopg2Error
      else Ret (mk_cursor (pending cur ++ page) (Z.of_nat (List.length page)) (S (executed cur)))
  | _ => Ret (mk_cursor (pending cur ++ page) (Z.of_nat (List.length page)) (S (executed cur)))
  end.

(** [psycopg2.extras._paginate]: pages of [page_size] items, the last one
    possibly shorter. *)
Fixpoint paginate {A} (page_size : nat) (page : list A) (seq : list A) : list (list A) :=
  match seq with
  | [] => match page with [] => [] | _ => [page] end
  | x :: rest =>
      if Nat.eqb (List.length (page ++ [x])) page_size
      then (page ++ [x]) :: paginate page_size [] rest
      else paginate page_size (page ++ [x]) rest
  end.

Fixpoint execute_pages (f : db_fault) (cur : cursor) (pages : list (list NormalizedAttempt))
    : result cursor :=
  match pages with
  | [] => Ret cur
  | page :: pages' =>
      match execute_insert f cur page with
      | Ret cur' => execute_pages f cur' pages'
      | Raise e => Raise e
      end
  end.

(** [execute_values(cursor, query, values)] with its default
    [page_size=100]: one INSERT statement per page. *)
Definition execute_values (f : db_fault) (cur : cursor) (values : list NormalizedAttempt)
    : result cursor :=
  execute_pages f cur (paginate 100 [] values).

(** The size of the last page: what [cursor.rowcount] holds after
    [execute_values]. *)
Definition last_page_size (records : list NormalizedAttempt) : Z :=
  Z.of_nat (List.length (last (paginate 100 [] records) [])).

(** [conn.commit()]: the pending rows reach the table.  Leaving the
    [with] block by an exception rolls back, that is, drops [pending]. *)
Definition commit (f : db_fault) (cur : cursor) : M unit :=
  match f with
  | FaultCommit => raise Psycopg2Error
  | _ => rows <- get_table ;; set_table (rows ++ pending cur)
  end.

(** ** The script *)

Section Script.

Context {runtime : PyRuntime}.

Definition fetch_data_from_api (e : env) (start_date end_date : string)
    : M (option (list pyval)) :=
  try_except
    (log INFO (MsgApiRequest start_date end_date) ;;;
     match api e with
     | HttpFailure => raise RequestException
     | HttpResponse status_code json =>
         if status_code =? 200 then
           data <- lift json ;;
           log INFO (MsgApiReceived (List.length data)) ;;;
           ret (Some data)
         else
           log ERROR (MsgApiStatus status_code) ;;;
           ret None
     end)
    (fun ex => match ex with RequestException | JSONDecodeError => true | _ => false end)
    (fun ex =>
       match ex with
       | RequestException => log ERROR MsgApiRequestError ;;; ret None
       | _ => log ERROR MsgApiJsonError ;;; ret None
       end).

Definition parse_passback_params (passback_str : pyval) : M pyval :=
  try_except
    (if match passback_str with PNone => true | _ => is_str "None" passback_str end
     then ret (PDict [])
     else
       passback_dict <- lift (literal_eval passback_str) ;;
       match passback_dict with
       | PDict _ => ret passback_dict
       | _ =>
           log WARNING (MsgPassbackNotDict passback_dict) ;;;
           ret (PDict [])
       end)
    is_ValueError_or_SyntaxError
    (fun ex => log WARNING (MsgPassbackParseError ex) ;;; ret (PDict [])).

Definition required : list string :=
  ["lti_user_id"; "passback_params"; "attempt_type"; "created_at"].

(** The loop over [required]: [false] once a field is missing. *)
Fixpoint check_required (record : pyval) (fields : list string) : M bool :=
  match fields with
  | [] => ret true
  | field :: fields' =>
      present <- lift (py_contains field record) ;;
      if present then check_required record fields'
      else log WARNING (MsgMissingField field) ;;; ret false
  end.

Definition validate_record (record : pyval) : M (option NormalizedAttempt) :=
  try_except
    (all_present <- check_required record required ;;
     if negb all_present then ret None else
     passback_str <- lift (py_getitem record "passback_params") ;;
     passback_dict <- parse_passback_params passback_str ;;
     attempt_type <- lift (py_getitem record "attempt_type") ;;
     if negb (is_str "run" attempt_type || is_str "submit" attempt_type) then
       _ <- lift (str attempt_type) ;;     (* the f-string of the warning *)
       log WARNING (MsgBadAttemptType attempt_type) ;;; ret None
     else
     raw_is_correct <- lift (py_get record "is_correct" PNone) ;;
     match
       match raw_is_correct with
       | PNone => Some PNone
       | PInt z => Some (PBool (negb (z =? 0)))     (* isinstance(_, int) *)
       | PBool b => Some (PBool b)                  (* bool is an int; bool(b) = b *)
       | _ => None
       end
     with
     | None => log WARNING (MsgBadIsCorrect raw_is_correct) ;;; ret None
     | Some is_correct =>
     raw_created_at <- lift (py_getitem record "created_at") ;;
     date_ok <-
       try_except
         (_ <- lift (strptime raw_created_at FORMAT_MICROSECONDS) ;; ret true)
         is_ValueError
         (fun _ =>
            try_except
              (_ <- lift (strptime raw_created_at FORMAT_SECONDS) ;; ret true)
              is_ValueError
              (fun _ => log WARNING (MsgBadDate raw_created_at) ;;; ret false)) ;;
     if negb date_ok then ret None else
     lti_user_id <- lift (py_getitem record "lti_user_id") ;;
     user <- lift (str lti_user_id) ;;
     key <- lift (py_get passback_dict "oauth_consumer_key" (PStr "")) ;;
     key <- lift (str key) ;;
     sourcedid <- lift (py_get passback_dict "lis_result_sourcedid" (PStr "")) ;;
     sourcedid <- lift (str sourcedid) ;;
     url <- lift (py_get passback_dict "lis_outcome_service_url" (PStr "")) ;;
     url <- lift (str url) ;;
     created <- lift (py_getitem record "created_at") ;;
     ret (Some {| user_id := PStr user;
                  oauth_consumer_key := PStr key;
                  lis_result_sourcedid := PStr sourcedid;
                  lis_outcome_service_url := PStr url;
                  is_correct := is_correct;
                  attempt_type := attempt_type;
                  created_at := created |})
     end)
    any_Exception
    (fun ex => log ERROR (MsgValidationError ex) ;;; ret None).

(** The loop of [process_data], carrying [validated] and [skipped]. *)
Fixpoint process_loop (raw_data : list pyval)
    (validated : list NormalizedAttempt) (skipped : nat)
    : M (list NormalizedAttempt * nat) :=
  match raw_data with
  | [] => ret (validated, skipped)
  | record :: raw_data' =>
      valid <- validate_record record ;;
      match valid with
      | Some v => process_loop raw_data' (validated ++ [v]) skipped
      | None => process_loop raw_data' validated (S skipped)
      end
  end.

Definition process_data (raw_data : list pyval) : M (list NormalizedAttempt) :=
  log INFO MsgProcessStart ;;;
  loop <- process_loop raw_data [] 0%nat ;;
  let '(validated, skipped) := loop in
  log INFO (MsgProcessed (List.length validated) skipped) ;;;
  ret validated.

Definition create_database_table (e : env) : M unit :=
  emit CallCreateTable ;;;
  try_except
    ((if schema_fault e then raise Psycopg2Error else mark_table_exists) ;;;
     log INFO MsgTableReady)
    is_Psycopg2Error
    (fun ex => log ERROR (MsgTableError ex) ;;; raise ex).

Definition load_data_to_database (e : env) (records : list NormalizedAttempt) : M Z :=
  emit (CallLoad (List.length records)) ;;;
  match records with
  | [] => log WARNING MsgNoRecords ;;; ret 0
  | _ =>
      log INFO (MsgLoading (List.length records)) ;;;
      try_except
        (cur <- connect (load_fault e) ;;
         let values := records in
         cur <- lift (execute_values (load_fault e) cur values) ;;
         commit (load_fault e) cur ;;;
         let count := rowcount cur in
         log INFO (MsgLoaded count) ;;;
         ret count)
        is_Psycopg2Error
        (fun ex => log ERROR (MsgLoadError ex) ;;; raise ex)
  end.

Definition count_where {A} (p : A -> bool) (rows : list A) : Z :=
  Z.of_nat (List.length (filter p rows)).

Definition sql_is (b : bool) (v : pyval) : bool :=
  match v with PBool c => Bool.eqb b c | _ => false end.

Definition sql_is_null (v : pyval) : bool :=
  match v with PNone => true | _ => false end.

Fixpoint texts (vs : list pyval) : list string :=
  match vs with
  | [] => []
  | PStr s :: vs' => s :: texts vs'
  | _ :: vs' => texts vs'
  end.

(** The SELECT of [get_daily_statistics].  An aggregate without GROUP BY
    yields exactly one row, whatever the WHERE clause keeps; [fetchone]
    returns it. *)
Definition daily_query (rows : list NormalizedAttempt) (d : string)
    : option (Z * Z * Z * Z * Z * Z * Z) :=
  let day := filter (fun r => sql_on_date (created_at r) d) rows in
  Some (count_where (fun _ => true) day,
        count_where (fun r => sql_is true (is_correct r)) day,
        count_where (fun r => sql_is false (is_correct r)) day,
        count_where (fun r => sql_is_null (is_correct r)) day,
        Z.of_nat (List.length (nodup string_dec (texts (map user_id day)))),
        count_where (fun r => is_str "run" (attempt_type r)) day,
        count_where (fun r => is_str "submit" (attempt_type r)) day).

Definition get_daily_statistics (e : env) (d : string) : M (option DailyStatistics) :=
  emit (CallStats d) ;;;
  try_except
    (rows <- (if stats_fault e then raise Psycopg2Error else get_table) ;;
     let result := daily_query rows d in
     match result with
     | Some (total, success, failed, runs, users, run_cnt, submit_cnt) =>
         rate <- (if submit_cnt >? 0
                  then q <- lift (int_truediv success submit_cnt) ;;
                       ret (PFloat (q * 100)%float)
                  else ret (PInt 0)) ;;
         rounded <- lift (py_round2 rate) ;;
         let stats := {| date := d;
                         total_attempts := total;
                         successful_attempts := success;
                         failed_attempts := failed;
                         run_attempts := runs;
                         unique_users := users;
                         run_count := run_cnt;
                         submit_count := submit_cnt;
                         success_rate := rounded |} in
         log INFO (MsgStats stats) ;;;
         ret (Some stats)
     | None => ret None
     end)
    is_Psycopg2Error
    (fun ex => log ERROR (MsgStatsError ex) ;;; ret None).

(** A call into google.oauth2 or gspread: it raises when the environment
    says so. *)
Definition gs (e : env) (c : gs_call) : M unit :=
  match sheets_fault e with
  | Some faulty => if gs_call_eqb faulty c then raise GspreadError else ret tt
  | None => ret tt
  end.

Definition upload_to_google_sheets (e : env) (stats : DailyStatistics) : M bool :=
  emit (CallPublish stats) ;;;
  if negb (GSHEETS_ENABLED e) then log INFO MsgSheetsDisabled ;;; ret false
  else if negb (GSHEETS_AVAILABLE e) then log WARNING MsgSheetsUnavailable ;;; ret false
  else
    found <- lift (credentials_exist e) ;;      (* outside the try *)
    if negb found then log WARNING MsgSheetsNoCredentials ;;; ret false
    else
    try_except
      (log INFO MsgSheetsUploading ;;;
       gs e GsCredentials ;;;
       gs e GsAuthorize ;;;
       gs e GsOpen ;;;
       spreadsheet <- get_sheet ;;
       match spreadsheet with
       | NoSpreadsheet =>                         (* SpreadsheetNotFound *)
           gs e GsCreate ;;;
           set_sheet NoWorksheet ;;;
           log INFO MsgSheetsCreated
       | _ => ret tt
       end ;;;
       gs e GsWorksheet ;;;
       spreadsheet <- get_sheet ;;
       match spreadsheet with
       | Worksheet _ => ret tt
       | _ =>                                     (* WorksheetNotFound *)
           gs e GsAddWorksheet ;;;
           set_sheet (Worksheet []) ;;;
           gs e GsAppendHeader ;;;
           append_row HeaderRow
       end ;;;
       gs e GsAppendRow ;;;
       append_row (DataRow stats) ;;;
       log INFO MsgSheetsUploaded ;;;
       ret true)
      any_Exception
      (fun _ => log ERROR MsgSheetsError ;;; ret false).

Definition main (e : env) : M unit :=
  log INFO MsgStart ;;;
  try_finally
    (try_except
       (let start_str := START_DATE e in
        let end_str := END_DATE e in
        log INFO (MsgPeriod start_str end_str) ;;;
        raw_data <- fetch_data_from_api e start_str end_str ;;
        match raw_data with
        | None => log ERROR MsgFetchFailed ;;; ret tt
        | Some raw_data =>
            if Nat.eqb (List.length raw_data) 0 then log INFO MsgFetchEmpty ;;; ret tt
            else
              validated_data <- process_data raw_data ;;
              if Nat.eqb (List.length validated_data) 0
              then log WARNING MsgNoneValid ;;; ret tt
              else
                create_database_table e ;;;
                loaded_count <- load_data_to_database e validated_data ;;
                log INFO (MsgEtlDone loaded_count) ;;;
                date_for_stats <- lift (split_first start_str) ;;
                stats <- get_daily_statistics e date_for_stats ;;
                match stats with
                | Some stats => _ <- upload_to_google_sheets e stats ;; ret tt
                | None => ret tt
                end ;;;
                log INFO MsgRunOk
        end)
       any_Exception
       (fun ex => log ERROR (MsgCritical ex) ;;; log INFO MsgRunFailed))
    (log INFO MsgTime).

End Script.

(** ** A reference runtime

    An executable instance of [PyRuntime] on a fragment of Python's literal
    syntax: decimal integers of at most 4300 digits, [None], [True],
    [False], quoted text without
    backslashes, and list, tuple, set and dict displays.  It is used to run
    the script on concrete records; outside the fragment (floats, bytes,
    escapes, signs, implicit concatenation) it answers [SyntaxError] or a
    placeholder text, which is not what Python does.  No theorem stated for
    every runtime depends on it. *)

Module Reference.

Inductive token :=
| TLBrace | TRBrace | TLBracket | TRBracket | TLParen | TRParen
| TComma | TColon
| TString (s : string)
| TNumber (z : Z)
| TName (s : string).

Definition is_name_start (c : ascii) : bool :=
  in_range "a" "z" c || in_range "A" "Z" c || chr "_" c.

Definition is_name_char (c : ascii) : bool := is_name_start c || is_digit c.

(** The longest prefix in class [p], and the rest. *)
Fixpoint span (p : ascii -> bool) (s : list ascii) : list ascii * list ascii :=
  match s with
  | c :: s' => if p c then let '(a, b) := span p s' in (c :: a, b) else ([], s)
  | [] => ([], [])
  end.

(** The body of a quoted literal up to the closing quote [q]. *)
Fixpoint read_quoted (q : ascii) (s : list ascii) : option (list ascii * list ascii) :=
  match s with
  | [] => None
  | c :: s' =>
      if chr q c then Some ([], s')
      else if (code c =? 92)%N || (code c =? 10)%N then None
      else match read_quoted q s' with
           | Some (body, rest) => Some (c :: body, rest)
           | None => None
           end
  end.

Definition punctuation (c : ascii) : option token :=
  if chr "{" c then Some TLBrace else if chr "}" c then Some TRBrace
  else if chr "[" c then Some TLBracket else if chr "]" c then Some TRBracket
  else if chr "(" c then Some TLParen else if chr ")" c then Some TRParen
  else if chr "," c then Some TComma else if chr ":" c then Some TColon
  else None.

(** [None] is a lexical error. *)
Fixpoint tokenize (fuel : nat) (s : list ascii) : option (list token) :=
  match fuel with
  | O => match s with [] => Some [] | _ => None end
  | S fuel' =>
      match s with
      | [] => Some []
      | c :: s' =>
          if chr " " c || (code c =? 9)%N then tokenize fuel' s'
          else if chr "'" c || (code c =? 34)%N then
            match read_quoted c s' with
            | Some (body, rest) =>
                option_map (cons (TString (string_of_list_ascii body))) (tokenize fuel' rest)
            | None => None
            end
          else if is_digit c then
            let '(digits, rest) := span is_digit s in
            if chr "0" c && negb (forallb (chr "0") digits) then None
            else option_map (cons (TNumber (int_of_digits digits))) (tokenize fuel' rest)
          else if is_name_start c then
            let '(name, rest) := span is_name_char s in
            option_map (cons (TName (string_of_list_ascii name))) (tokenize fuel' rest)
          else
            match punctuation c with
            | Some t => option_map (cons t) (tokenize fuel' s')
            | None => None
            end
      end
  end.

Inductive expr :=
| EConst (v : pyval)
| EName (id : string)
| EList (es : list expr)
| ETuple (es : list expr)
| ESet (es : list expr)
| EDict (items : list (expr * expr)).

Definition keywords : list string :=
  ["and"; "as"; "assert"; "async"; "await"; "break"; "class"; "continue";
   "def"; "del"; "elif"; "else"; "except"; "finally"; "for"; "from";
   "global"; "if"; "import"; "in"; "is"; "lambda"; "nonlocal"; "not"; "or";
   "pass"; "raise"; "return"; "try"; "while"; "with"; "yield"].

Definition token_eqb (a b : token) : bool :=
  match a, b with
  | TRBrace, TRBrace | TRBracket, TRBracket | TRParen, TRParen
  | TComma, TComma | TColon, TColon => true
  | _, _ => false
  end.

(** [parse_expr] reads one expression; [parse_items close] reads
    comma-separated expressions up to [close] and tells whether a comma was
    seen; [parse_pairs] reads [key: value] pairs up to the closing brace. *)
Fixpoint parse_expr (fuel : nat) (ts : list token) : option (expr * list token) :=
  match fuel with
  | O => None
  | S fuel' =>
      match ts with
      | TString s :: rest => Some (EConst (PStr s), rest)
      | TNumber z :: rest => Some (EConst (PInt z), rest)
      | TName id :: rest =>
          if String.eqb id "None" then Some (EConst PNone, rest)
          else if String.eqb id "True" then Some (EConst (PBool true), rest)
          else if String.eqb id "False" then Some (EConst (PBool false), rest)
          else if existsb (String.eqb id) keywords then None
          else Some (EName id, rest)
      | TLBracket :: rest =>
          match parse_items fuel' TRBracket rest with
          | Some (es, _, rest') => Some (EList es, rest')
          | None => None
          end
      | TLParen :: rest =>
          match parse_items fuel' TRParen rest with
          | Some ([e], false, rest') => Some (e, rest')
          | Some (es, _, rest') => Some (ETuple es, rest')
          | None => None
          end
      | TLBrace :: TRBrace :: rest => Some (EDict [], rest)
      | TLBrace :: rest =>
          match parse_expr fuel' rest with
          | Some (k, TColon :: rest') =>
              match parse_expr fuel' rest' with
              | Some (v, TRBrace :: rest'') => Some (EDict [(k, v)], rest'')
              | Some (v, TComma :: rest'') =>
                  match parse_pairs fuel' rest'' with
                  | Some (items, rest3) => Some (EDict ((k, v) :: items), rest3)
                  | None => None
                  end
              | _ => None
              end
          | Some (e, TRBrace :: rest') => Some (ESet [e], rest')
          | Some (e, TComma :: rest') =>
              match parse_items fuel' TRBrace rest' with
              | Some (es, _, rest'') => Some (ESet (e :: es), rest'')
              | None => None
              end
          | _ => None
          end
      | _ => None
      end
  end
with parse_items (fuel : nat) (close : token) (ts : list token)
    : option (list expr * bool * list token) :=
  match fuel with
  | O => None
  | S fuel' =>
      match ts with
      | t :: rest =>
          if token_eqb t close then Some ([], false, rest)
          else
            match parse_expr fuel' ts with
            | Some (e, t' :: rest') =>
                if token_eqb t' close then Some ([e], false, rest')
                else if token_eqb t' TComma then
                  match parse_items fuel' close rest' with
                  | Some (es, _, rest'') => Some (e :: es, true, rest'')
                  | None => None
                  end
                else None
            | _ => None
            end
      | [] => None
      end
  end
with parse_pairs (fuel : nat) (ts : list token)
    : option (list (expr * expr) * list token) :=
  match fuel with
  | O => None
  | S fuel' =>
      match ts with
      | TRBrace :: rest => Some ([], rest)
      | _ =>
          match parse_expr fuel' ts with
          | Some (k, TColon :: rest) =>
              match parse_expr fuel' rest with
              | Some (v, TRBrace :: rest') => Some ([(k, v)], rest')
              | Some (v, TComma :: rest') =>
                  match parse_pairs fuel' rest' with
                  | Some (items, rest'') => Some ((k, v) :: items, rest'')
                  | None => None
                  end
              | _ => None
              end
          | _ => None
          end
      end
  end.

(** [ast.parse(s.lstrip(" \t"), mode="eval")]: the whole input is one
    expression, otherwise [SyntaxError]. *)
Definition parse (s : string) : result expr :=
  let cs := list_ascii_of_string s in
  match tokenize (S (List.length cs)) cs with
  | Some ts =>
      match parse_expr (S (List.length ts)) ts with
      | Some (e, []) => Ret e
      | _ => Raise SyntaxError
      end
  | None => Raise SyntaxError
  end.

Fixpoint hashable (v : pyval) : bool :=
  match v with
  | PList _ | PSet _ | PDict _ => false
  | PTuple l => (fix all (l : list pyval) : bool :=
                   match l with [] => true | x :: l' => hashable x && all l' end) l
  | _ => true
  end.

(** [==] between hashable values of the fragment; [True == 1]. *)
Fixpoint key_eqb (a b : pyval) : bool :=
  match a, b with
  | PNone, PNone => true
  | PBool x, PBool y => Bool.eqb x y
  | PBool x, PInt z | PInt z, PBool x => (if x then 1 else 0) =? z
  | PInt x, PInt y => x =? y
  | PStr x, PStr y => String.eqb x y
  | PBytes x, PBytes y => String.eqb x y
  | PTuple l, PTuple l' =>
      (fix all (l l' : list pyval) : bool :=
         match l, l' with
         | [], [] => true
         | x :: l1, y :: l1' => key_eqb x y && all l1 l1'
         | _, _ => false
         end) l l'
  | _, _ => false
  end.

(** [d[k] = v]: an existing key keeps its place. *)
Fixpoint dict_set (k v : pyval) (items : list (pyval * pyval)) : list (pyval * pyval) :=
  match items with
  | [] => [(k, v)]
  | (k', v') :: rest =>
      if key_eqb k' k then (k', v) :: rest else (k', v') :: dict_set k v rest
  end.

Definition set_add (x : pyval) (l : list pyval) : list pyval :=
  if existsb (key_eqb x) l then l else l ++ [x].

(** [ast.literal_eval._convert]: names are malformed nodes ([ValueError]);
    an unhashable set element or dict key is a [TypeError]. *)
Fixpoint convert (e : expr) : result pyval :=
  match e with
  | EConst v => Ret v
  | EName _ => Raise ValueError
  | EList es =>
      match (fix go (es : list expr) : result (list pyval) :=
               match es with
               | [] => Ret []
               | x :: es' =>
                   match convert x with
                   | Ret v => match go es' with Ret vs => Ret (v :: vs) | Raise ex => Raise ex end
                   | Raise ex => Raise ex
                   end
               end) es with
      | Ret vs => Ret (PList vs)
      | Raise ex => Raise ex
      end
  | ETuple es =>
      match (fix go (es : list expr) : result (list pyval) :=
               match es with
               | [] => Ret []
               | x :: es' =>
                   match convert x with
                   | Ret v => match go es' with Ret vs => Ret (v :: vs) | Raise ex => Raise ex end
                   | Raise ex => Raise ex
                   end
               end) es with
      | Ret vs => Ret (PTuple vs)
      | Raise ex => Raise ex
      end
  | ESet es =>
      match (fix go (es : list expr) (acc : list pyval) : result (list pyval) :=
               match es with
               | [] => Ret acc
               | x :: es' =>
                   match convert x with
                   | Ret v => if hashable v then go es' (set_add v acc) else Raise TypeError
                   | Raise ex => Raise ex
                   end
               end) es [] with
      | Ret vs => Ret (PSet vs)
      | Raise ex => Raise ex
      end
  | EDict items =>
      match (fix go (items : list (expr * expr)) (acc : list (pyval * pyval))
               : result (list (pyval * pyval)) :=
               match items with
               | [] => Ret acc
               | (k, v) :: items' =>
                   match convert k with
                   | Ret kv =>
                       match convert v with
                       | Ret vv =>
                           if hashable kv then go items' (dict_set kv vv acc)
                           else Raise TypeError
                       | Raise ex => Raise ex
                       end
                   | Raise ex => Raise ex
                   end
               end) items [] with
      | Ret d => Ret (PDict d)
      | Raise ex => Raise ex
      end
  end.

(** [ast.literal_eval]: text is parsed and converted; any other object is a
    malformed node. *)
Definition ref_literal_eval (node_or_string : pyval) : result pyval :=
  match node_or_string with
  | PStr s =>
      match parse s with
      | Ret e => convert e
      | Raise ex => Raise ex
      end
  | _ => Raise ValueError
  end.

Definition join (sep : string) (parts : list string) : string :=
  match parts with
  | [] => ""
  | p :: ps => fold_left (fun acc x => acc ++ sep ++ x)%string ps p
  end.

(** [repr] on the fragment. *)
Fixpoint ref_repr (v : pyval) : string :=
  let reprs := fix go (l : list pyval) : list string :=
                 match l with [] => [] | x :: l' => ref_repr x :: go l' end in
  match v with
  | PNone => "None"
  | PBool true => "True"
  | PBool false => "False"
  | PInt z => NilZero.string_of_int (Z.to_int z)
  | PStr s => "'" ++ s ++ "'"
  | PList l => "[" ++ join ", " (reprs l) ++ "]"
  | PTuple [x] => "(" ++ ref_repr x ++ ",)"
  | PTuple l => "(" ++ join ", " (reprs l) ++ ")"
  | PSet [] => "set()"
  | PSet l => "{" ++ join ", " (reprs l) ++ "}"
  | PDict items =>
      "{" ++ join ", "
               ((fix go (l : list (pyval * pyval)) : list string :=
                   match l with
                   | [] => []
                   | (k, x) :: l' => (ref_repr k ++ ": " ++ ref_repr x) :: go l'
                   end) items)
          ++ "}"
  | _ => "<object>"
  end%string.

(** [DATE(created_at) = d] when both sides are text in the formats the
    script accepts. *)
Definition ref_sql_on_date (stored : pyval) (d : string) : bool :=
  let timestamp :=
    match strptime stored FORMAT_MICROSECONDS with
    | Ret t => Some t
    | Raise _ =>
        match strptime stored FORMAT_SECONDS with
        | Ret t => Some t
        | Raise _ => None
        end
    end in
  match timestamp, strptime (PStr d) FORMAT_DATE with
  | Some t, Ret t' =>
      (dt_year t =? dt_year t') && (dt_month t =? dt_month t') && (dt_day t =? dt_day t')
  | _, _ => false
  end.

#[export] Instance runtime : PyRuntime := {|
  literal_eval := ref_literal_eval;
  py_repr := ref_repr;
  sql_on_date := ref_sql_on_date
|}.

End Reference.


(** ** Pure views of the validator

    The validator only logs, so its result is a function of the record.
    The definitions below give that function; [validate_record_runs] proves
    that [validate_record] computes it. *)

Section Views.

Context {runtime : PyRuntime}.

(** The log lines of the validator and of the batch processor. *)
Definition validation_event (ev : event) : bool :=
  match ev with
  | Log _ (MsgPassbackNotDict _ | MsgPassbackParseError _ | MsgMissingField _
          | MsgBadAttemptType _ | MsgBadIsCorrect _ | MsgBadDate _
          | MsgValidationError _ | MsgProcessStart | MsgProcessed _ _) => true
  | _ => false
  end.

(** [w'] is [w] after some validation log lines. *)
Definition logs_only (w w' : world) : Prop :=
  table w' = table w /\ table_exists w' = table_exists w /\ sheet w' = sheet w /\
  exists evs, trace w' = trace w ++ evs /\ forallb validation_event evs = true.

(** [m] returns [r] in every world and only logs. *)
Definition runs {A} (m : M A) (r : result A) : Prop :=
  forall w, exists w', m w = (r, w') /\ logs_only w w'.

(** The outcome of the loop over the required fields. *)
Fixpoint all_present (record : pyval) (fields : list string) : result bool :=
  match fields with
  | [] => Ret true
  | field :: fields' =>
      match py_contains field record with
      | Ret true => all_present record fields'
      | Ret false => Ret false
      | Raise ex => Raise ex
      end
  end.

(** The items of the dict [parse_passback_params] returns, or the exception
    that escapes it. *)
Definition passback_of (passback_str : pyval) : result (list (pyval * pyval)) :=
  if match passback_str with PNone => true | _ => is_str "None" passback_str end
  then Ret []
  else
    match literal_eval passback_str with
    | Ret (PDict d) => Ret d
    | Ret _ => Ret []
    | Raise ex => if is_ValueError_or_SyntaxError ex then Ret [] else Raise ex
    end.

Definition coerce_is_correct (raw : pyval) : option pyval :=
  match raw with
  | PNone => Some PNone
  | PInt z => Some (PBool (negb (z =? 0)))
  | PBool b => Some (PBool b)
  | _ => None
  end.

(** The outcome of the two [strptime] attempts. *)
Definition date_accepted (raw : pyval) : result bool :=
  match strptime raw FORMAT_MICROSECONDS with
  | Ret _ => Ret true
  | Raise ValueError =>
      match strptime raw FORMAT_SECONDS with
      | Ret _ => Ret true
      | Raise ValueError => Ret false
      | Raise ex => Raise ex
      end
  | Raise ex => Raise ex
  end.

Definition dict_get (items : list (pyval * pyval)) (k : string) (default : pyval) : pyval :=
  match dict_lookup k items with Some v => v | None => default end.

(** What [validate_record] returns. *)
Definition validated (record : pyval) : option NormalizedAttempt :=
  match record with
  | PDict items =>
      match dict_lookup "lti_user_id" items, dict_lookup "passback_params" items,
            dict_lookup "attempt_type" items, dict_lookup "created_at" items with
      | Some lti_user_id, Some passback_str, Some kind, Some raw_created_at =>
          match passback_of passback_str,
                coerce_is_correct (dict_get items "is_correct" PNone),
                date_accepted raw_created_at with
          | Ret d, Some flag, Ret true =>
              if is_str "run" kind || is_str "submit" kind then
                if str_overflows lti_user_id
                   || str_overflows (dict_get d "oauth_consumer_key" (PStr ""))
                   || str_overflows (dict_get d "lis_result_sourcedid" (PStr ""))
                   || str_overflows (dict_get d "lis_outcome_service_url" (PStr ""))
                then None else
                Some {| user_id := PStr (py_str lti_user_id);
                        oauth_consumer_key :=
                          PStr (py_str (dict_get d "oauth_consumer_key" (PStr "")));
                        lis_result_sourcedid :=
                          PStr (py_str (dict_get d "lis_result_sourcedid" (PStr "")));
                        lis_outcome_service_url :=
                          PStr (py_str (dict_get d "lis_outcome_service_url" (PStr "")));
                        is_correct := flag;
                        attempt_type := kind;
                        created_at := raw_created_at |}
              else None
          | _, _, _ => None
          end
      | _, _, _, _ => None
      end
  | _ => None
  end.

End Views.

(** Log lines of the spreadsheet export. *)
Definition sheets_event (ev : event) : bool :=
  match ev with
  | Log _ (MsgSheetsDisabled | MsgSheetsUnavailable | MsgSheetsNoCredentials
          | MsgSheetsUploading | MsgSheetsCreated | MsgSheetsUploaded
          | MsgSheetsError) => true
  | _ => false
  end.

(** External calls in a trace. *)
Definition is_call (ev : event) : bool :=
  match ev with Log _ _ => false | _ => true end.

Definition calls (t : list event) : list event := filter is_call t.

(** Before the first run: no table, no spreadsheet, an empty log. *)
Definition initial_world : world := mk_world [] false NoSpreadsheet [].

Section Batch.

Context {runtime : PyRuntime}.

(** What the validator makes of one record on its own: the accepted entity,
    or nothing. *)
Definition accepted_one (record : pyval) : list NormalizedAttempt :=
  match fst (validate_record record initial_world) with
  | Ret (Some v) => [v]
  | _ => []
  end.

(** The accepted subset of a batch, in input order. *)
Definition accepted_of (raw_data : list pyval) : list NormalizedAttempt :=
  flat_map accepted_one raw_data.

(** The number of records of a batch the validator rejects. *)
Definition rejected_of (raw_data : list pyval) : nat :=
  List.length (filter (fun record => match accepted_one record with [] => true | _ => false end)
                      raw_data).

End Batch.

(** ** Sample data *)

Definition raw_record (lti_user_id passback_params kind created : pyval)
    (extra : list (pyval * pyval)) : pyval :=
  PDict ([(PStr "lti_user_id", lti_user_id);
          (PStr "passback_params", passback_params);
          (PStr "attempt_type", kind);
          (PStr "created_at", created)] ++ extra).

Definition sample_submit : pyval :=
  raw_record (PStr "user-1") (PStr "{'oauth_consumer_key': 'abc', 'lis_result_sourcedid': 'sid'}")
             (PStr "submit") (PStr "2023-05-31 10:00:00.123456")
             [(PStr "is_correct", PInt 1)].

Definition sample_run : pyval :=
  raw_record (PStr "user-2") (PStr "None") (PStr "run") (PStr "2023-05-31 10:00:00") [].

Definition sample_not_a_dict : pyval :=
  raw_record (PStr "user-3") (PStr "not a dict") (PStr "run") (PStr "2023-05-31 10:00:00") [].

Definition sample_unhashable_key : pyval :=
  raw_record (PStr "user-3") (PStr "{[]: 1}") (PStr "run") (PStr "2023-05-31 10:00:00") [].

Definition sample_empty_user : pyval :=
  raw_record (PStr "") (PStr "None") (PStr "run") (PStr "2023-05-31 10:00:00") [].

Definition sample_bad_kind : pyval :=
  raw_record (PStr "user-4") (PStr "None") (PStr "practice") (PStr "2023-05-31 10:00:00") [].

Definition sample_yes : pyval :=
  raw_record (PStr "user-5") (PStr "None") (PStr "submit") (PStr "2023-05-31 10:00:00")
             [(PStr "is_correct", PStr "yes")].

Definition sample_missing_field : pyval :=
  PDict [(PStr "lti_user_id", PStr "user-6"); (PStr "attempt_type", PStr "run")].

(** The environment of a run without faults, except possibly in the
    aggregate query. *)
Definition run_env (start_date : string) (raw_data : list pyval) (aggregate_fails : bool)
    : env :=
  {| START_DATE := start_date;
     END_DATE := "2023-05-31 23:59:59.999999";
     api := HttpResponse 200 (Ret raw_data);
     schema_fault := false;
     load_fault := NoFault;
     stats_fault := aggregate_fails;
     GSHEETS_ENABLED := true;
     GSHEETS_AVAILABLE := true;
     credentials_exist := Ret true;
     sheets_fault := None |}.

Definition sample_batch : list pyval :=
  [sample_missing_field; sample_bad_kind; sample_submit].

Definition sample_env : env :=
  run_env "2023-05-31 00:00:00.000000" sample_batch false.

(** Every record of the batch is rejected. *)
Definition env_all_rejected : env :=
  run_env "2023-05-31 00:00:00.000000" [sample_missing_field; sample_bad_kind] false.

(** The aggregate query fails. *)
Definition env_stats_fault : env :=
  run_env "2023-05-31 00:00:00.000000" sample_batch true.

(** The window starts on a day for which nothing was loaded. *)
Definition env_other_day : env :=
  run_env "2023-06-01 00:00:00.000000" sample_batch false.

(** An existing table without rows. *)
Definition empty_store : world := mk_world [] true NoSpreadsheet [].

(** All counts zero. *)
Definition zero_statistics (d : string) : DailyStatistics :=
  mk_stats d 0 0 0 0 0 0 0 (PInt 0).

Definition sample_attempt (kind : string) (flag : pyval) : NormalizedAttempt :=
  {| user_id := PStr "user-1";
     oauth_consumer_key := PStr "";
     lis_result_sourcedid := PStr "";
     lis_outcome_service_url := PStr "";
     is_correct := flag;
     attempt_type := PStr kind;
     created_at := PStr "2023-05-31 10:00:00" |}.

(** 101 accepted records: one more than a page of [execute_values]. *)
Definition batch_101 : list NormalizedAttempt :=
  repeat (sample_attempt "run" PNone) 101.

(** Ten rows of one day: three correct submits, one incorrect, six runs. *)
Definition table_10 : list NormalizedAttempt :=
  repeat (sample_attempt "submit" (PBool true)) 3
  ++ [sample_attempt "submit" (PBool false)]
  ++ repeat (sample_attempt "run" PNone) 6.

Definition world_10 : world := mk_world table_10 true NoSpreadsheet [].

(** ** Stages of a run *)

(** The events a run added to the trace of [w]. *)
Definition new_events (w w' : world) : list event :=
  skipn (List.length (trace w)) (trace w').

(** The outer [try ... except Exception ... finally] of [main]. *)
Definition guarded (body : M unit) : M unit :=
  try_finally
    (try_except body any_Exception
       (fun ex => log ERROR (MsgCritical ex) ;;; log INFO MsgRunFailed))
    (log INFO MsgTime).

Section Stages.

Context {runtime : PyRuntime}.

(** [main] from the aggregate on. *)
Definition aggregate_stage (e : env) (start_str : string) : M unit :=
  date_for_stats <- lift (split_first start_str) ;;
  stats <- get_daily_statistics e date_for_stats ;;
  match stats with
  | Some stats => _ <- upload_to_google_sheets e stats ;; ret tt
  | None => ret tt
  end ;;;
  log INFO MsgRunOk.

(** [main] from schema creation on. *)
Definition store_stage (e : env) (validated_data : list NormalizedAttempt) : M unit :=
  create_database_table e ;;;
  loaded_count <- load_data_to_database e validated_data ;;
  log INFO (MsgEtlDone loaded_count) ;;;
  aggregate_stage e (START_DATE e).

(** The body of the [try] block of [main]. *)
Definition main_body (e : env) : M unit :=
  log INFO (MsgPeriod (START_DATE e) (END_DATE e)) ;;;
  raw_data <- fetch_data_from_api e (START_DATE e) (END_DATE e) ;;
  match raw_data with
  | None => log ERROR MsgFetchFailed ;;; ret tt
  | Some raw_data =>
      if Nat.eqb (List.length raw_data) 0 then log INFO MsgFetchEmpty ;;; ret tt
      else
        validated_data <- process_data raw_data ;;
        if Nat.eqb (List.length validated_data) 0
        then log WARNING MsgNoneValid ;;; ret tt
        else store_stage e validated_data
  end.

End Stages.

(** The raw correctness flag is absent, null, an int or a bool. *)
Definition flag_is_coercible (raw : option pyval) : bool :=
  match raw with
  | None | Some PNone | Some (PInt _) | Some (PBool _) => true
  | Some _ => false
  end.

(** A row as the validator produces them: a text user id, a null or
    boolean flag, and a kind that is ["run"] or ["submit"]. *)
Definition row_ok (row : NormalizedAttempt) : bool :=
  match user_id row with PStr _ => true | _ => false end
  && match is_correct row with PNone | PBool _ => true | _ => false end
  && (is_str "run" (attempt_type row) || is_str "submit" (attempt_type row)).

(** The statistics rows of the worksheet, oldest first. *)
Definition data_rows (s : spreadsheet) : list DailyStatistics :=
  match s with
  | Worksheet rows =>
      flat_map (fun row => match row with DataRow stats => [stats] | HeaderRow => [] end) rows
  | _ => []
  end.

(** The calls [upload_to_google_sheets] makes when it finds the
    spreadsheet in state [s] and no call fails. *)
Definition gs_reached (s : spreadsheet) (c : gs_call) : bool :=
  match c with
  | GsCreate => match s with NoSpreadsheet => true | _ => false end
  | GsAddWorksheet | GsAppendHeader => match s with Worksheet _ => false | _ => true end
  | _ => true
  end.

(** The conditions under which [upload_to_google_sheets] appends the row:
    the export is enabled, gspread is importable, the credentials file is
    found, and no call it makes fails. *)
Definition sheets_ready (e : env) (s : spreadsheet) : bool :=
  GSHEETS_ENABLED e && GSHEETS_AVAILABLE e
  && match credentials_exist e with Ret found => found | Raise _ => false end
  && match sheets_fault e with Some c => negb (gs_reached s c) | None => true end.

(** Looking for the credentials file raises: the one exception that
    escapes [upload_to_google_sheets]. *)
Definition credentials_probe (e : env) : option exn :=
  if GSHEETS_ENABLED e && GSHEETS_AVAILABLE e
  then match credentials_exist e with Raise ex => Some ex | Ret _ => None end
  else None.

(** The fetch stage gives [main] nothing to work on. *)
Definition fetch_gives_nothing (e : env) : Prop :=
  match api e with
  | HttpFailure => True
  | HttpResponse status_code json =>
      status_code <> 200 \/ json = Raise RequestException \/
      json = Raise JSONDecodeError \/ json = Ret []
  end.

(** A log line other than the two closing verdicts of a run. *)
Definition plain_log (ev : event) : bool :=
  match ev with
  | Log _ (MsgRunOk | MsgRunFailed) => false
  | Log _ _ => true
  | _ => false
  end.

(** The world a load leaves when it raises [ValueError]: the handler for
    [psycopg2.Error] is skipped. *)
Definition load_aborted_world (records : list NormalizedAttempt) (w : world) : world :=
  add_event (Log INFO (MsgLoading (List.length records)))
    (add_event (CallLoad (List.length records)) w).

(** The world a load leaves when it raises [psycopg2.Error], whatever the
    fault. *)
Definition load_failed_world (records : list NormalizedAttempt) (w : world) : world :=
  add_event (Log ERROR (MsgLoadError Psycopg2Error)) (load_aborted_world records w).

(** ** Log retention *)

(** [Path.glob] on a pattern without directory separators: [*] stands for
    any run of characters, [?] for one character, any other character for
    itself. *)
Fixpoint glob_match (pattern name : string) {struct pattern} : bool :=
  match pattern with
  | EmptyString => match name with EmptyString => true | _ => false end
  | String c pattern' =>
      if (c =? "*")%char then
        (fix star (name : string) : bool :=
           glob_match pattern' name
           || match name with
              | EmptyString => false
              | String _ name' => star name'
              end) name
      else
        match name with
        | EmptyString => false
        | String d name' =>
            ((c =? "?")%char || (c =? d)%char) && glob_match pattern' name'
        end
  end.

(** An entry of the log directory.  [st_mtime] is the modification time as
    [datetime.fromtimestamp] gives it, in microseconds of local time, and is
    absent when [stat] or the conversion raises; [unlink_raises] tells whether
    removing the entry raises (a directory, a missing permission). *)
Record log_file := mk_log_file {
  log_name : string;
  st_mtime : option Z;
  unlink_raises : bool
}.

Definition LOGS_RETENTION_DAYS : Z := 3.

(** [timedelta(days=n)], in microseconds. *)
Definition timedelta_days (n : Z) : Z := n * 86400 * 1000000.

(** The loop of [cleanup_old_logs] over the entries [glob] yields: the
    entries removed by [unlink], and the names printed by the handler, both
    in the order of the listing. *)
Fixpoint cleanup_loop (cutoff_date : Z) (files : list log_file)
    : list log_file * list string :=
  match files with
  | [] => ([], [])
  | log_file :: rest =>
      let (unlinked, printed) := cleanup_loop cutoff_date rest in
      match st_mtime log_file with
      | Some file_time =>
          if file_time <? cutoff_date then
            if unlink_raises log_file
            then (unlinked, log_name log_file :: printed)
            else (log_file :: unlinked, printed)
          else (unlinked, printed)
      | None => (unlinked, log_name log_file :: printed)
      end
  end.

(** [cleanup_old_logs] at local time [now] (in microseconds) on the log
    directory, [None] when it does not exist. *)
Definition cleanup_old_logs (now : Z) (logs_dir : option (list log_file))
    : list log_file * list string :=
  match logs_dir with
  | None => ([], [])
  | Some entries =>
      let cutoff_date := now - timedelta_days LOGS_RETENTION_DAYS in
      cleanup_loop cutoff_date
        (filter (fun f => glob_match "etl_*.log" (log_name f)) entries)
  end.

(** ** More sample data *)

(** A run whose schema creation or load may meet a fault. *)
Definition faulty_env (api_outcome : http_outcome) (schema_fails : bool) (load : db_fault)
    : env :=
  {| START_DATE := "2023-05-31 00:00:00.000000";
     END_DATE := "2023-05-31 23:59:59.999999";
     api := api_outcome;
     schema_fault := schema_fails;
     load_fault := load;
     stats_fault := false;
     GSHEETS_ENABLED := true;
     GSHEETS_AVAILABLE := true;
     credentials_exist := Ret true;
     sheets_fault := None |}.

(** The service answers with status 500. *)
Definition env_status_500 : env :=
  faulty_env (HttpResponse 500 (Ret [])) false NoFault.

(** Creating the schema fails. *)
Definition env_schema_fault : env :=
  faulty_env (HttpResponse 200 (Ret sample_batch)) true NoFault.

(** The commit of the load fails. *)
Definition env_commit_fault : env :=
  faulty_env (HttpResponse 200 (Ret sample_batch)) false FaultCommit.

(** START_DATE is blank. *)
Definition env_blank_start : env := run_env "  " sample_batch false.

(** A text of the first page holds a NUL character. *)
Definition env_nul : env :=
  faulty_env (HttpResponse 200 (Ret sample_batch)) false (FaultNul 0).

(** Looking for the credentials file raises, or appending the statistics
    row fails. *)
Definition sheets_env (found : result bool) (fault : option gs_call) : env :=
  {| START_DATE := "2023-05-31 00:00:00.000000";
     END_DATE := "2023-05-31 23:59:59.999999";
     api := HttpResponse 200 (Ret sample_batch);
     schema_fault := false;
     load_fault := NoFault;
     stats_fault := false;
     GSHEETS_ENABLED := true;
     GSHEETS_AVAILABLE := true;
     credentials_exist := found;
     sheets_fault := fault |}.

Definition env_credentials_denied : env := sheets_env (Raise OSError) None.

Definition env_append_fault : env := sheets_env (Ret true) (Some GsAppendRow).

(** A user id of 4301 digits. *)
Definition sample_long_user : pyval :=
  raw_record (PInt (10 ^ 4300)) (PStr "None") (PStr "run") (PStr "2023-05-31 10:00:00") [].

(** A log directory at noon of 2023-06-04, times in microseconds since
    1970-01-01 (2023-06-04 is day 19512): a log of four days ago, one of
    exactly three days ago, an old file of another name, an old log that
    cannot be removed, and one that cannot be examined. *)
Definition sample_now : Z := (19512 * 86400 + 43200) * 1000000.

Definition sample_logs : list log_file :=
  [mk_log_file "etl_2023-05-31.log" (Some ((19508 * 86400 + 43200) * 1000000)) false;
   mk_log_file "etl_2023-06-01.log" (Some ((19509 * 86400 + 43200) * 1000000)) false;
   mk_log_file "notes.txt" (Some ((19508 * 86400 + 43200) * 1000000)) false;
   mk_log_file "etl_locked.log" (Some ((19508 * 86400 + 43200) * 1000000)) true;
   mk_log_file "etl_gone.log" None false].

(** * Properties *)

(** ** The monad *)

Lemma trace_add_event ev w : trace (add_event ev w) = trace w ++ [ev].
Proof. reflexivity. Qed.

Lemma table_add_event ev w : table (add_event ev w) = table w.
Proof. reflexivity. Qed.

Lemma logs_only_refl w : logs_only w w.
Proof.
  repeat split. exists []. split; [now rewrite app_nil_r | reflexivity].
Qed.

Lemma logs_only_trans w1 w2 w3 :
  logs_only w1 w2 -> logs_only w2 w3 -> logs_only w1 w3.
Proof.
  intros (T1 & X1 & S1 & evs1 & E1 & V1) (T2 & X2 & S2 & evs2 & E2 & V2).
  repeat split; try congruence.
  exists (evs1 ++ evs2). split.
  - rewrite E2, E1. now rewrite app_assoc.
  - rewrite forallb_app, V1, V2. reflexivity.
Qed.

Lemma logs_only_event ev w :
  validation_event ev = true -> logs_only w (add_event ev w).
Proof.
  intros V. repeat split. exists [ev]. split; [reflexivity|].
  cbn. now rewrite V.
Qed.

Lemma runs_ret {A} (a : A) : runs (ret a) (Ret a).
Proof. intros w. exists w. split; [reflexivity | apply logs_only_refl]. Qed.

Lemma runs_raise {A} ex : runs (@raise A ex) (Raise ex).
Proof. intros w. exists w. split; [reflexivity | apply logs_only_refl]. Qed.

Lemma runs_lift {A} (r : result A) : runs (lift r) r.
Proof. intros w. exists w. split; [reflexivity | apply logs_only_refl]. Qed.

Lemma runs_log lv m :
  validation_event (Log lv m) = true -> runs (log lv m) (Ret tt).
Proof.
  intros V w. exists (add_event (Log lv m) w).
  split; [reflexivity | now apply logs_only_event].
Qed.

Lemma runs_bind {A B} (m : M A) (k : A -> M B) r r' :
  runs m r ->
  match r with Ret a => runs (k a) r' | Raise ex => r' = Raise ex end ->
  runs (bind m k) r'.
Proof.
  intros Hm Hk w. destruct (Hm w) as (w1 & E1 & L1).
  unfold bind. rewrite E1. destruct r as [a|ex].
  - destruct (Hk w1) as (w2 & E2 & L2). exists w2.
    split; [exact E2 | eapply logs_only_trans; eassumption].
  - subst r'. exists w1. split; [reflexivity | exact L1].
Qed.

Lemma runs_try {A} (body : M A) (catches : exn -> bool) (handler : exn -> M A) r r' :
  runs body r ->
  match r with
  | Ret a => r' = Ret a
  | Raise ex => if catches ex then runs (handler ex) r' else r' = Raise ex
  end ->
  runs (try_except body catches handler) r'.
Proof.
  intros Hb Hh w. destruct (Hb w) as (w1 & E1 & L1).
  unfold try_except. rewrite E1. destruct r as [a|ex].
  - subst r'. exists w1. split; [reflexivity | exact L1].
  - destruct (catches ex).
    + destruct (Hh w1) as (w2 & E2 & L2). exists w2.
      split; [exact E2 | eapply logs_only_trans; eassumption].
    + subst r'. exists w1. split; [reflexivity | exact L1].
Qed.

(** One step of symbolic execution of a logging computation. *)
Ltac run :=
  cbn [negb orb andb any_Exception is_ValueError is_ValueError_or_SyntaxError
       py_get py_getitem];
  try unfold str;
  repeat match goal with
    | H : ?b = true |- context [?b] => rewrite H
    | H : ?b = false |- context [?b] => rewrite H
    end;
  cbn [negb];
  lazymatch goal with
  | |- runs (ret _) _ => apply runs_ret
  | |- runs (raise _) _ => apply runs_raise
  | |- runs (lift _) _ => apply runs_lift
  | |- runs (log _ _) _ => apply runs_log; reflexivity
  | |- runs (bind _ _) _ => eapply runs_bind
  | |- runs (try_except _ _ _) _ => first [eassumption | eapply runs_try]
  | |- runs _ _ => eassumption
  | |- _ = _ => reflexivity
  end.

Section ValidatorProofs.

Context {runtime : PyRuntime}.

Lemma check_required_runs record fields :
  runs (check_required record fields) (all_present record fields).
Proof.
  induction fields as [|field fields IH]; cbn [check_required all_present].
  - apply runs_ret.
  - eapply runs_bind; [apply runs_lift|].
    destruct (py_contains field record) as [[|]|ex]; cbn beta iota.
    + exact IH.
    + repeat run.
    + reflexivity.
Qed.

Lemma parse_passback_params_runs passback_str :
  runs (parse_passback_params passback_str)
       (match passback_of passback_str with
        | Ret d => Ret (PDict d)
        | Raise ex => Raise ex
        end).
Proof.
  unfold parse_passback_params, passback_of.
  destruct (match passback_str with PNone => true | _ => is_str "None" passback_str end).
  - eapply runs_try; [apply runs_ret | reflexivity].
  - destruct (literal_eval passback_str) as [v|ex].
    + eapply runs_try.
      * eapply runs_bind; [apply runs_lift | cbn beta iota].
        instantiate (1 := Ret match v with PDict d => PDict d | _ => PDict [] end).
        destruct v; repeat run.
      * destruct v; reflexivity.
    + eapply runs_try.
      * eapply runs_bind; [apply runs_lift | reflexivity].
      * cbn beta iota. destruct (is_ValueError_or_SyntaxError ex); repeat run.
Qed.

Lemma date_check_runs raw (k : message) :
  validation_event (Log WARNING k) = true ->
  runs (try_except
          (_ <- lift (strptime raw FORMAT_MICROSECONDS) ;; ret true)
          is_ValueError
          (fun _ =>
             try_except
               (_ <- lift (strptime raw FORMAT_SECONDS) ;; ret true)
               is_ValueError
               (fun _ => log WARNING k ;;; ret false)))
       (date_accepted raw).
Proof.
  intros V. unfold date_accepted.
  eapply runs_try; [eapply runs_bind; [apply runs_lift|]|].
  - instantiate (1 := match strptime raw FORMAT_MICROSECONDS with
                      | Ret _ => Ret true | Raise ex => Raise ex end).
    destruct (strptime raw FORMAT_MICROSECONDS); [apply runs_ret | reflexivity].
  - destruct (strptime raw FORMAT_MICROSECONDS) as [t|ex]; [reflexivity|].
    destruct ex; cbn; try reflexivity.
    eapply runs_try; [eapply runs_bind; [apply runs_lift|]|].
    + instantiate (1 := match strptime raw FORMAT_SECONDS with
                        | Ret _ => Ret true | Raise ex => Raise ex end).
      destruct (strptime raw FORMAT_SECONDS); [apply runs_ret | reflexivity].
    + destruct (strptime raw FORMAT_SECONDS) as [t|ex]; [reflexivity|].
      destruct ex; cbn; try reflexivity.
      eapply runs_bind; [apply runs_log; exact V | apply runs_ret].
Qed.

Lemma validate_record_runs record :
  runs (validate_record record) (Ret (validated record)).
Proof.
  unfold validate_record, validated.
  destruct record.
  all: cbn [check_required required py_contains py_getitem py_get].
  all: repeat match goal with
         | |- context [@Ret bool ?b] =>
             lazymatch b with
             | true => fail
             | false => fail
             | match ?x with _ => _ end => destruct x
             | _ => destruct b
             end
         end.
  all: try solve [repeat run].
  pose proof (parse_passback_params_runs p0) as Hpassback.
  pose proof (date_check_runs p2 (MsgBadDate p2) eq_refl) as Hdate.
  unfold coerce_is_correct, dict_get.
  destruct (passback_of p0) as [d|ex];
    destruct (is_str "run" p1 || is_str "submit" p1) eqn:Hkind;
    destruct (dict_lookup "is_correct" items) as [[]|];
    destruct (date_accepted p2) as [[|]|].
  all: try solve [repeat run].
  all: try (destruct (str_overflows p1) eqn:Hformat; solve [repeat run]).
  all: repeat match goal with
         | |- context [str_overflows ?v] => destruct (str_overflows v) eqn:?
         end.
  all: solve [repeat run].
Qed.

Lemma validate_record_result record w :
  fst (validate_record record w) = Ret (validated record).
Proof.
  destruct (validate_record_runs record w) as (w' & E & _). now rewrite E.
Qed.

Lemma validate_record_world record w :
  logs_only w (snd (validate_record record w)).
Proof.
  destruct (validate_record_runs record w) as (w' & E & L). now rewrite E.
Qed.

(** What acceptance says about the record. *)
Lemma validated_inv record n :
  validated record = Some n ->
  exists items lti_user_id passback_str kind raw_created_at d flag,
    record = PDict items /\
    dict_lookup "lti_user_id" items = Some lti_user_id /\
    dict_lookup "passback_params" items = Some passback_str /\
    dict_lookup "attempt_type" items = Some kind /\
    dict_lookup "created_at" items = Some raw_created_at /\
    passback_of passback_str = Ret d /\
    coerce_is_correct (dict_get items "is_correct" PNone) = Some flag /\
    date_accepted raw_created_at = Ret true /\
    is_str "run" kind || is_str "submit" kind = true /\
    n = {| user_id := PStr (py_str lti_user_id);
           oauth_consumer_key := PStr (py_str (dict_get d "oauth_consumer_key" (PStr "")));
           lis_result_sourcedid := PStr (py_str (dict_get d "lis_result_sourcedid" (PStr "")));
           lis_outcome_service_url :=
             PStr (py_str (dict_get d "lis_outcome_service_url" (PStr "")));
           is_correct := flag;
           attempt_type := kind;
           created_at := raw_created_at |}.
Proof.
  unfold validated. intros H.
  destruct record as [| | | | | | | | |items|]; try discriminate.
  destruct (dict_lookup "lti_user_id" items) as [uid|] eqn:E1; try discriminate.
  destruct (dict_lookup "passback_params" items) as [pb|] eqn:E2; try discriminate.
  destruct (dict_lookup "attempt_type" items) as [kind|] eqn:E3; try discriminate.
  destruct (dict_lookup "created_at" items) as [ts|] eqn:E4; try discriminate.
  destruct (passback_of pb) as [d|] eqn:E5; try discriminate.
  destruct (coerce_is_correct _) as [flag|] eqn:E6; try discriminate.
  destruct (date_accepted ts) as [[|]|] eqn:E7; try discriminate.
  destruct (is_str "run" kind || is_str "submit" kind) eqn:E8; try discriminate.
  destruct (_ || _) in H; try discriminate.
  injection H as <-.
  exists items, uid, pb, kind, ts, d, flag. repeat split; assumption.
Qed.

(** An accepted record holds no int too long for [str()] where the
    validator converts to text. *)
Lemma validated_str_ok items lti_user_id passback_str d n :
  validated (PDict items) = Some n ->
  dict_lookup "lti_user_id" items = Some lti_user_id ->
  dict_lookup "passback_params" items = Some passback_str ->
  passback_of passback_str = Ret d ->
  str_overflows lti_user_id = false /\
  str_overflows (dict_get d "oauth_consumer_key" (PStr "")) = false /\
  str_overflows (dict_get d "lis_result_sourcedid" (PStr "")) = false /\
  str_overflows (dict_get d "lis_outcome_service_url" (PStr "")) = false.
Proof.
  unfold validated. intros H E1 E2 E5. rewrite E1, E2, E5 in H.
  destruct (dict_lookup "attempt_type" items) as [kind|]; try discriminate.
  destruct (dict_lookup "created_at" items) as [ts|]; try discriminate.
  destruct (coerce_is_correct _) as [flag|]; try discriminate.
  destruct (date_accepted ts) as [[|]|]; try discriminate.
  destruct (is_str "run" kind || is_str "submit" kind); try discriminate.
  destruct (str_overflows lti_user_id); [discriminate|].
  destruct (str_overflows (dict_get d "oauth_consumer_key" (PStr ""))); [discriminate|].
  destruct (str_overflows (dict_get d "lis_result_sourcedid" (PStr ""))); [discriminate|].
  destruct (str_overflows (dict_get d "lis_outcome_service_url" (PStr ""))); [discriminate|].
  auto.
Qed.

Lemma is_str_eq k v : is_str k v = true -> v = PStr k.
Proof.
  destruct v; cbn; try discriminate. intros H. apply String.eqb_eq in H. now subst.
Qed.

Lemma strptime_text data format t :
  strptime data format = Ret t -> exists s, data = PStr s.
Proof. destruct data; cbn; try discriminate. eauto. Qed.

Lemma strptime_valid data format t :
  strptime data format = Ret t -> valid_datetime t = true.
Proof.
  destruct data; cbn; try discriminate.
  destruct (match_format _ _ _) as [|[t' [|c rest]] l]; try discriminate.
  destruct (valid_datetime t') eqn:V; try discriminate.
  now intros [= <-].
Qed.

Lemma date_accepted_parses raw :
  date_accepted raw = Ret true ->
  exists s t,
    raw = PStr s /\ valid_datetime t = true /\
    (strptime (PStr s) FORMAT_MICROSECONDS = Ret t \/
     strptime (PStr s) FORMAT_SECONDS = Ret t).
Proof.
  unfold date_accepted. intros H.
  destruct (strptime raw FORMAT_MICROSECONDS) as [t|ex] eqn:E1.
  - destruct (strptime_text _ _ _ E1) as [s ->].
    exists s, t. split; [reflexivity|]. split; [eapply strptime_valid; eassumption|].
    now left.
  - destruct ex; try discriminate.
    destruct (strptime raw FORMAT_SECONDS) as [t|ex] eqn:E2.
    + destruct (strptime_text _ _ _ E2) as [s ->].
      exists s, t. split; [reflexivity|]. split; [eapply strptime_valid; eassumption|].
      now right.
    + destruct ex; discriminate.
Qed.

(** C1, as amended.  For every record that [validate_record] accepts, the
    [created_at] of the result is the raw input text itself, unchanged; that
    text parses under ['%Y-%m-%d %H:%M:%S.%f'] or ['%Y-%m-%d %H:%M:%S'] to a
    valid timestamp, which is discarded. *)
Theorem created_at_is_validated_raw_text record w n :
  fst (validate_record record w) = Ret (Some n) ->
  exists s t,
    py_getitem record "created_at" = Ret (PStr s) /\
    created_at n = PStr s /\
    valid_datetime t = true /\
    (strptime (PStr s) FORMAT_MICROSECONDS = Ret t \/
     strptime (PStr s) FORMAT_SECONDS = Ret t).
Proof.
  rewrite validate_record_result. intros [= H].
  apply validated_inv in H.
  destruct H as (items & uid & pb & kind & ts & d & flag & -> & _ & _ & _ & E4 & _ & _ & D & _ & ->).
  destruct (date_accepted_parses _ D) as (s & t & -> & V & P).
  exists s, t. cbn. rewrite E4. auto.
Qed.

(** Whenever [validate_record] accepts a record, the normalised
    [is_correct] follows the raw value; a raw value that is not null, an int
    or a bool is never accepted, whatever the rest of the record. *)
Lemma is_correct_of_accepted_record record w :
  exists outcome w',
    validate_record record w = (Ret outcome, w') /\
    match outcome with
    | None => True
    | Some n =>
        exists items,
          record = PDict items /\
          match dict_lookup "is_correct" items with
          | None | Some PNone => is_correct n = PNone
          | Some (PInt z) => is_correct n = PBool (negb (z =? 0))
          | Some (PBool b) => is_correct n = PBool b
          | Some _ => False
          end
    end.
Proof.
  destruct (validate_record_runs record w) as (w' & E & _).
  exists (validated record), w'. split; [exact E|].
  destruct (validated record) as [n|] eqn:V; [|exact I].
  apply validated_inv in V.
  destruct V as (items & uid & pb & kind & ts & d & flag & -> & _ & _ & _ & _ & _ & C & _ & _ & ->).
  exists items. split; [reflexivity|].
  unfold dict_get, coerce_is_correct in C. cbn [is_correct].
  destruct (dict_lookup "is_correct" items) as [[]|]; congruence.
Qed.

Lemma strptime_raises_on_text s format ex :
  strptime (PStr s) format = Raise ex -> ex = ValueError.
Proof.
  cbn. destruct (match_format _ _ _) as [|[t [|c rest]] l]; try congruence.
  destruct (valid_datetime t); congruence.
Qed.

Lemma date_accepted_iff raw :
  date_accepted raw = Ret true <->
  exists t, strptime raw FORMAT_MICROSECONDS = Ret t \/ strptime raw FORMAT_SECONDS = Ret t.
Proof.
  split.
  - intros H. destruct (date_accepted_parses raw H) as (s & t & -> & _ & P). eauto.
  - intros (t & [H|H]); unfold date_accepted.
    + now rewrite H.
    + destruct (strptime_text _ _ _ H) as [s ->]. rewrite H.
      destruct (strptime (PStr s) FORMAT_MICROSECONDS) as [t'|ex] eqn:E; [reflexivity|].
      now rewrite (strptime_raises_on_text _ _ _ E).
Qed.

Lemma parse_passback_params_result passback_str w :
  fst (parse_passback_params passback_str w) =
    match passback_of passback_str with
    | Ret d => Ret (PDict d)
    | Raise ex => Raise ex
    end.
Proof.
  destruct (parse_passback_params_runs passback_str w) as (w' & E & _). now rewrite E.
Qed.

(** C7.  The correctness flag decides as the rule says.  Take a record
    that is valid apart from its flag: the four required keys are there, the
    kind is ["run"] or ["submit"], the timestamp parses, the passback blob
    decodes, and [str()] meets no int too long.  Then the record is accepted
    with [is_correct] null when the raw flag is absent or null, with the
    truthiness of the raw flag when it is an int (0 gives false, any other
    int true), with the raw flag itself when it is a bool; and it is rejected
    when the raw flag is of any other type. *)
Theorem is_correct_coercion items lti_user_id passback_str kind raw_created_at d w :
  dict_lookup "lti_user_id" items = Some lti_user_id ->
  dict_lookup "passback_params" items = Some passback_str ->
  dict_lookup "attempt_type" items = Some kind ->
  dict_lookup "created_at" items = Some raw_created_at ->
  (kind = PStr "run" \/ kind = PStr "submit") ->
  (exists t, strptime raw_created_at FORMAT_MICROSECONDS = Ret t \/
             strptime raw_created_at FORMAT_SECONDS = Ret t) ->
  fst (parse_passback_params passback_str w) = Ret (PDict d) ->
  str_overflows lti_user_id = false ->
  str_overflows (dict_get d "oauth_consumer_key" (PStr "")) = false ->
  str_overflows (dict_get d "lis_result_sourcedid" (PStr "")) = false ->
  str_overflows (dict_get d "lis_outcome_service_url" (PStr "")) = false ->
  match dict_lookup "is_correct" items with
  | None | Some PNone =>
      exists n, fst (validate_record (PDict items) w) = Ret (Some n) /\
                is_correct n = PNone
  | Some (PInt z) =>
      exists n, fst (validate_record (PDict items) w) = Ret (Some n) /\
                is_correct n = PBool (negb (z =? 0))
  | Some (PBool b) =>
      exists n, fst (validate_record (PDict items) w) = Ret (Some n) /\
                is_correct n = PBool b
  | Some _ => fst (validate_record (PDict items) w) = Ret None
  end.
Proof.
  intros E1 E2 E3 E4 K D P O1 O2 O3 O4.
  rewrite parse_passback_params_result in P.
  assert (passback_of passback_str = Ret d) as P'
    by (destruct (passback_of passback_str); congruence).
  apply date_accepted_iff in D.
  rewrite validate_record_result.
  unfold validated. rewrite E1, E2, E3, E4, P', D, O1, O2, O3, O4.
  assert (is_str "run" kind || is_str "submit" kind = true) as ->.
  { destruct K as [-> | ->]; reflexivity. }
  unfold coerce_is_correct, dict_get. cbn [orb].
  destruct (dict_lookup "is_correct" items) as [[]|]; try reflexivity; eauto.
Qed.

(** C8, as amended.  Every accepted record yields an entity with all seven
    fields filled: [user_id] is [str()] of the raw user id (a string, empty
    when the raw id is the empty string), the three passback fields are
    strings, [is_correct] is null or a boolean, [attempt_type] is ["run"] or
    ["submit"], and [created_at] is the raw timestamp text. *)
Theorem accepted_record_is_fully_populated record w n :
  fst (validate_record record w) = Ret (Some n) ->
  exists lti_user_id key sourcedid url s,
    py_getitem record "lti_user_id" = Ret lti_user_id /\
    user_id n = PStr (py_str lti_user_id) /\
    oauth_consumer_key n = PStr key /\
    lis_result_sourcedid n = PStr sourcedid /\
    lis_outcome_service_url n = PStr url /\
    (is_correct n = PNone \/ exists b, is_correct n = PBool b) /\
    (attempt_type n = PStr "run" \/ attempt_type n = PStr "submit") /\
    created_at n = PStr s.
Proof.
  rewrite validate_record_result. intros [= H].
  apply validated_inv in H.
  destruct H as (items & uid & pb & kind & ts & d & flag & -> & E1 & _ & _ & _ & _ & C & D & K & ->).
  destruct (date_accepted_parses _ D) as (s & t & -> & _ & _).
  eexists uid, _, _, _, s. cbn. rewrite E1.
  repeat split.
  - unfold coerce_is_correct in C.
    destruct (dict_get items "is_correct" PNone); inversion C; eauto.
  - apply orb_true_iff in K. destruct K as [K|K]; apply is_str_eq in K; auto.
Qed.

(** ** The batch processor *)

Lemma accepted_one_validated record :
  accepted_one record = match validated record with Some v => [v] | None => [] end.
Proof.
  unfold accepted_one. rewrite validate_record_result. reflexivity.
Qed.

Lemma process_loop_runs raw_data validated0 skipped :
  runs (process_loop raw_data validated0 skipped)
       (Ret (validated0 ++ accepted_of raw_data, (skipped + rejected_of raw_data)%nat)).
Proof.
  revert validated0 skipped.
  induction raw_data as [|record raw_data IH]; intros validated0 skipped;
    cbn [process_loop].
  - unfold accepted_of, rejected_of. cbn. rewrite app_nil_r, Nat.add_0_r. apply runs_ret.
  - eapply runs_bind; [apply validate_record_runs|]. cbn beta iota.
    unfold accepted_of, rejected_of in *. cbn [flat_map filter].
    rewrite accepted_one_validated.
    destruct (validated record) as [v|].
    + specialize (IH (validated0 ++ [v]) skipped).
      rewrite <- app_assoc in IH. exact IH.
    + specialize (IH validated0 (S skipped)). cbn [app List.length].
      rewrite Nat.add_succ_r. exact IH.
Qed.

Lemma process_data_runs raw_data w :
  exists w' evs,
    process_data raw_data w = (Ret (accepted_of raw_data), w') /\
    logs_only w w' /\
    trace w' = trace w ++ evs ++
               [Log INFO (MsgProcessed (List.length (accepted_of raw_data))
                                       (rejected_of raw_data))] /\
    forallb validation_event evs = true.
Proof.
  unfold process_data, bind, log, emit.
  destruct (process_loop_runs raw_data [] 0%nat (add_event (Log INFO MsgProcessStart) w))
    as (w1 & E & L).
  rewrite E. cbn [app Nat.add].
  destruct L as (T & X & S & evs & Tr & V). cbn in T, X, S, Tr.
  eexists. exists (Log INFO MsgProcessStart :: evs).
  split; [reflexivity|]. split; [|split].
  - unfold logs_only. cbn.
    split; [congruence|]. split; [congruence|]. split; [congruence|].
    exists ((Log INFO MsgProcessStart :: evs) ++
            [Log INFO (MsgProcessed (List.length (accepted_of raw_data)) (rejected_of raw_data))]).
    split.
    + rewrite Tr. cbn. rewrite <- !app_assoc. reflexivity.
    + rewrite forallb_app. cbn. rewrite V. reflexivity.
  - cbn. rewrite Tr. cbn. rewrite <- !app_assoc. reflexivity.
  - cbn. exact V.
Qed.

Lemma accepted_rejected_length raw_data :
  (List.length (accepted_of raw_data) + rejected_of raw_data)%nat = List.length raw_data.
Proof.
  unfold accepted_of, rejected_of.
  induction raw_data as [|record raw_data IH]; [reflexivity|].
  cbn [flat_map filter]. rewrite accepted_one_validated.
  destruct (validated record); cbn [app List.length]; lia.
Qed.

(** C4.  [validate_record] never raises: on every record, in every world, it
    returns either an entity or the rejection [None], and it only writes log
    lines.  The batch processor therefore never raises either, whatever the
    records are. *)
Theorem validate_record_never_raises record raw_data w :
  (exists outcome w',
     validate_record record w = (Ret outcome, w') /\
     table w' = table w /\ sheet w' = sheet w /\ calls (trace w') = calls (trace w)) /\
  (exists accepted w', process_data raw_data w = (Ret accepted, w')).
Proof.
  split.
  - destruct (validate_record_runs record w) as (w' & E & T & _ & S & evs & Tr & V).
    exists (validated record), w'. repeat split; try assumption.
    rewrite Tr. unfold calls. rewrite filter_app.
    replace (filter is_call evs) with (@nil event); [now rewrite app_nil_r|].
    clear Tr. induction evs as [|ev evs IH]; [reflexivity|].
    cbn in V. apply andb_true_iff in V. destruct V as [V1 V2].
    cbn. destruct ev; try discriminate. cbn. auto.
  - destruct (process_data_runs raw_data w) as (w' & evs & E & _).
    eauto.
Qed.

End ValidatorProofs.

(** ** The store gateway *)

Lemma paginate_concat {A} (n : nat) (page seq : list A) :
  List.concat (paginate n page seq) = page ++ seq.
Proof.
  revert page. induction seq as [|x seq IH]; intros page; cbn [paginate].
  - destruct page; cbn; now rewrite ?app_nil_r.
  - destruct (Nat.eqb _ n); cbn [List.concat]; rewrite IH; cbn; now rewrite <- app_assoc.
Qed.

Lemma paginate_small {A} (n : nat) (page seq : list A) :
  (List.length page + List.length seq <= n)%nat ->
  (List.length page < n)%nat ->
  page ++ seq <> [] ->
  paginate n page seq = [page ++ seq].
Proof.
  revert page. induction seq as [|x seq IH]; intros page Hle Hlt Hne; cbn [paginate].
  - rewrite app_nil_r in *. destruct page; [congruence | reflexivity].
  - cbn [List.length] in Hle.
    destruct (Nat.eqb (List.length (page ++ [x])) n) eqn:E.
    + apply Nat.eqb_eq in E. rewrite length_app in E. cbn in E.
      destruct seq; [|cbn in Hle; lia]. reflexivity.
    + apply Nat.eqb_neq in E. rewrite length_app in E. cbn in E.
      rewrite IH.
      * now rewrite <- app_assoc.
      * rewrite length_app. cbn. lia.
      * rewrite length_app. cbn. lia.
      * destruct page; discriminate.
Qed.

Lemma execute_pages_outcome f cur pages :
  match execute_pages f cur pages with
  | Ret cur' =>
      pending cur' = pending cur ++ List.concat pages /\
      rowcount cur' = match pages with
                      | [] => rowcount cur
                      | _ => Z.of_nat (List.length (last pages []))
                      end
  | Raise ex => ex = match f with FaultNul _ => ValueError | _ => Psycopg2Error end
  end.
Proof.
  revert cur. induction pages as [|page pages IH]; intros cur; cbn [execute_pages].
  - cbn. now rewrite app_nil_r.
  - assert (Hins : execute_insert f cur page =
                     Raise match f with FaultNul _ => ValueError | _ => Psycopg2Error end \/
                   execute_insert f cur page =
                     Ret (mk_cursor (pending cur ++ page) (Z.of_nat (List.length page))
                                    (S (executed cur)))).
    { unfold execute_insert. destruct f; auto; destruct (Nat.eqb n (executed cur)); auto. }
    destruct Hins as [-> | ->]; [reflexivity|].
    specialize (IH (mk_cursor (pending cur ++ page) (Z.of_nat (List.length page))
                              (S (executed cur)))).
    destruct (execute_pages f _ pages) as [cur'|ex]; [|exact IH].
    destruct IH as [P R]. cbn in P, R. split.
    + rewrite P. cbn. now rewrite app_assoc.
    + rewrite R. destruct pages; reflexivity.
Qed.

Lemma execute_pages_no_fault cur pages :
  exists cur', execute_pages NoFault cur pages = Ret cur'.
Proof.
  revert cur. induction pages as [|page pages IH]; intros cur; cbn; eauto.
Qed.

Lemma execute_pages_fault k cur pages :
  (executed cur <= k < executed cur + List.length pages)%nat ->
  execute_pages (FaultExecute k) cur pages = Raise Psycopg2Error.
Proof.
  revert cur. induction pages as [|page pages IH]; intros cur H; cbn in *; [lia|].
  destruct (Nat.eqb k (executed cur)) eqn:E; [reflexivity|].
  apply Nat.eqb_neq in E. apply IH. cbn. lia.
Qed.

(** Bulk load is all-or-nothing: it either commits every record and returns
    the size of the last page, or raises and leaves the table as it was; what
    it raises is [psycopg2.Error], or [ValueError] for a NUL character. *)
Lemma load_all_or_nothing e records w :
  records <> [] ->
  match load_data_to_database e records w with
  | (Ret count, w') =>
      table w' = table w ++ records /\ count = last_page_size records
  | (Raise ex, w') =>
      ex = match load_fault e with FaultNul _ => ValueError | _ => Psycopg2Error end /\
      table w' = table w
  end.
Proof.
  intros Hne. unfold load_data_to_database, last_page_size, execute_values.
  pose proof (paginate_concat 100 [] records) as Hcat.
  pose proof (execute_pages_outcome (load_fault e) (mk_cursor [] (-1) 0)
                (paginate 100 [] records)) as Hout.
  destruct (paginate 100 [] records) as [|page pages] eqn:Hpages.
  { cbn in Hcat. congruence. }
  destruct records as [|r records]; [congruence|].
  unfold bind, try_except, emit, log, lift, connect, commit, get_table, set_table, ret, raise.
  destruct (load_fault e) eqn:F; cbn beta iota.
  all: try (cbn; split; reflexivity).
  all: destruct (execute_pages _ _ (page :: pages)) as [cur'|ex]; cbn beta iota.
  all: try (subst ex; cbn; split; reflexivity).
  all: destruct Hout as [P R]; cbn [pending app] in P.
  all: cbn [fst snd table add_event is_Psycopg2Error].
  all: rewrite ?P, ?Hcat, ?R.
  all: split; reflexivity.
Qed.

(** Without a fault the load commits every record and logs the count it
    returns. *)
Lemma load_succeeds e records w :
  load_fault e = NoFault -> records <> [] ->
  exists w',
    load_data_to_database e records w = (Ret (last_page_size records), w') /\
    table w' = table w ++ records /\
    table_exists w' = table_exists w /\
    sheet w' = sheet w /\
    trace w' = trace w ++ [CallLoad (List.length records);
                           Log INFO (MsgLoading (List.length records));
                           Log INFO (MsgLoaded (last_page_size records))].
Proof.
  intros F Hne.
  pose proof (load_all_or_nothing e records w Hne) as H.
  unfold load_data_to_database, execute_values in *.
  destruct (execute_pages_no_fault (mk_cursor [] (-1) 0) (paginate 100 [] records))
    as [cur' E].
  destruct records as [|r records]; [congruence|].
  unfold bind, try_except, emit, log, lift, connect, commit, get_table, set_table, ret, raise in *.
  rewrite F in *. cbn beta iota in *. rewrite E in *. cbn beta iota in *.
  destruct H as [T C]. rewrite C.
  eexists. split; [reflexivity|]. cbn [table table_exists sheet trace add_event].
  split; [exact T|]. split; [reflexivity|]. split; [reflexivity|].
  rewrite <- !app_assoc. reflexivity.
Qed.

Lemma load_small_batch records :
  records <> [] -> (List.length records <= 100)%nat ->
  last_page_size records = Z.of_nat (List.length records).
Proof.
  intros Hne Hle. unfold last_page_size.
  rewrite paginate_small; cbn; auto; lia.
Qed.

(** A fault at connect, at any INSERT statement or at commit raises and
    inserts nothing. *)
Lemma load_fault_rolls_back e records w :
  records <> [] ->
  (load_fault e = FaultConnect \/ load_fault e = FaultCommit \/
   exists k, load_fault e = FaultExecute k /\
             (k < List.length (paginate 100 [] records))%nat) ->
  exists w',
    load_data_to_database e records w = (Raise Psycopg2Error, w') /\ table w' = table w.
Proof.
  intros Hne F.
  pose proof (load_all_or_nothing e records w Hne) as H.
  destruct (load_data_to_database e records w) as [[count|ex] w'] eqn:E.
  - exfalso. unfold load_data_to_database, execute_values in E.
    destruct records as [|r records]; [congruence|].
    unfold bind, try_except, emit, log, lift, connect, commit, get_table, set_table, ret, raise in E.
    destruct F as [F|[F|(k & F & Hk)]]; rewrite F in E; cbn -[paginate] in E.
    + discriminate.
    + destruct (execute_pages _ _ _) as [cur'|[]]; cbn -[paginate] in E; discriminate.
    + rewrite execute_pages_fault in E; [cbn in E; discriminate|].
      cbn [executed]. lia.
  - destruct H as [-> T]. exists w'. split; [|exact T].
    destruct F as [F|[F|(k & F & _)]]; rewrite F; reflexivity.
Qed.

(** C3, at the failing input.  Loading 101 accepted records without any
    fault inserts all 101 rows and returns 1, the row count of the second
    INSERT statement, not 101. *)
Theorem load_of_101_records_returns_1 :
  List.length batch_101 = 101%nat /\
  fst (load_data_to_database sample_env batch_101 initial_world) = Ret 1 /\
  List.length (table (snd (load_data_to_database sample_env batch_101 initial_world)))
    = 101%nat.
Proof. vm_compute. repeat split. Qed.

Section StoreProofs.

Context {runtime : PyRuntime}.

Lemma count_where_nonneg {A} (p : A -> bool) rows : 0 <= count_where p rows.
Proof. unfold count_where. lia. Qed.

(** Without a fault the aggregate always produces statistics: the counts of
    [daily_query], and the rate guarded against a zero divisor. *)
Lemma get_daily_statistics_ok e d w :
  stats_fault e = false ->
  exists stats,
    get_daily_statistics e d w =
      (Ret (Some stats), add_event (Log INFO (MsgStats stats)) (add_event (CallStats d) w)) /\
    daily_query (table w) d =
      Some (total_attempts stats, successful_attempts stats, failed_attempts stats,
            run_attempts stats, unique_users stats, run_count stats, submit_count stats) /\
    date stats = d /\
    (if submit_count stats >? 0
     then exists q,
            int_truediv (successful_attempts stats) (submit_count stats) = Ret q /\
            success_rate stats = PFloat (float_round2 (q * 100)%float)
     else success_rate stats = PInt 0).
Proof.
  intros F. unfold get_daily_statistics, daily_query.
  unfold bind, try_except, emit, log, lift, get_table, ret. rewrite F.
  cbn [table add_event].
  set (day := filter _ (table w)).
  set (submit_cnt := count_where (fun r => is_str "submit" (attempt_type r)) day).
  set (success := count_where (fun r => sql_is true (is_correct r)) day).
  destruct (submit_cnt >? 0) eqn:G.
  - unfold int_truediv.
    assert ((submit_cnt =? 0) = false) as Hz.
    { apply Z.eqb_neq. apply Z.gtb_lt in G. lia. }
    rewrite Hz.
    cbn [py_round2 is_Psycopg2Error].
    eexists. split; [reflexivity|]. cbn [submit_count successful_attempts success_rate date
      total_attempts failed_attempts run_attempts unique_users run_count].
    fold submit_cnt success. rewrite G.
    split; [reflexivity|]. split; [reflexivity|].
    eexists. split; [|reflexivity]. unfold int_truediv. rewrite Hz. reflexivity.
  - cbn [py_round2 is_Psycopg2Error].
    eexists. split; [reflexivity|]. cbn [submit_count successful_attempts success_rate date
      total_attempts failed_attempts run_attempts unique_users run_count].
    fold submit_cnt. rewrite G.
    split; [reflexivity|]. split; reflexivity.
Qed.

Lemma get_daily_statistics_fault e d w :
  stats_fault e = true ->
  get_daily_statistics e d w =
    (Ret None, add_event (Log ERROR (MsgStatsError Psycopg2Error)) (add_event (CallStats d) w)).
Proof.
  intros F. unfold get_daily_statistics.
  unfold bind, try_except, emit, log, lift, get_table, ret, raise. rewrite F.
  reflexivity.
Qed.

(** The nearest integer: [round_half_even n d] is within half a unit of
    [n / d]. *)
Lemma round_half_even_nearest n d :
  0 <= n -> 0 < d ->
  2 * Z.abs (n - round_half_even n d * d) <= d.
Proof.
  intros Hn Hd. unfold round_half_even.
  pose proof (Z.div_mod n d ltac:(lia)) as E.
  pose proof (Z.mod_pos_bound n d Hd) as B.
  destruct (2 * (n mod d) <? d) eqn:C1; [apply Z.ltb_lt in C1; nia|].
  apply Z.ltb_ge in C1.
  destruct (d <? 2 * (n mod d)) eqn:C2; [apply Z.ltb_lt in C2; nia|].
  apply Z.ltb_ge in C2.
  destruct (Z.even (n / d)); nia.
Qed.

Lemma round_half_even_nonneg n d : 0 <= n -> 0 < d -> 0 <= round_half_even n d.
Proof.
  intros Hn Hd. unfold round_half_even.
  pose proof (Z.div_pos n d Hn Hd).
  repeat match goal with |- context [if ?b then _ else _] => destruct b end; lia.
Qed.

(** [round(x, 2)] on a finite float with a fractional part [m * 2^e]: the
    result is the float nearest to [k / 100], where [k] is an integer
    nearest to [100 * m * 2^e]. *)
Lemma float_round2_nearest_decimal x s m e :
  Prim2SF x = S754_finite s m e -> e < 0 ->
  exists k,
    0 <= k /\
    2 * Z.abs (Z.pos m * 100 - k * 2 ^ (- e)) <= 2 ^ (- e) /\
    float_round2 x =
      match k with
      | Zpos p => SF2Prim (SFdiv prec emax (S754_finite s p 0) (SF_of_Z 100))
      | _ => SF2Prim (S754_zero s)
      end.
Proof.
  intros Hx He. unfold float_round2. rewrite Hx.
  assert ((0 <=? e) = false) as -> by (apply Z.leb_gt; exact He).
  assert (0 < 2 ^ (- e)) as Hd by (apply Z.pow_pos_nonneg; lia).
  exists (round_half_even (Z.pos m * 100) (2 ^ (- e))).
  split; [apply round_half_even_nonneg; lia|].
  split; [apply round_half_even_nearest; lia | reflexivity].
Qed.

Lemma round_half_even_tie n d :
  0 <= n -> 0 < d ->
  2 * Z.abs (n - round_half_even n d * d) = d -> Z.even (round_half_even n d) = true.
Proof.
  intros Hn Hd. unfold round_half_even.
  pose proof (Z.div_mod n d ltac:(lia)) as E.
  pose proof (Z.mod_pos_bound n d Hd) as B.
  destruct (2 * (n mod d) <? d) eqn:C1; [apply Z.ltb_lt in C1; nia|].
  apply Z.ltb_ge in C1.
  destruct (d <? 2 * (n mod d)) eqn:C2; [apply Z.ltb_lt in C2; nia|].
  destruct (Z.even (n / d)) eqn:Ev; intros _; [exact Ev|].
  replace (n / d + 1) with (Z.succ (n / d)) by lia.
  rewrite Z.even_succ, <- Z.negb_even, Ev. reflexivity.
Qed.

(** [round(x, 2)] rounds to two decimal places. *)
Lemma float_round2_rounds x : rounded_to_two_places x (float_round2 x).
Proof.
  unfold rounded_to_two_places, float_round2.
  destruct (Prim2SF x) as [| | |s m e]; try reflexivity.
  destruct (0 <=? e) eqn:He; [reflexivity|].
  apply Z.leb_gt in He.
  assert (0 < 2 ^ (- e)) as Hd by (apply Z.pow_pos_nonneg; lia).
  exists (round_half_even (Z.pos m * 100) (2 ^ (- e))).
  split; [apply round_half_even_nonneg; lia|].
  split; [apply round_half_even_nearest; lia|].
  split; [apply round_half_even_tie; lia | reflexivity].
Qed.

(** C6.  Without a fault the aggregate returns statistics whose
    [success_rate] is the integer 0 when [submit_count] is zero (no division
    is attempted), and otherwise the float nearest to the ratio of
    [successful_attempts] to [submit_count], times 100, rounded to two
    decimal places: the float nearest to [k / 100] for the integer [k]
    nearest to a hundred times that product, ties to the even [k]. *)
Theorem success_rate_formula e d w :
  stats_fault e = false ->
  exists stats w',
    get_daily_statistics e d w = (Ret (Some stats), w') /\
    0 <= submit_count stats /\
    (if submit_count stats =? 0
     then success_rate stats = PInt 0
     else exists q r,
            int_truediv (successful_attempts stats) (submit_count stats) = Ret q /\
            q = nearest_float_to_ratio (successful_attempts stats) (submit_count stats) /\
            success_rate stats = PFloat r /\
            rounded_to_two_places (q * 100)%float r).
Proof.
  intros F. destruct (get_daily_statistics_ok e d w F) as (stats & E & Q & _ & R).
  exists stats. eexists. split; [exact E|].
  unfold daily_query in Q. injection Q as _ _ _ _ _ _ Hs.
  assert (0 <= submit_count stats) as Hpos by (rewrite <- Hs; apply count_where_nonneg).
  split; [exact Hpos|].
  destruct (submit_count stats =? 0) eqn:Z0.
  - apply Z.eqb_eq in Z0. rewrite Z0 in R. exact R.
  - assert ((submit_count stats >? 0) = true) as G
      by (apply Z.eqb_neq in Z0; apply Z.gtb_lt; lia).
    rewrite G in R. destruct R as (q & Hq & Hr).
    exists q, (float_round2 (q * 100)%float).
    split; [exact Hq|]. split; [|split; [exact Hr | apply float_round2_rounds]].
    unfold int_truediv in Hq. rewrite Z0 in Hq. now injection Hq as <-.
Qed.

Lemma filter_none {A} (p : A -> bool) rows :
  (forall row, In row rows -> p row = false) -> filter p rows = [].
Proof.
  induction rows as [|row rows IH]; intros H; [reflexivity|].
  cbn. rewrite (H row (or_introl eq_refl)). apply IH. intros r Hr. apply H. now right.
Qed.

Lemma get_daily_statistics_empty_date e d w :
  stats_fault e = false ->
  (forall row, In row (table w) -> sql_on_date (created_at row) d = false) ->
  get_daily_statistics e d w =
    (Ret (Some (zero_statistics d)),
     add_event (Log INFO (MsgStats (zero_statistics d)))
               (add_event (CallStats d) w)).
Proof.
  intros F H. unfold get_daily_statistics, daily_query.
  unfold bind, try_except, emit, log, lift, get_table, ret. rewrite F.
  cbn [table add_event].
  rewrite (filter_none _ _ H). reflexivity.
Qed.

Lemma create_database_table_ok e w :
  schema_fault e = false ->
  exists w',
    create_database_table e w = (Ret tt, w') /\
    table w' = table w /\ sheet w' = sheet w /\
    trace w' = trace w ++ [CallCreateTable; Log INFO MsgTableReady].
Proof.
  intros F. unfold create_database_table.
  unfold bind, try_except, emit, log, mark_table_exists, ret. rewrite F.
  eexists. split; [reflexivity|]. cbn. rewrite <- app_assoc. auto.
Qed.

Lemma data_rows_append rows stats :
  data_rows (Worksheet (rows ++ [DataRow stats])) = data_rows (Worksheet rows) ++ [stats].
Proof. unfold data_rows. now rewrite flat_map_app. Qed.

Lemma upload_to_google_sheets_outcome e stats w :
  exists w' evs,
    upload_to_google_sheets e stats w =
      (match credentials_probe e with
       | Some ex => Raise ex
       | None => Ret (sheets_ready e (sheet w))
       end, w') /\
    table w' = table w /\ table_exists w' = table_exists w /\
    trace w' = trace w ++ CallPublish stats :: evs /\
    forallb sheets_event evs = true /\
    data_rows (sheet w') =
      (if sheets_ready e (sheet w) then data_rows (sheet w) ++ [stats]
       else data_rows (sheet w)) /\
    (sheets_ready e (sheet w) = true ->
     exists rows, sheet w' = Worksheet (rows ++ [DataRow stats])) /\
    (credentials_probe e <> None -> sheet w' = sheet w).
Proof.
  destruct w as [rows_t exists_t s tr].
  unfold upload_to_google_sheets, sheets_ready, credentials_probe, gs.
  unfold bind, try_except, emit, log, lift, get_sheet, set_sheet, append_row, ret, raise.
  destruct (GSHEETS_ENABLED e), (GSHEETS_AVAILABLE e); cbn [negb andb].
  2-4: do 2 eexists; split; [reflexivity|]; split; [reflexivity|]; split; [reflexivity|];
       split; [cbn [trace add_event]; rewrite <- ?app_assoc; cbn [app]; reflexivity|];
       split; [reflexivity|]; split; [reflexivity|]; split; [discriminate|]; reflexivity.
  destruct (credentials_exist e) as [[|]|ex]; cbn [negb andb].
  2-3: do 2 eexists; split; [reflexivity|]; split; [reflexivity|]; split; [reflexivity|];
       split; [cbn [trace add_event]; rewrite <- ?app_assoc; cbn [app]; reflexivity|];
       split; [reflexivity|]; split; [reflexivity|]; split; [discriminate|]; reflexivity.
  destruct (sheets_fault e) as [[]|]; destruct s as [| |rows];
    cbn [gs_call_eqb gs_reached negb sheet table table_exists trace add_event any_Exception].
  all: do 2 eexists; split; [reflexivity|]; split; [reflexivity|]; split; [reflexivity|].
  all: split; [cbn [trace add_event]; rewrite <- ?app_assoc; cbn [app]; reflexivity|].
  all: split; [reflexivity|].
  all: cbn [sheet add_event].
  all: split; [rewrite ?data_rows_append; reflexivity|].
  all: split; [try discriminate; intros _; eexists; reflexivity | intros H; now elim H].
Qed.

End StoreProofs.

(** ** The orchestrator *)

Section OrchestratorProofs.

Context {runtime : PyRuntime}.

Lemma validation_events_no_calls evs :
  forallb validation_event evs = true -> calls evs = [].
Proof.
  induction evs as [|ev evs IH]; [reflexivity|].
  cbn. intros V. apply andb_true_iff in V. destruct V as [V1 V2].
  destruct ev; try discriminate. cbn. auto.
Qed.

(** A step that returns lets the rest of a guarded block run in the new
    world. *)
Lemma guarded_step {A B} (m : M A) (k : A -> M B) catches handler final a w w1 :
  m w = (Ret a, w1) ->
  try_finally (try_except (bind m k) catches handler) final w =
  try_finally (try_except (k a) catches handler) final w1.
Proof.
  intros E. unfold try_finally, try_except, bind. rewrite E. reflexivity.
Qed.

Lemma fetch_data_from_api_ok e start_date end_date raw_data w :
  api e = HttpResponse 200 (Ret raw_data) ->
  fetch_data_from_api e start_date end_date w =
    (Ret (Some raw_data),
     add_event (Log INFO (MsgApiReceived (List.length raw_data)))
               (add_event (Log INFO (MsgApiRequest start_date end_date)) w)).
Proof.
  intros H. unfold fetch_data_from_api, try_except, bind, log, emit, lift, ret.
  rewrite H. reflexivity.
Qed.

Lemma accepted_nonempty_input raw_data :
  accepted_of raw_data <> [] -> Nat.eqb (List.length raw_data) 0 = false.
Proof. destruct raw_data; [intros H; now elim H | reflexivity]. Qed.

Lemma length_nonzero {A} (l : list A) : l <> [] -> Nat.eqb (List.length l) 0 = false.
Proof. destruct l; [intros H; now elim H | reflexivity]. Qed.

(** The run up to the aggregate stage, when every earlier stage succeeds. *)
Lemma main_reaches_aggregate e raw_data d w :
  api e = HttpResponse 200 (Ret raw_data) ->
  accepted_of raw_data <> [] ->
  schema_fault e = false ->
  load_fault e = NoFault ->
  split_first (START_DATE e) = Ret d ->
  exists w1 evs,
    table w1 = table w ++ accepted_of raw_data /\
    trace w1 = trace w ++ evs /\
    (forall ev, In ev evs ->
       ev <> Log INFO MsgRunFailed /\ forall stats, ev <> CallPublish stats) /\
    main e w =
      try_finally
        (try_except
           (stats <- get_daily_statistics e d ;;
            match stats with
            | Some stats => _ <- upload_to_google_sheets e stats ;; ret tt
            | None => ret tt
            end ;;;
            log INFO MsgRunOk)
           any_Exception
           (fun ex => log ERROR (MsgCritical ex) ;;; log INFO MsgRunFailed))
        (log INFO MsgTime) w1.
Proof.
  intros Hapi Hacc Hschema Hload Hsplit.
  unfold main. unfold bind at 1. cbn [log emit]. cbn zeta.
  erewrite guarded_step by reflexivity.
  erewrite guarded_step by (apply fetch_data_from_api_ok; exact Hapi).
  cbn beta iota. rewrite (accepted_nonempty_input _ Hacc).
  match goal with |- context [try_finally _ _ ?w0] => set (w2 := w0) end.
  destruct (process_data_runs raw_data w2) as (w3 & evsP & EP & (T3 & _ & S3 & _) & Tr3 & V3).
  erewrite guarded_step by exact EP.
  rewrite (length_nonzero _ Hacc).
  destruct (create_database_table_ok e w3 Hschema) as (w4 & EC & T4 & S4 & Tr4).
  erewrite guarded_step by exact EC.
  destruct (load_succeeds e (accepted_of raw_data) w4 Hload Hacc)
    as (w5 & EL & T5 & _ & S5 & Tr5).
  erewrite guarded_step by exact EL.
  erewrite guarded_step by reflexivity.
  erewrite guarded_step by (unfold lift; rewrite Hsplit; reflexivity).
  eexists. eexists. split; [|split; [|split; [|reflexivity]]].
  - cbn [table add_event]. rewrite T5, T4, T3. reflexivity.
  - cbn [trace add_event]. rewrite Tr5, Tr4, Tr3. subst w2. cbn [trace add_event].
    rewrite <- !app_assoc. reflexivity.
  - intros ev Hin. cbn [app] in Hin.
    repeat (rewrite in_app_iff in Hin || cbn [In] in Hin).
    assert (Hv : In ev evsP -> validation_event ev = true).
    { intros Hev. rewrite forallb_forall in V3. auto. }
    intuition (try subst ev; try discriminate;
               try (match goal with H : validation_event _ = true |- _ =>
                      cbn in H; discriminate end)).
Qed.

(** C9, as amended.  The batch processor applies the validator to every
    record on its own (the verdict on a record does not depend on the world
    it is validated in), returns only the accepted entities, in input order,
    and writes the number of rejected records to the log; accepted and
    rejected add up to the input.  When nothing is accepted (in particular on
    empty input) the run ends without creating the schema and without a load
    call. *)
Theorem process_data_accepts_in_input_order e raw_data w :
  api e = HttpResponse 200 (Ret raw_data) ->
  (forall record w1 w2,
     fst (validate_record record w1) = fst (validate_record record w2)) /\
  (exists w' evs,
     process_data raw_data w = (Ret (accepted_of raw_data), w') /\
     table w' = table w /\
     trace w' = trace w ++ evs ++
                [Log INFO (MsgProcessed (List.length (accepted_of raw_data))
                                        (rejected_of raw_data))] /\
     calls evs = []) /\
  (List.length (accepted_of raw_data) + rejected_of raw_data)%nat = List.length raw_data /\
  match accepted_of raw_data with
  | [] =>
      exists w',
        main e w = (Ret tt, w') /\ table w' = table w /\
        calls (trace w') = calls (trace w)
  | _ :: _ => True
  end.
Proof.
  intros Hapi. split; [|split; [|split]].
  - intros record w1 w2. now rewrite !validate_record_result.
  - destruct (process_data_runs raw_data w) as (w' & evs & E & (T & _) & Tr & V).
    exists w', evs. repeat split; try assumption.
    now apply validation_events_no_calls.
  - apply accepted_rejected_length.
  - destruct (accepted_of raw_data) as [|v accepted] eqn:Hacc; [|exact I].
    unfold main. unfold bind at 1. cbn [log emit]. cbn zeta.
    erewrite guarded_step by reflexivity.
    erewrite guarded_step by (apply fetch_data_from_api_ok; exact Hapi).
    cbn beta iota.
    destruct raw_data as [|record raw_data].
    + eexists. split; [reflexivity|]. split; [reflexivity|].
      unfold calls. cbn [trace add_event]. rewrite !filter_app. cbn.
      now rewrite !app_nil_r.
    + cbn [List.length Nat.eqb].
      match goal with |- context [try_finally _ _ ?w0] => set (w2 := w0) end.
      destruct (process_data_runs (record :: raw_data) w2)
        as (w3 & evsP & EP & (T3 & _) & Tr3 & V3).
      erewrite guarded_step by exact EP.
      rewrite Hacc. cbn [List.length Nat.eqb].
      eexists. split; [reflexivity|]. split.
      * cbn [table add_event]. rewrite T3. reflexivity.
      * unfold calls. cbn [trace add_event]. rewrite Tr3. subst w2.
        cbn [trace add_event]. rewrite !filter_app.
        fold (calls evsP). rewrite (validation_events_no_calls _ V3). cbn.
        now rewrite !app_nil_r.
Qed.

(** C10.  A [psycopg2.Error] in the aggregate query is caught inside
    [get_daily_statistics], which returns [None]; a run whose earlier stages
    succeeded then skips the publish step and ends with the success line,
    never with the failure line, keeping the loaded rows. *)
Theorem aggregate_fault_is_not_fatal e raw_data d w :
  api e = HttpResponse 200 (Ret raw_data) ->
  accepted_of raw_data <> [] ->
  schema_fault e = false ->
  load_fault e = NoFault ->
  split_first (START_DATE e) = Ret d ->
  stats_fault e = true ->
  fst (get_daily_statistics e d w) = Ret None /\
  exists w' evs,
    main e w = (Ret tt, w') /\
    table w' = table w ++ accepted_of raw_data /\
    trace w' = trace w ++ evs ++ [Log INFO MsgRunOk; Log INFO MsgTime] /\
    ~ In (Log INFO MsgRunFailed) evs /\
    forall stats, ~ In (CallPublish stats) evs.
Proof.
  intros Hapi Hacc Hschema Hload Hsplit Hstats.
  split; [now rewrite get_daily_statistics_fault|].
  destruct (main_reaches_aggregate e raw_data d w Hapi Hacc Hschema Hload Hsplit)
    as (w1 & evs & T1 & Tr1 & Hevs & ->).
  unfold try_finally, try_except, bind.
  rewrite (get_daily_statistics_fault e d w1 Hstats).
  cbn [ret log emit].
  eexists.
  exists (evs ++ [CallStats d; Log ERROR (MsgStatsError Psycopg2Error)]).
  split; [reflexivity|]. split; [|split; [|split]].
  - cbn [table add_event]. exact T1.
  - cbn [trace add_event]. rewrite Tr1. rewrite <- !app_assoc. reflexivity.
  - intros Hin. apply in_app_iff in Hin. destruct Hin as [Hin|Hin].
    + destruct (Hevs _ Hin) as [Hne _]. now apply Hne.
    + cbn in Hin. intuition discriminate.
  - intros stats Hin. apply in_app_iff in Hin. destruct Hin as [Hin|Hin].
    + destruct (Hevs _ Hin) as [_ Hne]. now apply (Hne stats).
    + cbn in Hin. intuition discriminate.
Qed.

(** For a date with no rows the aggregate query still yields one row, of
    zero counts: [get_daily_statistics] returns statistics with every count
    0 and [success_rate] 0, and a run whose earlier stages succeeded calls
    the publish step with them. *)
Lemma empty_date_publishes_zero_statistics e raw_data d w :
  api e = HttpResponse 200 (Ret raw_data) ->
  accepted_of raw_data <> [] ->
  schema_fault e = false ->
  load_fault e = NoFault ->
  split_first (START_DATE e) = Ret d ->
  stats_fault e = false ->
  (forall row, In row (table w ++ accepted_of raw_data) ->
     sql_on_date (created_at row) d = false) ->
  exists w1 w',
    table w1 = table w ++ accepted_of raw_data /\
    fst (get_daily_statistics e d w1) = Ret (Some (zero_statistics d)) /\
    main e w = (Ret tt, w') /\
    In (CallPublish (zero_statistics d)) (trace w').
Proof.
  intros Hapi Hacc Hschema Hload Hsplit Hstats Hrows.
  destruct (main_reaches_aggregate e raw_data d w Hapi Hacc Hschema Hload Hsplit)
    as (w1 & evs & T1 & Tr1 & Hevs & ->).
  rewrite <- T1 in Hrows.
  pose proof (get_daily_statistics_empty_date e d w1 Hstats Hrows) as Estats.
  exists w1. unfold try_finally, try_except, bind.
  rewrite Estats. cbn beta iota.
  destruct (upload_to_google_sheets_outcome e (zero_statistics d)
              (add_event (Log INFO (MsgStats (zero_statistics d)))
                         (add_event (CallStats d) w1)))
    as (w2 & evsU & EU & _ & _ & TrU & _).
  rewrite EU.
  destruct (credentials_probe e) as [ex|]; cbn [ret log emit any_Exception].
  all: eexists; split; [exact T1|]; split; [reflexivity|]; split; [reflexivity|].
  all: cbn [trace add_event]; rewrite TrU; rewrite !in_app_iff; cbn; tauto.
Qed.

End OrchestratorProofs.

(** ** The nested-parameter blob *)

Section PassbackProofs.

Context {runtime : PyRuntime}.

(** A blob that fails to parse with [ValueError] or [SyntaxError], or that
    parses to something other than a dict, decodes to the empty mapping. *)
Lemma malformed_passback_is_empty_mapping passback_str w :
  literal_eval passback_str = Raise ValueError \/
  literal_eval passback_str = Raise SyntaxError \/
  (exists v, literal_eval passback_str = Ret v /\ forall d, v <> PDict d) ->
  fst (parse_passback_params passback_str w) = Ret (PDict []).
Proof.
  intros H.
  destruct (parse_passback_params_runs passback_str w) as (w' & E & _).
  rewrite E. cbn [fst]. unfold passback_of.
  destruct (match passback_str with PNone => true | _ => is_str "None" passback_str end);
    [reflexivity|].
  destruct H as [-> | [-> | (v & -> & Hv)]]; try reflexivity.
  destruct v; try reflexivity. now elim (Hv items).
Qed.

(** Any other exception out of [ast.literal_eval] escapes
    [parse_passback_params], and the validator then rejects the record. *)
Lemma passback_fault_rejects_record items passback_str ex w :
  dict_lookup "passback_params" items = Some passback_str ->
  passback_str <> PNone -> passback_str <> PStr "None" ->
  literal_eval passback_str = Raise ex ->
  is_ValueError_or_SyntaxError ex = false ->
  fst (parse_passback_params passback_str w) = Raise ex /\
  fst (validate_record (PDict items) w) = Ret None.
Proof.
  intros Hpb Hnone Hstr Heval Hex.
  assert (Hof : passback_of passback_str = Raise ex).
  { unfold passback_of. rewrite Heval, Hex.
    destruct passback_str; try reflexivity; try congruence.
    cbn. destruct (String.eqb s "None") eqn:E; [|reflexivity].
    apply String.eqb_eq in E. congruence. }
  split.
  - destruct (parse_passback_params_runs passback_str w) as (w' & E & _).
    rewrite E, Hof. reflexivity.
  - rewrite validate_record_result. f_equal. unfold validated. rewrite Hpb, Hof.
    destruct (dict_lookup "lti_user_id" items); [|reflexivity].
    destruct (dict_lookup "attempt_type" items); [|reflexivity].
    destruct (dict_lookup "created_at" items); reflexivity.
Qed.

End PassbackProofs.

(** ** The script on concrete inputs *)

(** The examples of the specification, on the reference runtime. *)
Example validator_examples :
  let verdict record :=
    fst (@validate_record Reference.runtime record initial_world) in
  option_map is_correct (match verdict sample_submit with Ret v => v | _ => None end)
    = Some (PBool true) /\
  verdict sample_yes = Ret None /\
  verdict sample_bad_kind = Ret None /\
  verdict sample_missing_field = Ret None /\
  verdict (PInt 3) = Ret None /\
  option_map oauth_consumer_key
    (match verdict sample_not_a_dict with Ret v => v | _ => None end) = Some (PStr "") /\
  option_map oauth_consumer_key
    (match verdict sample_submit with Ret v => v | _ => None end) = Some (PStr "abc").
Proof. vm_compute. repeat split. Qed.

Example strptime_examples :
  strptime (PStr "2023-05-31 10:00:00.123456") FORMAT_MICROSECONDS
    = Ret (mk_datetime 2023 5 31 10 0 0 123456) /\
  strptime (PStr "2023-05-31 10:00:00") FORMAT_MICROSECONDS = Raise ValueError /\
  strptime (PStr "2023-05-31 10:00:00") FORMAT_SECONDS
    = Ret (mk_datetime 2023 5 31 10 0 0 0) /\
  strptime (PStr "31/05/2023") FORMAT_MICROSECONDS = Raise ValueError /\
  strptime (PStr "31/05/2023") FORMAT_SECONDS = Raise ValueError /\
  strptime (PInt 20230531) FORMAT_SECONDS = Raise TypeError.
Proof. vm_compute. repeat split. Qed.

(** Three records, one without a required field, one with a bad attempt
    kind, one valid: one row reaches the table, two records are counted as
    rejected. *)
Example end_to_end_example :
  let w' := snd (@main Reference.runtime sample_env initial_world) in
  List.length (table w') = 1%nat /\
  In (Log INFO (MsgProcessed 1 2)) (trace w') /\
  In (Log INFO MsgRunOk) (trace w').
Proof. vm_compute. intuition. Qed.

(** Ten rows, four submits of which three are correct: 75.0. *)
Example success_rate_example :
  option_map success_rate
    (match fst (@get_daily_statistics Reference.runtime sample_env "2023-05-31" world_10) with
     | Ret stats => stats
     | Raise _ => None
     end) = Some (PFloat 75) /\
  int_truediv 3 0 = Raise ZeroDivisionError.
Proof. vm_compute. split; reflexivity. Qed.

(** C1, counterexample.  The record [sample_run] is accepted; its timestamp
    text parses to a datetime, yet [created_at] of the result is the text,
    not that datetime. *)
Lemma created_at_is_not_the_parsed_value :
  exists n t,
    fst (@validate_record Reference.runtime sample_run initial_world) = Ret (Some n) /\
    strptime (PStr "2023-05-31 10:00:00") FORMAT_SECONDS = Ret t /\
    created_at n = PStr "2023-05-31 10:00:00" /\
    created_at n <> PDatetime t.
Proof.
  do 2 eexists. split; [vm_compute; reflexivity|].
  split; [vm_compute; reflexivity|].
  split; [reflexivity | discriminate].
Qed.

Lemma created_at_is_validated_raw_text_witness :
  exists s t,
    py_getitem sample_run "created_at" = Ret (PStr s) /\
    created_at (mk_attempt (PStr "user-2") (PStr "") (PStr "") (PStr "") PNone (PStr "run")
                           (PStr "2023-05-31 10:00:00")) = PStr s /\
    valid_datetime t = true /\
    (strptime (PStr s) FORMAT_MICROSECONDS = Ret t \/
     strptime (PStr s) FORMAT_SECONDS = Ret t).
Proof.
  apply (@created_at_is_validated_raw_text Reference.runtime sample_run initial_world).
  vm_compute. reflexivity.
Defined.

(** C8, counterexample.  A record whose user id is the empty string is
    accepted, with an empty [user_id]. *)
Lemma accepted_user_id_may_be_empty :
  exists n,
    fst (@validate_record Reference.runtime sample_empty_user initial_world) = Ret (Some n) /\
    user_id n = PStr "".
Proof. eexists. split; [vm_compute; reflexivity | reflexivity]. Qed.

Lemma accepted_record_is_fully_populated_witness :
  let n := mk_attempt (PStr "user-1") (PStr "abc") (PStr "sid") (PStr "") (PBool true)
                      (PStr "submit") (PStr "2023-05-31 10:00:00.123456") in
  exists lti_user_id key sourcedid url s,
    py_getitem sample_submit "lti_user_id" = Ret lti_user_id /\
    user_id n = PStr (@py_str Reference.runtime lti_user_id) /\
    oauth_consumer_key n = PStr key /\
    lis_result_sourcedid n = PStr sourcedid /\
    lis_outcome_service_url n = PStr url /\
    (is_correct n = PNone \/ exists b, is_correct n = PBool b) /\
    (attempt_type n = PStr "run" \/ attempt_type n = PStr "submit") /\
    created_at n = PStr s.
Proof.
  apply (@accepted_record_is_fully_populated Reference.runtime sample_submit initial_world).
  vm_compute. reflexivity.
Defined.

(** C5, at the failing input.  The blob ["{[]: 1}"] fails to parse:
    [ast.literal_eval] raises [TypeError] (a list is not hashable), which
    [parse_passback_params] does not catch, so the record is rejected; the
    same record with the blob ["not a dict"] is accepted with empty
    passback fields. *)
Theorem unhashable_passback_key_rejects_record :
  @literal_eval Reference.runtime (PStr "{[]: 1}") = Raise TypeError /\
  fst (@parse_passback_params Reference.runtime (PStr "{[]: 1}") initial_world)
    = Raise TypeError /\
  @validate_record Reference.runtime sample_unhashable_key initial_world
    = (Ret None, add_event (Log ERROR (MsgValidationError TypeError)) initial_world) /\
  fst (@validate_record Reference.runtime sample_not_a_dict initial_world)
    = Ret (Some (mk_attempt (PStr "user-3") (PStr "") (PStr "") (PStr "") PNone (PStr "run")
                            (PStr "2023-05-31 10:00:00"))).
Proof. vm_compute. repeat split. Qed.

(** C9, counterexample.  A batch with one rejected record and the empty
    batch make [process_data] return the same value, the empty list: the
    number of rejected records (1 and 0) is not part of what it returns. *)
Lemma process_data_returns_no_count :
  fst (@process_data Reference.runtime [sample_bad_kind] initial_world) = Ret [] /\
  @rejected_of Reference.runtime [sample_bad_kind] = 1%nat /\
  fst (@process_data Reference.runtime [] initial_world) = Ret [] /\
  @rejected_of Reference.runtime [] = 0%nat.
Proof. vm_compute. repeat split. Qed.

Lemma process_data_accepts_in_input_order_witness :
  (forall record w1 w2,
     fst (@validate_record Reference.runtime record w1)
     = fst (@validate_record Reference.runtime record w2)) /\
  (exists w' evs,
     @process_data Reference.runtime [sample_missing_field; sample_bad_kind] initial_world
       = (Ret [], w') /\
     table w' = [] /\
     trace w' = evs ++ [Log INFO (MsgProcessed 0 2)] /\
     calls evs = []) /\
  (0 + 2)%nat = 2%nat /\
  exists w',
    @main Reference.runtime env_all_rejected initial_world = (Ret tt, w') /\
    table w' = [] /\ calls (trace w') = [].
Proof.
  exact (@process_data_accepts_in_input_order Reference.runtime env_all_rejected
           [sample_missing_field; sample_bad_kind] initial_world eq_refl).
Defined.

Lemma success_rate_formula_witness :
  exists stats w',
    @get_daily_statistics Reference.runtime sample_env "2023-05-31" world_10
      = (Ret (Some stats), w') /\
    0 <= submit_count stats /\
    (if submit_count stats =? 0
     then success_rate stats = PInt 0
     else exists q r,
            int_truediv (successful_attempts stats) (submit_count stats) = Ret q /\
            q = nearest_float_to_ratio (successful_attempts stats) (submit_count stats) /\
            success_rate stats = PFloat r /\
            rounded_to_two_places (q * 100)%float r).
Proof.
  apply (@success_rate_formula Reference.runtime sample_env "2023-05-31" world_10).
  reflexivity.
Defined.

Lemma is_correct_coercion_witness :
  exists n,
    fst (@validate_record Reference.runtime sample_submit initial_world) = Ret (Some n) /\
    is_correct n = PBool (negb (1 =? 0)).
Proof.
  apply (@is_correct_coercion Reference.runtime
           [(PStr "lti_user_id", PStr "user-1");
            (PStr "passback_params",
             PStr "{'oauth_consumer_key': 'abc', 'lis_result_sourcedid': 'sid'}");
            (PStr "attempt_type", PStr "submit");
            (PStr "created_at", PStr "2023-05-31 10:00:00.123456");
            (PStr "is_correct", PInt 1)]
           (PStr "user-1")
           (PStr "{'oauth_consumer_key': 'abc', 'lis_result_sourcedid': 'sid'}")
           (PStr "submit") (PStr "2023-05-31 10:00:00.123456")
           [(PStr "oauth_consumer_key", PStr "abc"); (PStr "lis_result_sourcedid", PStr "sid")]
           initial_world); try reflexivity.
  - now right.
  - eexists. left. vm_compute. reflexivity.
Defined.

Lemma aggregate_fault_is_not_fatal_witness :
  fst (@get_daily_statistics Reference.runtime env_stats_fault "2023-05-31" initial_world)
    = Ret None /\
  exists w' evs,
    @main Reference.runtime env_stats_fault initial_world = (Ret tt, w') /\
    table w' = table initial_world ++ @accepted_of Reference.runtime sample_batch /\
    trace w' = trace initial_world ++ evs ++ [Log INFO MsgRunOk; Log INFO MsgTime] /\
    ~ In (Log INFO MsgRunFailed) evs /\
    forall stats, ~ In (CallPublish stats) evs.
Proof.
  apply (@aggregate_fault_is_not_fatal Reference.runtime env_stats_fault sample_batch
           "2023-05-31" initial_world); try reflexivity.
  vm_compute. discriminate.
Defined.

(** C2, at the failing input.  The table exists and has no row at all, so
    none on 2023-05-31, yet the aggregate returns statistics (all zero)
    rather than nothing; and in the run [env_other_day], which creates the
    table, loads one row of 2023-05-31 and asks for 2023-06-01, a date
    without rows, the publish step is not skipped: it is called with the
    all-zero statistics. *)
Theorem empty_date_statistics_are_returned_and_published :
  table empty_store = [] /\ table_exists empty_store = true /\
  fst (@get_daily_statistics Reference.runtime sample_env "2023-05-31" empty_store)
    = Ret (Some (zero_statistics "2023-05-31")) /\
  filter (fun row => @sql_on_date Reference.runtime (created_at row) "2023-06-01")
         (table (snd (@main Reference.runtime env_other_day initial_world))) = [] /\
  calls (trace (snd (@main Reference.runtime env_other_day initial_world))) =
    [CallCreateTable; CallLoad 1; CallStats "2023-06-01";
     CallPublish (zero_statistics "2023-06-01")].
Proof. vm_compute. intuition. Qed.

Lemma empty_date_publishes_zero_statistics_instance :
  exists w1 w',
    table w1 = table initial_world ++ @accepted_of Reference.runtime sample_batch /\
    fst (@get_daily_statistics Reference.runtime env_other_day "2023-06-01" w1)
      = Ret (Some (zero_statistics "2023-06-01")) /\
    @main Reference.runtime env_other_day initial_world = (Ret tt, w') /\
    In (CallPublish (zero_statistics "2023-06-01")) (trace w').
Proof.
  apply (@empty_date_publishes_zero_statistics Reference.runtime env_other_day sample_batch
           "2023-06-01" initial_world); try reflexivity.
  - vm_compute. discriminate.
  - intros row Hin. vm_compute in Hin. destruct Hin as [<-|[]]. reflexivity.
Qed.

(** ** Stages of a run *)

Lemma bind_ret_eq {A B} (m : M A) (k : A -> M B) a w w1 :
  m w = (Ret a, w1) -> bind m k w = k a w1.
Proof. intros E. unfold bind. now rewrite E. Qed.

Lemma bind_raise_eq {A B} (m : M A) (k : A -> M B) ex w w1 :
  m w = (Raise ex, w1) -> bind m k w = (Raise ex, w1).
Proof. intros E. unfold bind. now rewrite E. Qed.

Lemma guarded_ret body w w1 :
  body w = (Ret tt, w1) ->
  guarded body w = (Ret tt, add_event (Log INFO MsgTime) w1).
Proof. intros E. unfold guarded, try_finally, try_except. now rewrite E. Qed.

Lemma guarded_raise body ex w w1 :
  body w = (Raise ex, w1) ->
  guarded body w =
    (Ret tt, add_event (Log INFO MsgTime)
               (add_event (Log INFO MsgRunFailed)
                  (add_event (Log ERROR (MsgCritical ex)) w1))).
Proof. intros E. unfold guarded, try_finally, try_except. now rewrite E. Qed.

Lemma new_events_app w w' evs :
  trace w' = trace w ++ evs -> new_events w w' = evs.
Proof.
  intros E. unfold new_events. rewrite E, skipn_app, skipn_all, Nat.sub_diag.
  reflexivity.
Qed.

Lemma calls_app a b : calls (a ++ b) = calls a ++ calls b.
Proof. apply filter_app. Qed.

Lemma plain_logs_are_quiet evs :
  forallb plain_log evs = true ->
  calls evs = [] /\ ~ In (Log INFO MsgRunOk) evs /\ ~ In (Log INFO MsgRunFailed) evs.
Proof.
  induction evs as [|ev evs IH]; cbn; [tauto|].
  intros H. apply andb_true_iff in H. destruct H as [H1 H2].
  destruct (IH H2) as (C & O & F).
  destruct ev as [lv m| | | |]; try discriminate.
  cbn. split; [exact C|].
  split; intros [E|E]; try tauto; inversion E; subst; discriminate.
Qed.

Lemma validation_logs_are_plain evs :
  forallb validation_event evs = true -> forallb plain_log evs = true.
Proof.
  induction evs as [|ev evs IH]; cbn; [reflexivity|].
  intros H. apply andb_true_iff in H. destruct H as [H1 H2].
  rewrite (IH H2), andb_true_r.
  destruct ev as [lv m| | | |]; try discriminate. destruct m; try discriminate; reflexivity.
Qed.

Lemma sheets_logs_are_plain evs :
  forallb sheets_event evs = true -> forallb plain_log evs = true.
Proof.
  induction evs as [|ev evs IH]; cbn; [reflexivity|].
  intros H. apply andb_true_iff in H. destruct H as [H1 H2].
  rewrite (IH H2), andb_true_r.
  destruct ev as [lv m| | | |]; try discriminate. destruct m; try discriminate; reflexivity.
Qed.

Section StageProofs.

Context {runtime : PyRuntime}.

Lemma main_unfolds e w :
  main e w = guarded (main_body e) (add_event (Log INFO MsgStart) w).
Proof. reflexivity. Qed.


(** *** The aggregate *)

Lemma get_daily_statistics_total e d w :
  exists r w' evs,
    get_daily_statistics e d w = (Ret r, w') /\
    table w' = table w /\ table_exists w' = table_exists w /\ sheet w' = sheet w /\
    trace w' = trace w ++ CallStats d :: evs /\
    forallb plain_log evs = true /\
    match r with
    | Some stats => stats_fault e = false /\ evs = [Log INFO (MsgStats stats)]
    | None => stats_fault e = true
    end.
Proof.
  destruct (stats_fault e) eqn:F.
  - rewrite (get_daily_statistics_fault e d w F).
    exists None. eexists. exists [Log ERROR (MsgStatsError Psycopg2Error)].
    split; [reflexivity|].
    split; [reflexivity|]. split; [reflexivity|]. split; [reflexivity|].
    split; [cbn [trace add_event]; rewrite <- app_assoc; reflexivity|].
    split; reflexivity.
  - destruct (get_daily_statistics_ok e d w F) as (stats & E & _).
    rewrite E. exists (Some stats). do 2 eexists. split; [reflexivity|].
    split; [reflexivity|]. split; [reflexivity|]. split; [reflexivity|].
    split; [cbn [trace add_event]; rewrite <- app_assoc; reflexivity|].
    split; [reflexivity|]. split; reflexivity.
Qed.

Lemma aggregate_stage_blank e start_str w :
  split_first start_str = Raise IndexError ->
  aggregate_stage e start_str w = (Raise IndexError, w).
Proof.
  intros H. unfold aggregate_stage. apply bind_raise_eq. unfold lift. now rewrite H.
Qed.

Lemma aggregate_stage_runs e start_str d w :
  split_first start_str = Ret d ->
  exists r w' evs,
    get_daily_statistics e d w = (Ret r, w') /\
    match r with
    | None =>
        stats_fault e = true /\
        aggregate_stage e start_str w = (Ret tt, add_event (Log INFO MsgRunOk) w')
    | Some stats =>
        stats_fault e = false /\
        exists w'',
          aggregate_stage e start_str w =
            match credentials_probe e with
            | Some ex => (Raise ex, w'')
            | None => (Ret tt, add_event (Log INFO MsgRunOk) w'')
            end /\
          table w'' = table w /\
          table_exists w'' = table_exists w /\
          data_rows (sheet w'') =
            (if sheets_ready e (sheet w) then data_rows (sheet w) ++ [stats]
             else data_rows (sheet w)) /\
          trace w'' = trace w ++ [CallStats d; Log INFO (MsgStats stats); CallPublish stats] ++ evs /\
          forallb sheets_event evs = true
    end.
Proof.
  intros Hs.
  destruct (get_daily_statistics_total e d w) as (r & w1 & evs1 & E & T & X & S & Tr & _ & Hr).
  unfold aggregate_stage.
  erewrite bind_ret_eq by (unfold lift; rewrite Hs; reflexivity).
  erewrite bind_ret_eq by exact E.
  destruct r as [stats|].
  - destruct Hr as [F ->].
    destruct (upload_to_google_sheets_outcome e stats w1)
      as (w2 & evs & EU & TU & XU & TrU & VU & DU & _).
    exists (Some stats), w1, evs. split; [exact E|]. split; [exact F|].
    exists w2. split.
    + unfold bind at 1. unfold bind at 1. rewrite EU.
      destruct (credentials_probe e); reflexivity.
    + rewrite TU, XU, DU, TrU, T, X, S, Tr. repeat split; try assumption.
      rewrite <- app_assoc. reflexivity.
  - exists None, w1, evs1. split; [exact E|]. split; [exact Hr | reflexivity].
Qed.

(** *** Schema and load *)

Lemma create_database_table_fault e w :
  schema_fault e = true ->
  create_database_table e w =
    (Raise Psycopg2Error,
     add_event (Log ERROR (MsgTableError Psycopg2Error)) (add_event CallCreateTable w)).
Proof.
  intros F. unfold create_database_table.
  unfold bind, try_except, emit, log, mark_table_exists, ret, raise. rewrite F.
  reflexivity.
Qed.

Lemma create_database_table_ok_world e w :
  schema_fault e = false ->
  create_database_table e w =
    (Ret tt,
     add_event (Log INFO MsgTableReady)
       (mk_world (table w) true (sheet w) (trace w ++ [CallCreateTable]))).
Proof.
  intros F. unfold create_database_table.
  unfold bind, try_except, emit, log, mark_table_exists, ret, raise. rewrite F.
  reflexivity.
Qed.

Lemma load_outcome e records w :
  records <> [] ->
  (exists w',
     load_data_to_database e records w = (Ret (last_page_size records), w') /\
     table w' = table w ++ records /\ table_exists w' = table_exists w /\
     sheet w' = sheet w /\
     trace w' = trace w ++ [CallLoad (List.length records);
                            Log INFO (MsgLoading (List.length records));
                            Log INFO (MsgLoaded (last_page_size records))]) \/
  (load_data_to_database e records w = (Raise Psycopg2Error, load_failed_world records w) /\
   forall k, load_fault e <> FaultNul k) \/
  (load_data_to_database e records w = (Raise ValueError, load_aborted_world records w) /\
   exists k, load_fault e = FaultNul k).
Proof.
  intros Hne.
  pose proof (load_all_or_nothing e records w Hne) as H.
  unfold load_data_to_database, execute_values, load_failed_world, load_aborted_world in *.
  pose proof (execute_pages_outcome (load_fault e) (mk_cursor [] (-1) 0)
                (paginate 100 [] records)) as Hout.
  destruct records as [|r records]; [congruence|].
  unfold bind, try_except, emit, log, lift, connect, commit, get_table, set_table, ret, raise in *.
  destruct (load_fault e) eqn:F; cbn beta iota in *.
  all: try (right; left; split; [reflexivity | discriminate]).
  all: destruct (execute_pages _ _ _) as [cur'|ex]; cbn beta iota in *.
  all: try (right; left; split; [reflexivity | discriminate]).
  all: try (subst ex; right; left; split; [reflexivity | discriminate]).
  all: try (subst ex; right; right; split; [reflexivity | eauto]).
  all: left; destruct H as [T C]; rewrite C.
  all: eexists; split; [reflexivity|]; cbn [table table_exists sheet trace add_event].
  all: split; [exact T|]; split; [reflexivity|]; split; [reflexivity|].
  all: rewrite <- !app_assoc; reflexivity.
Qed.

Lemma fetch_data_from_api_total e start_date end_date w :
  exists r w' evs,
    fetch_data_from_api e start_date end_date w = (r, w') /\
    table w' = table w /\ table_exists w' = table_exists w /\ sheet w' = sheet w /\
    trace w' = trace w ++ evs /\ forallb plain_log evs = true /\
    match r with
    | Ret (Some raw_data) => api e = HttpResponse 200 (Ret raw_data)
    | Ret None => fetch_gives_nothing e
    | Raise ex => exists status_code, api e = HttpResponse status_code (Raise ex)
    end.
Proof.
  unfold fetch_data_from_api, fetch_gives_nothing, try_except, bind, log, emit, lift, ret, raise.
  destruct (api e) as [status_code [raw_data|ex]|]; cbn beta iota.
  - destruct (status_code =? 200) eqn:S.
    + apply Z.eqb_eq in S. subst. do 3 eexists.
      split; [reflexivity|]. split; [reflexivity|]. split; [reflexivity|].
      split; [reflexivity|].
      split; [cbn [trace add_event]; rewrite <- app_assoc; reflexivity|].
      split; reflexivity.
    + apply Z.eqb_neq in S. do 3 eexists.
      split; [reflexivity|]. split; [reflexivity|]. split; [reflexivity|].
      split; [reflexivity|].
      split; [cbn [trace add_event]; rewrite <- app_assoc; reflexivity|].
      split; [reflexivity|]. now left.
  - destruct (status_code =? 200) eqn:S.
    + destruct ex; cbn beta iota.
      all: do 3 eexists.
      all: split; [reflexivity|]; split; [reflexivity|]; split; [reflexivity|];
           split; [reflexivity|];
           split; [cbn [trace add_event]; rewrite <- ?app_assoc; reflexivity|];
           split; [reflexivity|].
      all: try (eexists; reflexivity).
      all: auto.
    + apply Z.eqb_neq in S. do 3 eexists.
      split; [reflexivity|]. split; [reflexivity|]. split; [reflexivity|].
      split; [reflexivity|].
      split; [cbn [trace add_event]; rewrite <- app_assoc; reflexivity|].
      split; [reflexivity|]. now left.
  - do 3 eexists.
    split; [reflexivity|]. split; [reflexivity|]. split; [reflexivity|].
    split; [reflexivity|].
    split; [cbn [trace add_event]; rewrite <- app_assoc; reflexivity|].
    split; [reflexivity|]. exact I.
Qed.


(** *** The body of a run *)

Lemma main_body_nothing e w :
  fetch_gives_nothing e ->
  exists w' evs,
    main_body e w = (Ret tt, w') /\
    table w' = table w /\ table_exists w' = table_exists w /\ sheet w' = sheet w /\
    trace w' = trace w ++ evs /\ forallb plain_log evs = true.
Proof.
  unfold fetch_gives_nothing, main_body.
  unfold fetch_data_from_api, try_except, bind, log, emit, lift, ret, raise.
  destruct (api e) as [status_code [raw_data|ex]|]; cbn beta iota.
  - intros [H|[H|[H|H]]]; try discriminate.
    + apply Z.eqb_neq in H. rewrite H.
      do 2 eexists. split; [reflexivity|]. repeat (split; [reflexivity|]).
      split; [cbn [trace add_event]; rewrite <- !app_assoc; reflexivity | reflexivity].
    + injection H as ->. destruct (status_code =? 200).
      all: do 2 eexists; split; [reflexivity|]; repeat (split; [reflexivity|]).
      all: split; [cbn [trace add_event]; rewrite <- !app_assoc; reflexivity | reflexivity].
  - intros [H|[H|[H|H]]]; try discriminate.
    + apply Z.eqb_neq in H. rewrite H.
      do 2 eexists. split; [reflexivity|]. repeat (split; [reflexivity|]).
      split; [cbn [trace add_event]; rewrite <- !app_assoc; reflexivity | reflexivity].
    + injection H as ->. destruct (status_code =? 200).
      all: do 2 eexists; split; [reflexivity|]; repeat (split; [reflexivity|]).
      all: split; [cbn [trace add_event]; rewrite <- !app_assoc; reflexivity | reflexivity].
    + injection H as ->. destruct (status_code =? 200).
      all: do 2 eexists; split; [reflexivity|]; repeat (split; [reflexivity|]).
      all: split; [cbn [trace add_event]; rewrite <- !app_assoc; reflexivity | reflexivity].
  - intros _.
    do 2 eexists. split; [reflexivity|]. repeat (split; [reflexivity|]).
    split; [cbn [trace add_event]; rewrite <- !app_assoc; reflexivity | reflexivity].
Qed.

Lemma main_body_reaches_process e raw_data w :
  api e = HttpResponse 200 (Ret raw_data) ->
  raw_data <> [] ->
  exists w' evs,
    table w' = table w /\ table_exists w' = table_exists w /\ sheet w' = sheet w /\
    trace w' = trace w ++ evs /\ forallb plain_log evs = true /\
    main_body e w =
      (if Nat.eqb (List.length (accepted_of raw_data)) 0
       then log WARNING MsgNoneValid ;;; ret tt
       else store_stage e (accepted_of raw_data)) w'.
Proof.
  intros Hapi Hne. unfold main_body.
  erewrite bind_ret_eq by reflexivity.
  erewrite bind_ret_eq by (apply fetch_data_from_api_ok; exact Hapi).
  cbn beta iota. rewrite (length_nonzero _ Hne).
  match goal with |- context [bind _ _ ?w0] => set (w2 := w0) end.
  destruct (process_data_runs raw_data w2) as (w3 & evsP & EP & (T3 & X3 & S3 & _) & Tr3 & V3).
  erewrite bind_ret_eq by exact EP.
  exists w3. eexists. split; [exact T3|]. split; [exact X3|]. split; [exact S3|].
  split; [|split; [|reflexivity]].
  - rewrite Tr3. subst w2. cbn [trace add_event]. rewrite <- !app_assoc. reflexivity.
  - cbn. rewrite ?forallb_app. cbn.
    rewrite (validation_logs_are_plain _ V3). reflexivity.
Qed.

Lemma main_body_with_data e raw_data w :
  api e = HttpResponse 200 (Ret raw_data) ->
  accepted_of raw_data <> [] ->
  exists w' evs,
    table w' = table w /\ table_exists w' = table_exists w /\ sheet w' = sheet w /\
    trace w' = trace w ++ evs /\ forallb plain_log evs = true /\
    main_body e w = store_stage e (accepted_of raw_data) w'.
Proof.
  intros Hapi Hacc.
  assert (Hne : raw_data <> []) by (intros ->; now apply Hacc).
  destruct (main_body_reaches_process e raw_data w Hapi Hne)
    as (w' & evs & T & X & S & Tr & V & E).
  rewrite (length_nonzero _ Hacc) in E. eauto 10.
Qed.

Lemma store_stage_schema_fault e validated_data w :
  schema_fault e = true ->
  store_stage e validated_data w =
    (Raise Psycopg2Error,
     add_event (Log ERROR (MsgTableError Psycopg2Error)) (add_event CallCreateTable w)).
Proof.
  intros F. unfold store_stage. apply bind_raise_eq.
  now apply create_database_table_fault.
Qed.

(** The world after a successful schema stage. *)
Lemma store_stage_after_schema e validated_data w :
  schema_fault e = false ->
  validated_data <> [] ->
  let w1 := add_event (Log INFO MsgTableReady)
              (mk_world (table w) true (sheet w) (trace w ++ [CallCreateTable])) in
  (exists w',
     store_stage e validated_data w = aggregate_stage e (START_DATE e) w' /\
     table w' = table w ++ validated_data /\ table_exists w' = true /\
     sheet w' = sheet w /\
     trace w' = trace w ++
                [CallCreateTable; Log INFO MsgTableReady;
                 CallLoad (List.length validated_data);
                 Log INFO (MsgLoading (List.length validated_data));
                 Log INFO (MsgLoaded (last_page_size validated_data));
                 Log INFO (MsgEtlDone (last_page_size validated_data))] /\
     fst (load_data_to_database e validated_data w1) = Ret (last_page_size validated_data)) \/
  (exists ex,
     store_stage e validated_data w =
       (Raise ex, if is_Psycopg2Error ex then load_failed_world validated_data w1
                  else load_aborted_world validated_data w1) /\
     fst (load_data_to_database e validated_data w1) = Raise ex /\
     (ex = Psycopg2Error \/ ex = ValueError)).
Proof.
  intros F Hne w1. unfold store_stage.
  erewrite bind_ret_eq by (apply create_database_table_ok_world; exact F).
  fold w1.
  destruct (load_outcome e validated_data w1 Hne) as [(w2 & E & T & X & S & Tr)|[[E _]|[E _]]].
  - left. erewrite bind_ret_eq by exact E.
    erewrite bind_ret_eq by reflexivity.
    eexists. split; [reflexivity|].
    cbn [table table_exists sheet trace add_event]. rewrite T, X, S, Tr. subst w1.
    cbn [table table_exists sheet trace add_event].
    split; [reflexivity|]. split; [reflexivity|]. split; [reflexivity|].
    split; [rewrite <- !app_assoc; reflexivity|].
    rewrite E. reflexivity.
  - right. exists Psycopg2Error. split; [|split; [rewrite E; reflexivity | now left]].
    apply bind_raise_eq. exact E.
  - right. exists ValueError. split; [|split; [rewrite E; reflexivity | now right]].
    apply bind_raise_eq. exact E.
Qed.

End StageProofs.

(** ** More on the validator *)

Section ValidatorExtras.

Context {runtime : PyRuntime}.

Lemma passback_of_returns_iff passback_str :
  (exists d, passback_of passback_str = Ret d) <->
  (passback_str = PNone \/ passback_str = PStr "None" \/
   (exists v, literal_eval passback_str = Ret v) \/
   literal_eval passback_str = Raise ValueError \/
   literal_eval passback_str = Raise SyntaxError).
Proof.
  unfold passback_of.
  destruct (match passback_str with PNone => true | _ => is_str "None" passback_str end) eqn:T.
  - split; [|eauto]. intros _.
    destruct passback_str; try discriminate; auto.
    right. left. now rewrite (is_str_eq _ _ T).
  - assert (N1 : passback_str <> PNone) by (intros ->; discriminate).
    assert (N2 : passback_str <> PStr "None") by (intros ->; discriminate).
    destruct (literal_eval passback_str) as [v|ex].
    + split; [eauto 6|]. intros _. destruct v; eauto.
    + split.
      * intros [d H]. destruct ex; try discriminate; auto.
      * intros [H|[H|[[v H]|[H|H]]]]; try congruence; inversion H; subst; cbn; eauto.
Qed.

Lemma accepted_is_validated record w n :
  fst (validate_record record w) = Ret (Some n) -> validated record = Some n.
Proof. rewrite validate_record_result. congruence. Qed.

(** X1.  The acceptance criterion of the validator, for records whose
    texts are Latin-1.  A JSON object is accepted exactly when it has the
    four required keys, its attempt kind is ["run"] or ["submit"], its
    correctness flag is absent, null, an int or a bool, its timestamp parses
    under one of the two formats, its passback blob is [None], ["None"], or
    text on which [ast.literal_eval] returns or raises [ValueError] or
    [SyntaxError], and [str()] raises on none of the four values it is
    applied to: neither the user id nor the three passback entries of the
    decoded blob hold an int of more than 4300 digits. *)
Theorem validate_record_acceptance_criterion items w :
  (exists n, fst (validate_record (PDict items) w) = Ret (Some n)) <->
  (exists lti_user_id passback_str kind raw_created_at,
     dict_lookup "lti_user_id" items = Some lti_user_id /\
     dict_lookup "passback_params" items = Some passback_str /\
     dict_lookup "attempt_type" items = Some kind /\
     dict_lookup "created_at" items = Some raw_created_at /\
     (kind = PStr "run" \/ kind = PStr "submit") /\
     flag_is_coercible (dict_lookup "is_correct" items) = true /\
     (exists t, strptime raw_created_at FORMAT_MICROSECONDS = Ret t \/
                strptime raw_created_at FORMAT_SECONDS = Ret t) /\
     (passback_str = PNone \/ passback_str = PStr "None" \/
      (exists v, literal_eval passback_str = Ret v) \/
      literal_eval passback_str = Raise ValueError \/
      literal_eval passback_str = Raise SyntaxError) /\
     str_overflows lti_user_id = false /\
     (forall d,
        fst (parse_passback_params passback_str w) = Ret (PDict d) ->
        str_overflows (dict_get d "oauth_consumer_key" (PStr "")) = false /\
        str_overflows (dict_get d "lis_result_sourcedid" (PStr "")) = false /\
        str_overflows (dict_get d "lis_outcome_service_url" (PStr "")) = false)).
Proof.
  split.
  - intros [n H]. apply accepted_is_validated in H.
    pose proof H as Hv. apply validated_inv in H.
    destruct H as (items' & uid & pb & kind & ts & d & flag & [= <-] & E1 & E2 & E3 & E4
                   & P & C & D & K & _).
    destruct (validated_str_ok _ _ _ _ _ Hv E1 E2 P) as (O1 & O2).
    exists uid, pb, kind, ts. repeat (split; [assumption|]).
    split; [|split; [|split; [|split; [|split]]]].
    + apply orb_true_iff in K. destruct K as [K|K]; apply is_str_eq in K; auto.
    + unfold coerce_is_correct, dict_get in C. unfold flag_is_coercible.
      destruct (dict_lookup "is_correct" items) as [[]|]; congruence.
    + now apply date_accepted_iff.
    + apply passback_of_returns_iff. eauto.
    + exact O1.
    + intros d'. rewrite parse_passback_params_result, P. now intros [= <-].
  - intros (uid & pb & kind & ts & E1 & E2 & E3 & E4 & K & C & D & P & O1 & O2).
    apply passback_of_returns_iff in P. destruct P as [d P].
    destruct (O2 d) as (O3 & O4 & O5).
    { now rewrite parse_passback_params_result, P. }
    apply date_accepted_iff in D.
    rewrite validate_record_result.
    unfold validated. rewrite E1, E2, E3, E4, P, D, O1, O3, O4, O5.
    assert (is_str "run" kind || is_str "submit" kind = true) as ->.
    { destruct K as [-> | ->]; reflexivity. }
    unfold flag_is_coercible in C. unfold coerce_is_correct, dict_get at 1.
    cbn [orb].
    destruct (dict_lookup "is_correct" items) as [[]|]; try discriminate; eauto.
Qed.

(** X2.  A record lacking a required key is rejected, and the warning names
    the first missing key in the order lti_user_id, passback_params,
    attempt_type, created_at; nothing else is logged. *)
Theorem missing_field_is_rejected_and_named items field w :
  find (fun f => match dict_lookup f items with None => true | Some _ => false end)
       required = Some field ->
  validate_record (PDict items) w =
    (Ret None, add_event (Log WARNING (MsgMissingField field)) w).
Proof.
  unfold required. cbn [find]. intros H.
  unfold validate_record, try_except, bind, lift, log, emit, ret.
  cbn [check_required required py_contains].
  unfold bind, lift, log, emit, ret.
  destruct (dict_lookup "lti_user_id" items);
    [|injection H as <-; reflexivity].
  destruct (dict_lookup "passback_params" items);
    [|injection H as <-; reflexivity].
  destruct (dict_lookup "attempt_type" items);
    [|injection H as <-; reflexivity].
  destruct (dict_lookup "created_at" items);
    [discriminate | injection H as <-; reflexivity].
Qed.

(** X3.  A record that is not a JSON object (text, a number, a list, null)
    is always rejected, also when it passes the membership tests of the
    required-field loop. *)
Theorem non_object_record_is_rejected record w :
  (forall items, record <> PDict items) ->
  fst (validate_record record w) = Ret None.
Proof.
  intros H. rewrite validate_record_result.
  destruct record; try reflexivity. now elim (H items).
Qed.

(** X4.  How the two decoders compose: the three passback fields of an
    accepted record are [str()] of the entries of the dict that
    [parse_passback_params] returned for the blob, and the empty string for
    an entry that dict lacks. *)
Theorem passback_fields_follow_the_decoded_blob items passback_str d n w w0 :
  dict_lookup "passback_params" items = Some passback_str ->
  fst (parse_passback_params passback_str w0) = Ret (PDict d) ->
  fst (validate_record (PDict items) w) = Ret (Some n) ->
  oauth_consumer_key n = PStr (py_str (dict_get d "oauth_consumer_key" (PStr ""))) /\
  lis_result_sourcedid n = PStr (py_str (dict_get d "lis_result_sourcedid" (PStr ""))) /\
  lis_outcome_service_url n =
    PStr (py_str (dict_get d "lis_outcome_service_url" (PStr ""))).
Proof.
  intros Hpb Hparse H.
  apply accepted_is_validated, validated_inv in H.
  destruct H as (items' & uid & pb & kind & ts & d' & flag & [= <-] & _ & E2 & _ & _
                 & P & _ & _ & _ & ->).
  rewrite Hpb in E2. injection E2 as <-.
  destruct (parse_passback_params_runs passback_str w0) as (w1 & E & _).
  rewrite E, P in Hparse. cbn in Hparse. injection Hparse as <-.
  repeat split.
Qed.

End ValidatorExtras.

(** ** More on the store gateway *)

Lemma paginate_nonempty {A} (n : nat) (page seq : list A) :
  page ++ seq <> [] -> paginate n page seq <> [].
Proof.
  intros Hne Hnil. pose proof (paginate_concat n page seq) as C.
  rewrite Hnil in C. cbn in C. congruence.
Qed.

Lemma last_cons_nonempty {A} (x : A) (l : list A) (d : A) :
  l <> [] -> last (x :: l) d = last l d.
Proof. destruct l; [congruence | reflexivity]. Qed.

Lemma paginate_last_length {A} (n : nat) (page seq : list A) :
  (0 < n)%nat -> (List.length page < n)%nat -> page ++ seq <> [] ->
  List.length (last (paginate n page seq) []) =
    ((List.length page + List.length seq - 1) mod n + 1)%nat.
Proof.
  intros Hn. revert page. induction seq as [|x seq IH]; intros page Hlt Hne.
  - rewrite app_nil_r in Hne. cbn [paginate List.length].
    destruct page as [|y page]; [congruence|]. cbn [last].
    rewrite Nat.mod_small; cbn [List.length] in *; lia.
  - cbn [paginate].
    destruct (Nat.eqb (List.length (page ++ [x])) n) eqn:E.
    + apply Nat.eqb_eq in E. rewrite length_app in E. cbn [List.length] in E.
      destruct seq as [|y seq].
      * cbn [paginate last List.length].
        rewrite length_app. cbn [List.length].
        replace (List.length page + 1 - 1)%nat with (n - 1)%nat by lia.
        rewrite Nat.mod_small; lia.
      * rewrite last_cons_nonempty by (apply paginate_nonempty; discriminate).
        rewrite IH; [|cbn; lia | discriminate].
        cbn [List.length].
        replace (List.length page + S (S (List.length seq)) - 1)%nat
          with (List.length seq + 1 * n)%nat by lia.
        rewrite Nat.Div0.mod_add.
        replace (0 + S (List.length seq) - 1)%nat with (List.length seq) by lia.
        reflexivity.
    + apply Nat.eqb_neq in E. rewrite length_app in E. cbn [List.length] in E.
      rewrite IH.
      * rewrite length_app. cbn [List.length]. f_equal. f_equal. lia.
      * rewrite length_app. cbn [List.length]. lia.
      * destruct page; discriminate.
Qed.

(** X5.  What a load without fault returns.  All [N >= 1] records are
    committed, and the value returned is [((N - 1) mod 100) + 1], the size of
    the last INSERT statement: it equals [N] exactly when [N <= 100]. *)
Theorem load_returns_the_size_of_the_last_page e records w :
  load_fault e = NoFault ->
  records <> [] ->
  exists w',
    load_data_to_database e records w =
      (Ret (Z.of_nat ((List.length records - 1) mod 100 + 1)), w') /\
    table w' = table w ++ records /\
    ((List.length records <= 100)%nat <->
     Z.of_nat ((List.length records - 1) mod 100 + 1) = Z.of_nat (List.length records)).
Proof.
  intros F Hne.
  destruct (load_succeeds e records w F Hne) as (w' & E & T & _).
  exists w'. split; [|split; [exact T|]].
  - rewrite E. unfold last_page_size.
    rewrite paginate_last_length; cbn [List.length]; try lia; auto.
  - assert (0 < List.length records)%nat by (destruct records; [congruence | cbn; lia]).
    split.
    + intros Hle. rewrite Nat.mod_small; lia.
    + intros Heq. apply Nat2Z.inj in Heq.
      pose proof (Nat.mod_upper_bound (List.length records - 1) 100 ltac:(lia)).
      lia.
Qed.


Section StatisticsExtras.

Context {runtime : PyRuntime}.

Lemma counts_by_flag day :
  forallb row_ok day = true ->
  count_where (fun _ => true) day =
    count_where (fun r => sql_is true (is_correct r)) day
    + count_where (fun r => sql_is false (is_correct r)) day
    + count_where (fun r => sql_is_null (is_correct r)) day.
Proof.
  unfold count_where.
  induction day as [|row day IH]; [reflexivity|].
  cbn [forallb]. intros H. apply andb_true_iff in H. destruct H as [R H].
  specialize (IH H). cbn [filter]. unfold row_ok in R.
  apply andb_true_iff in R. destruct R as [R _].
  apply andb_true_iff in R. destruct R as [_ R].
  destruct (is_correct row) as [|[|]| | | | | | | | |]; try discriminate;
    cbn [sql_is sql_is_null Bool.eqb List.length]; lia.
Qed.

Lemma counts_by_kind day :
  forallb row_ok day = true ->
  count_where (fun _ => true) day =
    count_where (fun r => is_str "run" (attempt_type r)) day
    + count_where (fun r => is_str "submit" (attempt_type r)) day.
Proof.
  unfold count_where.
  induction day as [|row day IH]; [reflexivity|].
  cbn [forallb]. intros H. apply andb_true_iff in H. destruct H as [R H].
  specialize (IH H). cbn [filter]. unfold row_ok in R.
  apply andb_true_iff in R. destruct R as [_ R].
  destruct (is_str "run" (attempt_type row)) eqn:K1;
    destruct (is_str "submit" (attempt_type row)) eqn:K2;
    try discriminate; cbn [List.length]; try lia.
  apply is_str_eq in K1. apply is_str_eq in K2. congruence.
Qed.

Lemma filter_all {A} (l : list A) : filter (fun _ => true) l = l.
Proof. induction l as [|x l IH]; [reflexivity | cbn; now rewrite IH]. Qed.

Lemma nodup_length_le (l : list string) :
  (List.length (nodup string_dec l) <= List.length l)%nat.
Proof.
  induction l as [|x l IH]; [reflexivity|].
  cbn. destruct (in_dec string_dec x l); cbn; lia.
Qed.

Lemma texts_length_le vs : (List.length (texts vs) <= List.length vs)%nat.
Proof.
  induction vs as [|v vs IH]; [reflexivity|].
  destruct v; cbn; lia.
Qed.

Lemma filter_keeps_row_ok (p : NormalizedAttempt -> bool) rows :
  forallb row_ok rows = true -> forallb row_ok (filter p rows) = true.
Proof.
  induction rows as [|row rows IH]; [reflexivity|].
  cbn. intros H. apply andb_true_iff in H. destruct H as [R H].
  destruct (p row); cbn; rewrite ?R; auto.
Qed.

(** X7.  On a table of well-formed rows the daily statistics are
    consistent: every attempt of the day is counted once by outcome
    (successful, failed or without verdict) and once by kind (run or submit),
    and the number of unique users lies between 1 and the total as soon as
    the day has an attempt.  The query leaves the table unchanged. *)
Theorem daily_statistics_are_consistent e d w :
  forallb row_ok (table w) = true ->
  stats_fault e = false ->
  exists stats w',
    get_daily_statistics e d w = (Ret (Some stats), w') /\
    table w' = table w /\
    total_attempts stats =
      successful_attempts stats + failed_attempts stats + run_attempts stats /\
    total_attempts stats = run_count stats + submit_count stats /\
    0 <= unique_users stats <= total_attempts stats /\
    (total_attempts stats = 0 \/ 1 <= unique_users stats).
Proof.
  intros Hok F.
  destruct (get_daily_statistics_ok e d w F) as (stats & E & Q & _).
  exists stats. eexists. split; [exact E|]. split; [reflexivity|].
  unfold daily_query in Q.
  set (day := filter (fun r => sql_on_date (created_at r) d) (table w)) in Q.
  assert (Hday : forallb row_ok day = true) by (apply filter_keeps_row_ok; exact Hok).
  injection Q as Q1 Q2 Q3 Q4 Q5 Q6 Q7.
  rewrite <- Q1, <- Q2, <- Q3, <- Q4, <- Q5, <- Q6, <- Q7.
  split; [apply counts_by_flag; exact Hday|].
  split; [apply counts_by_kind; exact Hday|].
  split.
  - unfold count_where. rewrite filter_all.
    pose proof (nodup_length_le (texts (map user_id day))).
    pose proof (texts_length_le (map user_id day)).
    rewrite length_map in *. lia.
  - destruct day as [|row day'] eqn:Dy; [left; reflexivity|right].
    cbn [forallb] in Hday. apply andb_true_iff in Hday. destruct Hday as [R _].
    unfold row_ok in R. apply andb_true_iff in R. destruct R as [R _].
    apply andb_true_iff in R. destruct R as [R _].
    cbn [map]. destruct (user_id row) as [| | | |s| | | | | |]; try discriminate.
    cbn [texts].
    assert (In s (nodup string_dec (s :: texts (map user_id day')))) as Hin
      by (apply nodup_In; now left).
    destruct (nodup string_dec (s :: texts (map user_id day'))); [destruct Hin|].
    cbn [List.length]. lia.
Qed.

(** X8.  What [upload_to_google_sheets] reports.  The one exception it
    lets out is the one raised by looking for the credentials file, a test
    that sits before its [try]; the worksheet is then as it was.  Otherwise
    it returns true, with the statistics appended as the last row of the
    worksheet, exactly when the export is enabled, gspread is importable, the
    credentials file is found and none of the calls it makes fails; and it
    returns false with no statistics row added, although the spreadsheet, the
    worksheet or its header line may have been created on the way.  The
    table is never touched. *)
Theorem upload_reports_whether_the_row_was_appended e stats w :
  exists r w',
    upload_to_google_sheets e stats w = (r, w') /\
    table w' = table w /\
    calls (new_events w w') = [CallPublish stats] /\
    match r with
    | Ret true =>
        sheets_ready e (sheet w) = true /\
        (exists rows, sheet w' = Worksheet (rows ++ [DataRow stats])) /\
        data_rows (sheet w') = data_rows (sheet w) ++ [stats]
    | Ret false =>
        sheets_ready e (sheet w) = false /\ credentials_probe e = None /\
        data_rows (sheet w') = data_rows (sheet w)
    | Raise ex =>
        sheets_ready e (sheet w) = false /\ credentials_probe e = Some ex /\
        sheet w' = sheet w
    end.
Proof.
  destruct (upload_to_google_sheets_outcome e stats w)
    as (w' & evs & E & T & _ & Tr & V & D & R & P).
  eexists. exists w'. split; [exact E|]. split; [exact T|]. split.
  - rewrite (new_events_app _ _ _ Tr). cbn.
    destruct (plain_logs_are_quiet _ (sheets_logs_are_plain _ V)) as (C & _).
    fold (calls evs). now rewrite C.
  - destruct (credentials_probe e) as [ex|] eqn:Pr.
    + split; [|split; [reflexivity | apply P; discriminate]].
      unfold credentials_probe in Pr. unfold sheets_ready.
      destruct (GSHEETS_ENABLED e), (GSHEETS_AVAILABLE e); try discriminate.
      destruct (credentials_exist e); [discriminate | reflexivity].
    + destruct (sheets_ready e (sheet w)).
      * split; [reflexivity|]. split; [now apply R | exact D].
      * split; [reflexivity|]. split; [reflexivity | exact D].
Qed.

End StatisticsExtras.

Section RunProofs.

Context {runtime : PyRuntime}.

Lemma quiet_prefix evs rest :
  forallb plain_log evs = true ->
  calls (evs ++ rest) = calls rest /\
  (In (Log INFO MsgRunOk) (evs ++ rest) <-> In (Log INFO MsgRunOk) rest) /\
  (In (Log INFO MsgRunFailed) (evs ++ rest) <-> In (Log INFO MsgRunFailed) rest).
Proof.
  intros V. destruct (plain_logs_are_quiet _ V) as (C & O & F).
  rewrite calls_app, C, !in_app_iff. cbn. tauto.
Qed.

Lemma blank_has_no_first_word s :
  forallb is_space (list_ascii_of_string s) = true ->
  split_first s = Raise IndexError.
Proof.
  unfold split_first. intros H.
  assert (E : skip_spaces (list_ascii_of_string s) = []).
  { induction (list_ascii_of_string s) as [|c cs IH]; [reflexivity|].
    cbn in *. apply andb_true_iff in H. destruct H as [-> H]. auto. }
  now rewrite E.
Qed.

(** X9.  A run that gets no data from the fetch stage (transport fault,
    status other than 200, undecodable body, or an empty array) changes
    neither the table nor the worksheet, makes no call to the store or to the
    spreadsheet, and logs neither the success line nor the failure line. *)
Theorem run_without_data_has_no_effect e w :
  fetch_gives_nothing e ->
  exists w',
    main e w = (Ret tt, w') /\
    table w' = table w /\ table_exists w' = table_exists w /\ sheet w' = sheet w /\
    calls (new_events w w') = [] /\
    ~ In (Log INFO MsgRunOk) (new_events w w') /\
    ~ In (Log INFO MsgRunFailed) (new_events w w').
Proof.
  intros H. rewrite main_unfolds.
  destruct (main_body_nothing e (add_event (Log INFO MsgStart) w) H)
    as (w1 & evs & E & T & X & S & Tr & V).
  rewrite (guarded_ret _ _ _ E). eexists. split; [reflexivity|].
  cbn [table table_exists sheet add_event] in *.
  split; [exact T|]. split; [exact X|]. split; [exact S|].
  assert (Hnew : new_events w (add_event (Log INFO MsgTime) w1) =
                 (Log INFO MsgStart :: evs) ++ [Log INFO MsgTime]).
  { apply new_events_app. cbn [trace add_event] in *. rewrite Tr.
    rewrite <- !app_assoc. reflexivity. }
  rewrite Hnew.
  assert (V' : forallb plain_log (Log INFO MsgStart :: evs) = true) by (cbn; exact V).
  destruct (quiet_prefix _ [Log INFO MsgTime] V') as (C & O & F).
  rewrite C, O, F. cbn. split; [reflexivity|]. split; intros [D|[]]; discriminate.
Qed.

(** X10.  When creating the schema fails, the run is marked failed: the fault
    reaches the outer handler, no load is attempted, and table and worksheet
    stay as they were. *)
Theorem schema_fault_fails_the_run e raw_data w :
  api e = HttpResponse 200 (Ret raw_data) ->
  accepted_of raw_data <> [] ->
  schema_fault e = true ->
  exists w',
    main e w = (Ret tt, w') /\
    table w' = table w /\ table_exists w' = table_exists w /\ sheet w' = sheet w /\
    calls (new_events w w') = [CallCreateTable] /\
    In (Log ERROR (MsgCritical Psycopg2Error)) (new_events w w') /\
    In (Log INFO MsgRunFailed) (new_events w w') /\
    ~ In (Log INFO MsgRunOk) (new_events w w').
Proof.
  intros Hapi Hacc F. rewrite main_unfolds.
  destruct (main_body_with_data e raw_data (add_event (Log INFO MsgStart) w) Hapi Hacc)
    as (w1 & evs & T & X & S & Tr & V & E).
  erewrite guarded_raise by (rewrite E; apply store_stage_schema_fault; exact F).
  eexists. split; [reflexivity|].
  cbn [table table_exists sheet add_event] in *.
  split; [exact T|]. split; [exact X|]. split; [exact S|].
  match goal with |- context [new_events w ?w'] =>
    assert (Hnew : new_events w w' =
                   (Log INFO MsgStart :: evs) ++
                   [CallCreateTable; Log ERROR (MsgTableError Psycopg2Error);
                    Log ERROR (MsgCritical Psycopg2Error); Log INFO MsgRunFailed;
                    Log INFO MsgTime])
  end.
  { apply new_events_app. cbn [trace add_event] in *. rewrite Tr.
    rewrite <- !app_assoc. reflexivity. }
  rewrite Hnew.
  assert (V' : forallb plain_log (Log INFO MsgStart :: evs) = true) by (cbn; exact V).
  match goal with |- context [_ ++ ?rest] =>
    destruct (quiet_prefix _ rest V') as (C & O & Fl) end.
  rewrite C, O, Fl. split; [reflexivity|].
  split; [apply in_or_app; right; cbn; tauto|].
  split; [cbn; tauto|]. cbn. intuition discriminate.
Qed.

(** X11.  When the load raises, the run is marked failed, the table holds
    exactly the rows it held before (nothing of the batch is kept), and
    neither the aggregate nor the publish step is called. *)
Theorem load_fault_fails_the_run e raw_data w :
  api e = HttpResponse 200 (Ret raw_data) ->
  accepted_of raw_data <> [] ->
  schema_fault e = false ->
  (load_fault e = FaultConnect \/ load_fault e = FaultCommit \/
   exists k, load_fault e = FaultExecute k /\
             (k < List.length (paginate 100 [] (accepted_of raw_data)))%nat) ->
  exists w',
    main e w = (Ret tt, w') /\
    table w' = table w /\ sheet w' = sheet w /\
    calls (new_events w w') =
      [CallCreateTable; CallLoad (List.length (accepted_of raw_data))] /\
    In (Log ERROR (MsgCritical Psycopg2Error)) (new_events w w') /\
    In (Log INFO MsgRunFailed) (new_events w w') /\
    ~ In (Log INFO MsgRunOk) (new_events w w').
Proof.
  intros Hapi Hacc F Hload. rewrite main_unfolds.
  destruct (main_body_with_data e raw_data (add_event (Log INFO MsgStart) w) Hapi Hacc)
    as (w1 & evs & T & X & S & Tr & V & E).
  destruct (load_fault_rolls_back e (accepted_of raw_data)
              (add_event (Log INFO MsgTableReady)
                 (mk_world (table w1) true (sheet w1) (trace w1 ++ [CallCreateTable])))
              Hacc Hload) as (w3 & E3 & _).
  destruct (store_stage_after_schema e (accepted_of raw_data) w1 F Hacc)
    as [(w2 & _ & _ & _ & _ & _ & Hret)|(ex & Efail & Hraise & _)].
  { exfalso. rewrite E3 in Hret. discriminate. }
  rewrite E3 in Hraise. injection Hraise as <-. cbn [is_Psycopg2Error] in Efail.
  erewrite guarded_raise by (rewrite E; exact Efail).
  eexists. split; [reflexivity|].
  unfold load_failed_world, load_aborted_world. cbn [table table_exists sheet add_event] in *.
  split; [exact T|]. split; [exact S|].
  match goal with |- context [new_events w ?w'] =>
    assert (Hnew : new_events w w' =
                   (Log INFO MsgStart :: evs) ++
                   [CallCreateTable; Log INFO MsgTableReady;
                    CallLoad (List.length (accepted_of raw_data));
                    Log INFO (MsgLoading (List.length (accepted_of raw_data)));
                    Log ERROR (MsgLoadError Psycopg2Error);
                    Log ERROR (MsgCritical Psycopg2Error); Log INFO MsgRunFailed;
                    Log INFO MsgTime])
  end.
  { apply new_events_app. cbn [trace add_event] in *. rewrite Tr.
    rewrite <- !app_assoc. reflexivity. }
  rewrite Hnew.
  assert (V' : forallb plain_log (Log INFO MsgStart :: evs) = true) by (cbn; exact V).
  match goal with |- context [_ ++ ?rest] =>
    destruct (quiet_prefix _ rest V') as (C & O & Fl) end.
  rewrite C, O, Fl. split; [reflexivity|].
  split; [apply in_or_app; right; cbn; tauto|].
  split; [cbn; tauto|]. cbn. intuition discriminate.
Qed.

(** X12.  With a blank START_DATE the rows are loaded and committed, then
    taking the date of the window raises [IndexError]: the run is marked
    failed although the table has grown, and the aggregate is never
    called. *)
Theorem blank_start_date_fails_after_the_load e raw_data w :
  api e = HttpResponse 200 (Ret raw_data) ->
  accepted_of raw_data <> [] ->
  schema_fault e = false ->
  load_fault e = NoFault ->
  forallb is_space (list_ascii_of_string (START_DATE e)) = true ->
  exists w',
    main e w = (Ret tt, w') /\
    table w' = table w ++ accepted_of raw_data /\
    calls (new_events w w') =
      [CallCreateTable; CallLoad (List.length (accepted_of raw_data))] /\
    In (Log ERROR (MsgCritical IndexError)) (new_events w w') /\
    In (Log INFO MsgRunFailed) (new_events w w') /\
    ~ In (Log INFO MsgRunOk) (new_events w w').
Proof.
  intros Hapi Hacc F L B. rewrite main_unfolds.
  destruct (main_body_with_data e raw_data (add_event (Log INFO MsgStart) w) Hapi Hacc)
    as (w1 & evs & T & X & S & Tr & V & E).
  destruct (store_stage_after_schema e (accepted_of raw_data) w1 F Hacc)
    as [(w2 & E2 & T2 & X2 & S2 & Tr2 & _)|(ex & _ & Hraise & _)].
  2:{ exfalso.
      destruct (load_succeeds e (accepted_of raw_data)
                  (add_event (Log INFO MsgTableReady)
                     (mk_world (table w1) true (sheet w1) (trace w1 ++ [CallCreateTable])))
                  L Hacc) as (w3 & E3 & _).
      rewrite E3 in Hraise. discriminate. }
  erewrite guarded_raise
    by (rewrite E, E2; apply aggregate_stage_blank, blank_has_no_first_word; exact B).
  eexists. split; [reflexivity|].
  cbn [table table_exists sheet add_event] in *.
  split; [rewrite T2, T; reflexivity|].
  match goal with |- context [new_events w ?w'] =>
    assert (Hnew : new_events w w' =
                   (Log INFO MsgStart :: evs) ++
                   [CallCreateTable; Log INFO MsgTableReady;
                    CallLoad (List.length (accepted_of raw_data));
                    Log INFO (MsgLoading (List.length (accepted_of raw_data)));
                    Log INFO (MsgLoaded (last_page_size (accepted_of raw_data)));
                    Log INFO (MsgEtlDone (last_page_size (accepted_of raw_data)));
                    Log ERROR (MsgCritical IndexError); Log INFO MsgRunFailed;
                    Log INFO MsgTime])
  end.
  { apply new_events_app. cbn [trace add_event] in *. rewrite Tr2, Tr.
    rewrite <- !app_assoc. reflexivity. }
  rewrite Hnew.
  assert (V' : forallb plain_log (Log INFO MsgStart :: evs) = true) by (cbn; exact V).
  match goal with |- context [_ ++ ?rest] =>
    destruct (quiet_prefix _ rest V') as (C & O & Fl) end.
  rewrite C, O, Fl. split; [reflexivity|].
  split; [apply in_or_app; right; cbn; tauto|].
  split; [cbn; tauto|]. cbn. intuition discriminate.
Qed.

End RunProofs.

Section RunOutcomes.

Context {runtime : PyRuntime}.

(** X13.  The verdict of a run that reaches the publish step.  When every
    stage up to the aggregate succeeds, the statistics passed to the publish
    step are those of the table including the rows just loaded, and the
    worksheet gains that one row exactly when the export is enabled,
    importable, finds its credentials and meets no fault.  A fault inside the
    spreadsheet calls does not fail the run: it ends with the success line.
    Only an exception raised by looking for the credentials file, which
    [upload_to_google_sheets] lets out, reaches the handler of [main]; the
    run is then marked failed although the rows are loaded. *)
Theorem publish_fails_the_run_only_at_the_credentials_probe e raw_data d w :
  api e = HttpResponse 200 (Ret raw_data) ->
  accepted_of raw_data <> [] ->
  schema_fault e = false ->
  load_fault e = NoFault ->
  split_first (START_DATE e) = Ret d ->
  stats_fault e = false ->
  exists stats w',
    main e w = (Ret tt, w') /\
    table w' = table w ++ accepted_of raw_data /\
    daily_query (table w ++ accepted_of raw_data) d =
      Some (total_attempts stats, successful_attempts stats, failed_attempts stats,
            run_attempts stats, unique_users stats, run_count stats, submit_count stats) /\
    data_rows (sheet w') =
      (if sheets_ready e (sheet w) then data_rows (sheet w) ++ [stats]
       else data_rows (sheet w)) /\
    calls (new_events w w') =
      [CallCreateTable; CallLoad (List.length (accepted_of raw_data));
       CallStats d; CallPublish stats] /\
    match credentials_probe e with
    | None =>
        In (Log INFO MsgRunOk) (new_events w w') /\
        ~ In (Log INFO MsgRunFailed) (new_events w w')
    | Some ex =>
        In (Log ERROR (MsgCritical ex)) (new_events w w') /\
        In (Log INFO MsgRunFailed) (new_events w w') /\
        ~ In (Log INFO MsgRunOk) (new_events w w')
    end.
Proof.
  intros Hapi Hacc F L Hs Fs. rewrite main_unfolds.
  destruct (main_body_with_data e raw_data (add_event (Log INFO MsgStart) w) Hapi Hacc)
    as (w1 & evs & T & X & S & Tr & V & E).
  destruct (store_stage_after_schema e (accepted_of raw_data) w1 F Hacc)
    as [(w2 & E2 & T2 & X2 & S2 & Tr2 & _)|(ex & _ & Hraise & _)].
  2:{ exfalso.
      destruct (load_succeeds e (accepted_of raw_data)
                  (add_event (Log INFO MsgTableReady)
                     (mk_world (table w1) true (sheet w1) (trace w1 ++ [CallCreateTable])))
                  L Hacc) as (w3 & E3 & _).
      rewrite E3 in Hraise. discriminate. }
  destruct (aggregate_stage_runs e (START_DATE e) d w2 Hs) as (r & w3 & evsU & Eg & Hr).
  destruct (get_daily_statistics_ok e d w2 Fs) as (stats & Eok & Q & _).
  rewrite Eok in Eg. injection Eg as <- <-.
  destruct Hr as (_ & w4 & E4 & T4 & X4 & D4 & Tr4 & VU).
  exists stats.
  assert (V' : forallb plain_log (Log INFO MsgStart :: evs) = true) by (cbn; exact V).
  cbn [table table_exists sheet trace add_event] in *.
  rewrite S2, S in D4.
  destruct (credentials_probe e) as [ex|].
  - erewrite guarded_raise by (rewrite E, E2; exact E4).
    eexists. split; [reflexivity|].
    cbn [table table_exists sheet add_event].
    split; [rewrite T4, T2, T; reflexivity|].
    split; [rewrite <- T, <- T2; exact Q|].
    split; [exact D4|].
    match goal with |- context [new_events w ?w'] =>
      assert (Hnew : new_events w w' =
                     (Log INFO MsgStart :: evs) ++
                     [CallCreateTable; Log INFO MsgTableReady;
                      CallLoad (List.length (accepted_of raw_data));
                      Log INFO (MsgLoading (List.length (accepted_of raw_data)));
                      Log INFO (MsgLoaded (last_page_size (accepted_of raw_data)));
                      Log INFO (MsgEtlDone (last_page_size (accepted_of raw_data)));
                      CallStats d; Log INFO (MsgStats stats); CallPublish stats] ++
                     evsU ++ [Log ERROR (MsgCritical ex); Log INFO MsgRunFailed;
                              Log INFO MsgTime])
    end.
    { apply new_events_app. cbn [trace add_event]. rewrite Tr4, Tr2, Tr.
      rewrite <- !app_assoc. reflexivity. }
    rewrite Hnew.
    match goal with |- context [(Log INFO MsgStart :: evs) ++ ?rest] =>
      destruct (quiet_prefix _ rest V') as (C & O & Fl) end.
    rewrite C, O, Fl.
    match goal with |- context [evsU ++ ?rest] =>
      destruct (quiet_prefix evsU rest (sheets_logs_are_plain _ VU)) as (C2 & O2 & Fl2) end.
    split; [|split; [|split]].
    + cbn [app]. unfold calls at 1. cbn [filter is_call].
      match goal with |- context [filter is_call (evsU ++ ?rest)] =>
        fold (calls (evsU ++ rest)) end.
      rewrite C2. reflexivity.
    + apply in_or_app. right. rewrite !in_app_iff. cbn. tauto.
    + apply in_or_app. right. apply Fl2. cbn. tauto.
    + intros Hin. apply in_app_or in Hin. destruct Hin as [Hin|Hin].
      * cbn in Hin. intuition discriminate.
      * apply O2 in Hin. cbn in Hin. intuition discriminate.
  - erewrite guarded_ret by (rewrite E, E2; exact E4).
    eexists. split; [reflexivity|].
    cbn [table table_exists sheet add_event].
    split; [rewrite T4, T2, T; reflexivity|].
    split; [rewrite <- T, <- T2; exact Q|].
    split; [exact D4|].
    match goal with |- context [new_events w ?w'] =>
      assert (Hnew : new_events w w' =
                     (Log INFO MsgStart :: evs) ++
                     [CallCreateTable; Log INFO MsgTableReady;
                      CallLoad (List.length (accepted_of raw_data));
                      Log INFO (MsgLoading (List.length (accepted_of raw_data)));
                      Log INFO (MsgLoaded (last_page_size (accepted_of raw_data)));
                      Log INFO (MsgEtlDone (last_page_size (accepted_of raw_data)));
                      CallStats d; Log INFO (MsgStats stats); CallPublish stats] ++
                     evsU ++ [Log INFO MsgRunOk; Log INFO MsgTime])
    end.
    { apply new_events_app. cbn [trace add_event]. rewrite Tr4, Tr2, Tr.
      rewrite <- !app_assoc. reflexivity. }
    rewrite Hnew.
    match goal with |- context [(Log INFO MsgStart :: evs) ++ ?rest] =>
      destruct (quiet_prefix _ rest V') as (C & O & Fl) end.
    rewrite C, O, Fl.
    destruct (quiet_prefix evsU [Log INFO MsgRunOk; Log INFO MsgTime]
                (sheets_logs_are_plain _ VU)) as (C2 & O2 & Fl2).
    split; [|split].
    + cbn [app]. unfold calls at 1. cbn [filter is_call].
      fold (calls (evsU ++ [Log INFO MsgRunOk; Log INFO MsgTime])).
      rewrite C2. reflexivity.
    + apply in_or_app. right. apply O2. cbn. tauto.
    + intros Hin. apply in_app_or in Hin. destruct Hin as [Hin|Hin].
      * cbn in Hin. intuition discriminate.
      * apply Fl2 in Hin. cbn in Hin. intuition discriminate.
Qed.

Lemma aggregate_stage_total e start_str w :
  exists r w' evs,
    aggregate_stage e start_str w = (r, w') /\
    table w' = table w /\ trace w' = trace w ++ evs.
Proof.
  destruct (split_first start_str) as [d|ex] eqn:Hs.
  - destruct (aggregate_stage_runs e start_str d w Hs) as (r & w1 & evs & Eg & Hr).
    destruct (get_daily_statistics_total e d w) as (r' & w1' & evs1 & E1 & T1 & _ & _ & Tr1 & _).
    rewrite E1 in Eg. injection Eg as <- <-.
    destruct r' as [stats|].
    + destruct Hr as (_ & w2 & E2 & T2 & _ & _ & Tr2 & _).
      destruct (credentials_probe e).
      * do 3 eexists. split; [exact E2|].
        split; [exact T2|]. rewrite Tr2. reflexivity.
      * do 3 eexists. split; [exact E2|]. cbn [table trace add_event].
        split; [exact T2|]. rewrite Tr2. rewrite <- !app_assoc. reflexivity.
    + destruct Hr as (_ & E2).
      do 3 eexists. split; [exact E2|]. cbn [table trace add_event].
      split; [exact T1|]. rewrite Tr1. rewrite <- !app_assoc. reflexivity.
  - do 2 eexists. exists []. split; [|split; [reflexivity | now rewrite app_nil_r]].
    unfold aggregate_stage. apply bind_raise_eq. unfold lift. now rewrite Hs.
Qed.

Lemma store_stage_total e validated_data w :
  validated_data <> [] ->
  exists r w' evs,
    store_stage e validated_data w = (r, w') /\
    trace w' = trace w ++ evs /\
    (table w' = table w \/ table w' = table w ++ validated_data).
Proof.
  intros Hne. destruct (schema_fault e) eqn:F.
  - rewrite (store_stage_schema_fault e validated_data w F).
    do 3 eexists. split; [reflexivity|]. cbn [table trace add_event].
    split; [rewrite <- !app_assoc; reflexivity | now left].
  - destruct (store_stage_after_schema e validated_data w F Hne)
      as [(w2 & E2 & T2 & _ & _ & Tr2 & _)|(ex & Efail & _ & Hex)].
    + destruct (aggregate_stage_total e (START_DATE e) w2) as (r & w3 & evs & E3 & T3 & Tr3).
      exists r, w3. eexists. split; [rewrite E2; exact E3|].
      split; [rewrite Tr3, Tr2, <- !app_assoc; reflexivity|].
      right. now rewrite T3, T2.
    + destruct Hex as [-> | ->]; rewrite Efail; do 3 eexists; (split; [reflexivity|]);
        unfold load_failed_world, load_aborted_world;
        cbn [is_Psycopg2Error table trace add_event];
        (split; [rewrite <- !app_assoc; reflexivity | now left]).
Qed.

Lemma main_body_total e w :
  exists r w' evs,
    main_body e w = (r, w') /\
    trace w' = trace w ++ evs /\
    (table w' = table w \/
     exists raw_data,
       api e = HttpResponse 200 (Ret raw_data) /\
       table w' = table w ++ accepted_of raw_data).
Proof.
  destruct (fetch_data_from_api_total e (START_DATE e) (END_DATE e)
              (add_event (Log INFO (MsgPeriod (START_DATE e) (END_DATE e))) w))
    as (r0 & w0 & evs0 & E0 & T0 & _ & _ & Tr0 & _ & H0).
  cbn [table trace add_event] in T0, Tr0.
  destruct r0 as [[raw_data|]|ex].
  - destruct raw_data as [|record raw_data].
    + destruct (main_body_nothing e w) as (w1 & evs & E & T & _ & _ & Tr & _).
      { unfold fetch_gives_nothing. rewrite H0. auto. }
      do 3 eexists. split; [exact E|]. split; [exact Tr | now left].
    + destruct (main_body_reaches_process e (record :: raw_data) w H0 ltac:(discriminate))
        as (w1 & evs & T & _ & _ & Tr & _ & E).
      destruct (accepted_of (record :: raw_data)) as [|v accepted] eqn:Hacc.
      * cbn [List.length Nat.eqb] in E. rewrite E.
        do 3 eexists. split; [reflexivity|]. cbn [table trace add_event].
        split; [rewrite Tr, <- !app_assoc; reflexivity | now left].
      * cbn [List.length Nat.eqb] in E.
        destruct (store_stage_total e (v :: accepted) w1 ltac:(discriminate))
          as (r & w2 & evs2 & E2 & Tr2 & T2).
        exists r, w2. eexists. split; [rewrite E; exact E2|].
        split; [rewrite Tr2, Tr, <- !app_assoc; reflexivity|].
        destruct T2 as [T2|T2]; [left; congruence|].
        right. exists (record :: raw_data). split; [exact H0|]. rewrite Hacc. congruence.
  - destruct (main_body_nothing e w H0) as (w1 & evs & E & T & _ & _ & Tr & _).
    do 3 eexists. split; [exact E|]. split; [exact Tr | now left].
  - exists (Raise ex), w0. eexists. split.
    + unfold main_body. erewrite bind_ret_eq by reflexivity.
      apply bind_raise_eq. exact E0.
    + split; [rewrite Tr0, <- !app_assoc; reflexivity | now left].
Qed.

(** The outcome of a run, whatever the environment. *)
Lemma main_outcome e w :
  exists w' evs,
    main e w = (Ret tt, w') /\
    trace w' = trace w ++ Log INFO MsgStart :: evs ++ [Log INFO MsgTime] /\
    (table w' = table w \/
     exists raw_data,
       api e = HttpResponse 200 (Ret raw_data) /\
       table w' = table w ++ accepted_of raw_data).
Proof.
  rewrite main_unfolds.
  destruct (main_body_total e (add_event (Log INFO MsgStart) w)) as (r & w1 & evs & E & Tr & T).
  cbn [table trace add_event] in Tr, T.
  destruct r as [[]|ex].
  - rewrite (guarded_ret _ _ _ E). eexists. exists evs. split; [reflexivity|].
    cbn [table trace add_event]. split; [|exact T].
    rewrite Tr, <- !app_assoc. reflexivity.
  - rewrite (guarded_raise _ _ _ _ E). eexists.
    exists (evs ++ [Log ERROR (MsgCritical ex); Log INFO MsgRunFailed]).
    split; [reflexivity|].
    cbn [table trace add_event]. split; [|exact T].
    rewrite Tr, <- !app_assoc. reflexivity.
Qed.

(** X14.  Once logging is set up, [main] never lets an exception out: in
    every environment it returns normally, its last log line is the closing
    time line, and the table is either unchanged or extended by exactly the
    accepted records of the fetched batch. *)
Theorem main_never_raises e w :
  exists w' evs,
    main e w = (Ret tt, w') /\
    new_events w w' = Log INFO MsgStart :: evs ++ [Log INFO MsgTime] /\
    (table w' = table w \/
     exists raw_data,
       api e = HttpResponse 200 (Ret raw_data) /\
       table w' = table w ++ accepted_of raw_data).
Proof.
  destruct (main_outcome e w) as (w' & evs & E & Tr & T).
  exists w', evs. split; [exact E|]. split; [|exact T].
  now apply new_events_app.
Qed.

Lemma accepted_rows_ok raw_data : forallb row_ok (accepted_of raw_data) = true.
Proof.
  unfold accepted_of. induction raw_data as [|record raw_data IH]; [reflexivity|].
  cbn [flat_map]. rewrite forallb_app, IH, andb_true_r.
  rewrite accepted_one_validated.
  destruct (validated record) as [n|] eqn:V; [|reflexivity].
  apply validated_inv in V.
  destruct V as (items & uid & pb & kind & ts & d & flag & _ & _ & _ & _ & _ & _ & C & _ & K & ->).
  cbn. unfold row_ok. cbn [user_id is_correct attempt_type]. rewrite K.
  unfold coerce_is_correct in C.
  destruct (dict_get items "is_correct" PNone); inversion C; reflexivity.
Qed.

(** X15.  Well-formed rows are an invariant of the run: if every row of the
    table has a text user id, a null or boolean flag and a kind that is
    ["run"] or ["submit"], the same holds after [main], in every
    environment. *)
Theorem main_keeps_rows_well_formed e w :
  forallb row_ok (table w) = true ->
  forallb row_ok (table (snd (main e w))) = true.
Proof.
  intros H. destruct (main_outcome e w) as (w' & evs & E & _ & T).
  rewrite E. cbn [snd].
  destruct T as [->|(raw_data & _ & ->)]; [exact H|].
  rewrite forallb_app, H. apply accepted_rows_ok.
Qed.

(** A run whose fetch, schema and load stages succeed commits the batch,
    whatever happens afterwards. *)
Lemma main_commits_the_batch e raw_data w :
  api e = HttpResponse 200 (Ret raw_data) ->
  accepted_of raw_data <> [] ->
  schema_fault e = false ->
  load_fault e = NoFault ->
  table (snd (main e w)) = table w ++ accepted_of raw_data.
Proof.
  intros Hapi Hacc F L. rewrite main_unfolds.
  destruct (main_body_with_data e raw_data (add_event (Log INFO MsgStart) w) Hapi Hacc)
    as (w1 & evs & T & _ & _ & _ & _ & E).
  cbn [table add_event] in T.
  destruct (store_stage_after_schema e (accepted_of raw_data) w1 F Hacc)
    as [(w2 & E2 & T2 & _)|(ex & _ & Hraise & _)].
  2:{ exfalso.
      destruct (load_succeeds e (accepted_of raw_data)
                  (add_event (Log INFO MsgTableReady)
                     (mk_world (table w1) true (sheet w1) (trace w1 ++ [CallCreateTable])))
                  L Hacc) as (w3 & E3 & _).
      rewrite E3 in Hraise. discriminate. }
  destruct (aggregate_stage_total e (START_DATE e) w2) as (r & w3 & evs3 & E3 & T3 & _).
  rewrite E2, E3 in E.
  destruct r as [[]|ex].
  - rewrite (guarded_ret _ _ _ E). cbn [snd table add_event]. congruence.
  - rewrite (guarded_raise _ _ _ _ E). cbn [snd table add_event]. congruence.
Qed.

(** X16.  Runs are not idempotent.  The load is a plain INSERT into a table
    whose only key is the serial id, so a second run over the same window
    stores every accepted record a second time. *)
Theorem rerun_stores_the_batch_twice e raw_data w :
  api e = HttpResponse 200 (Ret raw_data) ->
  accepted_of raw_data <> [] ->
  schema_fault e = false ->
  load_fault e = NoFault ->
  table (snd (main e (snd (main e w)))) =
    table w ++ accepted_of raw_data ++ accepted_of raw_data.
Proof.
  intros Hapi Hacc F L.
  rewrite !(main_commits_the_batch e raw_data) by assumption.
  now rewrite app_assoc.
Qed.

End RunOutcomes.

(** ** Log retention *)

Lemma glob_match_char c pattern d name :
  c <> "*"%char -> c <> "?"%char ->
  glob_match (String c pattern) (String d name) = ((c =? d)%char && glob_match pattern name).
Proof.
  intros S Q. cbn [glob_match].
  destruct (c =? "*")%char eqn:E1; [apply Ascii.eqb_eq in E1; contradiction|].
  destruct (c =? "?")%char eqn:E2; [apply Ascii.eqb_eq in E2; contradiction|].
  reflexivity.
Qed.

Lemma glob_match_char_empty c pattern :
  c <> "*"%char -> glob_match (String c pattern) EmptyString = false.
Proof.
  intros S. cbn [glob_match].
  destruct (c =? "*")%char eqn:E1; [apply Ascii.eqb_eq in E1; contradiction|reflexivity].
Qed.

Lemma glob_match_star pattern name :
  glob_match (String "*" pattern) name =
    (glob_match pattern name
     || match name with
        | EmptyString => false
        | String _ name' => glob_match (String "*" pattern) name'
        end).
Proof. destruct name; reflexivity. Qed.

Ltac glob_step :=
  first [ rewrite glob_match_char by discriminate
        | rewrite glob_match_char_empty by discriminate ].

Lemma glob_literal_log name : glob_match ".log" name = true <-> name = ".log".
Proof.
  split; [|intros ->; reflexivity].
  destruct name as [|a [|b [|c [|d rest]]]]; repeat glob_step;
    rewrite ?andb_false_r; try discriminate.
  rewrite !andb_true_iff. intros (A & B & C & D & H).
  apply Ascii.eqb_eq in A, B, C, D. subst.
  destruct rest; [reflexivity|discriminate].
Qed.

Lemma glob_star_log name :
  glob_match "*.log" name = true <-> exists mid, name = (mid ++ ".log")%string.
Proof.
  induction name as [|c name IH].
  - split; [discriminate|]. intros [[|a mid] H]; discriminate.
  - rewrite glob_match_star, orb_true_iff, glob_literal_log. split.
    + intros [H|H]; [exists EmptyString; exact H|].
      apply IH in H. destruct H as [mid ->]. now exists (String c mid).
    + intros [[|a mid] H]; [left; exact H|right].
      injection H as _ ->. apply IH. now exists mid.
Qed.

Lemma glob_etl_log name :
  glob_match "etl_*.log" name = true <-> exists mid, name = ("etl_" ++ mid ++ ".log")%string.
Proof.
  split.
  - destruct name as [|a [|b [|c [|d rest]]]]; repeat glob_step;
      rewrite ?andb_false_r; try discriminate.
    rewrite !andb_true_iff. intros (A & B & C & D & H).
    apply Ascii.eqb_eq in A, B, C, D. subst.
    apply glob_star_log in H. destruct H as [mid ->]. now exists mid.
  - intros [mid ->]. cbn [append]. repeat glob_step.
    rewrite !Ascii.eqb_refl. cbn [andb].
    apply glob_star_log. now exists mid.
Qed.

Lemma cleanup_loop_unlinked cutoff_date files f :
  In f (fst (cleanup_loop cutoff_date files)) <->
  In f files /\ (exists t, st_mtime f = Some t /\ t < cutoff_date) /\ unlink_raises f = false.
Proof.
  induction files as [|g files IH].
  - cbn. tauto.
  - cbn [cleanup_loop]. destruct (cleanup_loop cutoff_date files) as [unlinked printed].
    cbn [fst] in IH.
    destruct (st_mtime g) as [t|] eqn:Eg.
    + destruct (t <? cutoff_date) eqn:Et.
      * apply Z.ltb_lt in Et.
        destruct (unlink_raises g) eqn:Eu; cbn [fst In]; rewrite IH.
        -- split; [tauto|]. intros ([<-|H] & O & U); [congruence|tauto].
        -- split; [intros [<-|H]; [|tauto]|tauto].
           split; [now left|]. split; [eauto|exact Eu].
      * apply Z.ltb_ge in Et. cbn [fst In]. rewrite IH.
        split; [tauto|]. intros ([<-|H] & (t' & E' & L) & U); [|eauto 6].
        rewrite Eg in E'. injection E' as <-. lia.
    + cbn [fst In]. rewrite IH. split; [tauto|].
      intros ([<-|H] & (t' & E' & L) & U); [congruence|eauto 6].
Qed.

Lemma cleanup_loop_printed cutoff_date files name :
  In name (snd (cleanup_loop cutoff_date files)) <->
  exists f, In f files /\ log_name f = name /\
            (st_mtime f = None \/
             (exists t, st_mtime f = Some t /\ t < cutoff_date) /\ unlink_raises f = true).
Proof.
  induction files as [|g files IH].
  - cbn. split; [tauto|]. intros (f & [] & _).
  - cbn [cleanup_loop]. destruct (cleanup_loop cutoff_date files) as [unlinked printed].
    cbn [snd] in IH.
    assert (Hrest : In name printed ->
              exists f, In f (g :: files) /\ log_name f = name /\
                (st_mtime f = None \/
                 (exists t, st_mtime f = Some t /\ t < cutoff_date) /\ unlink_raises f = true)).
    { intros H. apply IH in H. destruct H as (f & I & R). exists f. split; [now right|exact R]. }
    destruct (st_mtime g) as [t|] eqn:Eg.
    + destruct (t <? cutoff_date) eqn:Et.
      * apply Z.ltb_lt in Et.
        destruct (unlink_raises g) eqn:Eu; cbn [snd In].
        -- split.
           ++ intros [<-|H]; [|auto]. exists g. split; [now left|]. split; [reflexivity|].
              right. split; [eauto|exact Eu].
           ++ intros (f & [<-|I] & N & R); [now left|right]. apply IH. eauto.
        -- split; [auto|].
           intros (f & [<-|I] & N & R); [|apply IH; eauto].
           destruct R as [R|[_ R]]; congruence.
      * apply Z.ltb_ge in Et. cbn [snd]. split; [auto|].
        intros (f & [<-|I] & N & R); [|apply IH; eauto].
        destruct R as [R|[(t' & E' & L) _]]; [congruence|].
        rewrite Eg in E'. injection E' as <-. lia.
    + cbn [snd In]. split.
      * intros [<-|H]; [|auto]. exists g. split; [now left|]. split; [reflexivity|now left].
      * intros (f & [<-|I] & N & R); [now left|right]. apply IH. eauto.
Qed.

(** X17.  Which logs [cleanup_old_logs] removes.  An entry of the log
    directory is removed exactly when its name has the form etl_<...>.log,
    its modification time is strictly more than three days before now, and
    removing it does not fail; a file of any other name, or modified three
    days ago or later, is never removed.  A matching entry that cannot be
    examined, or is old and cannot be removed, has its name printed and does
    not stop the loop.  Without a log directory nothing happens. *)
Theorem cleanup_removes_exactly_the_expired_logs now entries :
  cleanup_old_logs now None = ([], []) /\
  (forall f,
     In f (fst (cleanup_old_logs now (Some entries))) <->
     In f entries /\
     (exists mid, log_name f = ("etl_" ++ mid ++ ".log")%string) /\
     (exists t, st_mtime f = Some t /\ t + 3 * 86400 * 1000000 < now) /\
     unlink_raises f = false) /\
  (forall name,
     In name (snd (cleanup_old_logs now (Some entries))) <->
     exists f, In f entries /\ log_name f = name /\
       (exists mid, name = ("etl_" ++ mid ++ ".log")%string) /\
       (st_mtime f = None \/
        (exists t, st_mtime f = Some t /\ t + 3 * 86400 * 1000000 < now) /\
        unlink_raises f = true)).
Proof.
  split; [reflexivity|]. unfold cleanup_old_logs, timedelta_days, LOGS_RETENTION_DAYS.
  split.
  - intros f. rewrite cleanup_loop_unlinked, filter_In, glob_etl_log.
    split.
    + intros ((I & G) & (t & E & L) & U). repeat split; auto. exists t. split; [exact E|lia].
    + intros (I & G & (t & E & L) & U). repeat split; auto. exists t. split; [exact E|lia].
  - intros name. rewrite cleanup_loop_printed. split.
    + intros (f & I & N & R). apply filter_In in I. destruct I as [I G].
      apply glob_etl_log in G. rewrite N in G.
      exists f. repeat split; auto.
      destruct R as [R|[(t & E & L) U]]; [now left|right].
      split; [exists t; split; [exact E|lia]|exact U].
    + intros (f & I & N & G & R). exists f. split.
      * apply filter_In. split; [exact I|]. apply glob_etl_log. now rewrite N.
      * split; [exact N|].
        destruct R as [R|[(t & E & L) U]]; [now left|right].
        split; [exists t; split; [exact E|lia]|exact U].
Qed.

(** ** Instances at concrete inputs *)

(** [str()] of an int of 4301 digits raises, of one of 4300 digits does
    not; the validator turns the fault into a rejection. *)
Example long_int_is_rejected :
  str_overflows (PInt (10 ^ 4300)) = true /\
  str_overflows (PInt (10 ^ 4300 - 1)) = false /\
  str_overflows (PList [PStr "a"; PInt (- 10 ^ 4300)]) = true /\
  @validate_record Reference.runtime sample_long_user initial_world =
    (Ret None, add_event (Log ERROR (MsgValidationError ValueError)) initial_world).
Proof. vm_compute. repeat split. Qed.

(** A NUL character in a text of the batch: the load raises [ValueError]
    without its error line, nothing is stored, and the run is marked
    failed. *)
Example nul_character_fails_the_run :
  let loaded := load_data_to_database env_nul batch_101 initial_world in
  let w' := snd (@main Reference.runtime env_nul initial_world) in
  fst loaded = Raise ValueError /\ table (snd loaded) = [] /\
  trace (snd loaded) = [CallLoad 101; Log INFO (MsgLoading 101)] /\
  table w' = [] /\
  In (Log ERROR (MsgCritical ValueError)) (trace w') /\
  In (Log INFO MsgRunFailed) (trace w').
Proof. vm_compute. intuition. Qed.

(** When appending the statistics row fails on a fresh account, the
    spreadsheet, the worksheet and its header line are already there; and
    when looking for the credentials file raises, the exception leaves the
    function. *)
Example upload_can_fail_after_the_header :
  let stats := zero_statistics "2023-05-31" in
  let tried := @upload_to_google_sheets env_append_fault stats initial_world in
  fst tried = Ret false /\ sheet (snd tried) = Worksheet [HeaderRow] /\
  fst (@upload_to_google_sheets env_credentials_denied stats initial_world) = Raise OSError /\
  let done := @upload_to_google_sheets sample_env stats initial_world in
  fst done = Ret true /\ sheet (snd done) = Worksheet [HeaderRow; DataRow stats].
Proof. vm_compute. repeat split. Qed.

(** The sample directory: only the log of four days ago is removed; the one
    of exactly three days ago stays, and two names are printed. *)
Example cleanup_old_logs_sample :
  cleanup_old_logs sample_now (Some sample_logs) =
    ([mk_log_file "etl_2023-05-31.log" (Some ((19508 * 86400 + 43200) * 1000000)) false],
     ["etl_locked.log"; "etl_gone.log"]).
Proof. vm_compute. reflexivity. Qed.

Lemma validate_record_acceptance_criterion_witness :
  (exists n, fst (@validate_record Reference.runtime sample_run initial_world) = Ret (Some n)) <->
  (exists lti_user_id passback_str kind raw_created_at,
     dict_lookup "lti_user_id"
       [(PStr "lti_user_id", PStr "user-2"); (PStr "passback_params", PStr "None");
        (PStr "attempt_type", PStr "run"); (PStr "created_at", PStr "2023-05-31 10:00:00")]
       = Some lti_user_id /\
     dict_lookup "passback_params"
       [(PStr "lti_user_id", PStr "user-2"); (PStr "passback_params", PStr "None");
        (PStr "attempt_type", PStr "run"); (PStr "created_at", PStr "2023-05-31 10:00:00")]
       = Some passback_str /\
     dict_lookup "attempt_type"
       [(PStr "lti_user_id", PStr "user-2"); (PStr "passback_params", PStr "None");
        (PStr "attempt_type", PStr "run"); (PStr "created_at", PStr "2023-05-31 10:00:00")]
       = Some kind /\
     dict_lookup "created_at"
       [(PStr "lti_user_id", PStr "user-2"); (PStr "passback_params", PStr "None");
        (PStr "attempt_type", PStr "run"); (PStr "created_at", PStr "2023-05-31 10:00:00")]
       = Some raw_created_at /\
     (kind = PStr "run" \/ kind = PStr "submit") /\
     flag_is_coercible
       (dict_lookup "is_correct"
          [(PStr "lti_user_id", PStr "user-2"); (PStr "passback_params", PStr "None");
           (PStr "attempt_type", PStr "run"); (PStr "created_at", PStr "2023-05-31 10:00:00")])
       = true /\
     (exists t, strptime raw_created_at FORMAT_MICROSECONDS = Ret t \/
                strptime raw_created_at FORMAT_SECONDS = Ret t) /\
     (passback_str = PNone \/ passback_str = PStr "None" \/
      (exists v, @literal_eval Reference.runtime passback_str = Ret v) \/
      @literal_eval Reference.runtime passback_str = Raise ValueError \/
      @literal_eval Reference.runtime passback_str = Raise SyntaxError) /\
     str_overflows lti_user_id = false /\
     (forall d,
        fst (@parse_passback_params Reference.runtime passback_str initial_world)
          = Ret (PDict d) ->
        str_overflows (dict_get d "oauth_consumer_key" (PStr "")) = false /\
        str_overflows (dict_get d "lis_result_sourcedid" (PStr "")) = false /\
        str_overflows (dict_get d "lis_outcome_service_url" (PStr "")) = false)).
Proof.
  exact (@validate_record_acceptance_criterion Reference.runtime
           [(PStr "lti_user_id", PStr "user-2"); (PStr "passback_params", PStr "None");
            (PStr "attempt_type", PStr "run"); (PStr "created_at", PStr "2023-05-31 10:00:00")]
           initial_world).
Defined.

Lemma missing_field_is_rejected_and_named_witness :
  @validate_record Reference.runtime sample_missing_field initial_world =
    (Ret None, add_event (Log WARNING (MsgMissingField "passback_params")) initial_world).
Proof.
  apply (@missing_field_is_rejected_and_named Reference.runtime
           [(PStr "lti_user_id", PStr "user-6"); (PStr "attempt_type", PStr "run")]
           "passback_params" initial_world).
  vm_compute. reflexivity.
Defined.

Lemma non_object_record_is_rejected_witness :
  fst (@validate_record Reference.runtime
         (PStr "lti_user_id passback_params attempt_type created_at") initial_world) = Ret None.
Proof.
  apply (@non_object_record_is_rejected Reference.runtime
           (PStr "lti_user_id passback_params attempt_type created_at") initial_world).
  intros items. discriminate.
Defined.

Lemma passback_fields_follow_the_decoded_blob_witness :
  let n := mk_attempt (PStr "user-1") (PStr "abc") (PStr "sid") (PStr "") (PBool true)
                      (PStr "submit") (PStr "2023-05-31 10:00:00.123456") in
  let d := [(PStr "oauth_consumer_key", PStr "abc"); (PStr "lis_result_sourcedid", PStr "sid")] in
  oauth_consumer_key n =
    PStr (@py_str Reference.runtime (dict_get d "oauth_consumer_key" (PStr ""))) /\
  lis_result_sourcedid n =
    PStr (@py_str Reference.runtime (dict_get d "lis_result_sourcedid" (PStr ""))) /\
  lis_outcome_service_url n =
    PStr (@py_str Reference.runtime (dict_get d "lis_outcome_service_url" (PStr ""))).
Proof.
  apply (@passback_fields_follow_the_decoded_blob Reference.runtime
           [(PStr "lti_user_id", PStr "user-1");
            (PStr "passback_params",
             PStr "{'oauth_consumer_key': 'abc', 'lis_result_sourcedid': 'sid'}");
            (PStr "attempt_type", PStr "submit");
            (PStr "created_at", PStr "2023-05-31 10:00:00.123456");
            (PStr "is_correct", PInt 1)]
           (PStr "{'oauth_consumer_key': 'abc', 'lis_result_sourcedid': 'sid'}")
           _ _ initial_world initial_world);
    vm_compute; reflexivity.
Defined.

Lemma run_without_data_has_no_effect_witness :
  exists w',
    @main Reference.runtime env_status_500 initial_world = (Ret tt, w') /\
    table w' = table initial_world /\ table_exists w' = table_exists initial_world /\
    sheet w' = sheet initial_world /\
    calls (new_events initial_world w') = [] /\
    ~ In (Log INFO MsgRunOk) (new_events initial_world w') /\
    ~ In (Log INFO MsgRunFailed) (new_events initial_world w').
Proof.
  apply (@run_without_data_has_no_effect Reference.runtime env_status_500 initial_world).
  left. discriminate.
Defined.

Lemma schema_fault_fails_the_run_witness :
  exists w',
    @main Reference.runtime env_schema_fault initial_world = (Ret tt, w') /\
    table w' = table initial_world /\ table_exists w' = table_exists initial_world /\
    sheet w' = sheet initial_world /\
    calls (new_events initial_world w') = [CallCreateTable] /\
    In (Log ERROR (MsgCritical Psycopg2Error)) (new_events initial_world w') /\
    In (Log INFO MsgRunFailed) (new_events initial_world w') /\
    ~ In (Log INFO MsgRunOk) (new_events initial_world w').
Proof.
  apply (@schema_fault_fails_the_run Reference.runtime env_schema_fault sample_batch
           initial_world); try reflexivity.
  vm_compute. discriminate.
Defined.

Lemma load_fault_fails_the_run_witness :
  exists w',
    @main Reference.runtime env_commit_fault initial_world = (Ret tt, w') /\
    table w' = table initial_world /\ sheet w' = sheet initial_world /\
    calls (new_events initial_world w') =
      [CallCreateTable;
       CallLoad (List.length (@accepted_of Reference.runtime sample_batch))] /\
    In (Log ERROR (MsgCritical Psycopg2Error)) (new_events initial_world w') /\
    In (Log INFO MsgRunFailed) (new_events initial_world w') /\
    ~ In (Log INFO MsgRunOk) (new_events initial_world w').
Proof.
  apply (@load_fault_fails_the_run Reference.runtime env_commit_fault sample_batch
           initial_world); try reflexivity.
  - vm_compute. discriminate.
  - right. left. reflexivity.
Defined.

Lemma blank_start_date_fails_after_the_load_witness :
  exists w',
    @main Reference.runtime env_blank_start initial_world = (Ret tt, w') /\
    table w' = table initial_world ++ @accepted_of Reference.runtime sample_batch /\
    calls (new_events initial_world w') =
      [CallCreateTable;
       CallLoad (List.length (@accepted_of Reference.runtime sample_batch))] /\
    In (Log ERROR (MsgCritical IndexError)) (new_events initial_world w') /\
    In (Log INFO MsgRunFailed) (new_events initial_world w') /\
    ~ In (Log INFO MsgRunOk) (new_events initial_world w').
Proof.
  apply (@blank_start_date_fails_after_the_load Reference.runtime env_blank_start sample_batch
           initial_world); try reflexivity.
  vm_compute. discriminate.
Defined.

Lemma publish_fails_the_run_only_at_the_credentials_probe_witness :
  exists stats w',
    @main Reference.runtime env_credentials_denied initial_world = (Ret tt, w') /\
    table w' = table initial_world ++ @accepted_of Reference.runtime sample_batch /\
    @daily_query Reference.runtime
      (table initial_world ++ @accepted_of Reference.runtime sample_batch) "2023-05-31" =
      Some (total_attempts stats, successful_attempts stats, failed_attempts stats,
            run_attempts stats, unique_users stats, run_count stats, submit_count stats) /\
    data_rows (sheet w') =
      (if sheets_ready env_credentials_denied (sheet initial_world)
       then data_rows (sheet initial_world) ++ [stats]
       else data_rows (sheet initial_world)) /\
    calls (new_events initial_world w') =
      [CallCreateTable; CallLoad (List.length (@accepted_of Reference.runtime sample_batch));
       CallStats "2023-05-31"; CallPublish stats] /\
    In (Log ERROR (MsgCritical OSError)) (new_events initial_world w') /\
    In (Log INFO MsgRunFailed) (new_events initial_world w') /\
    ~ In (Log INFO MsgRunOk) (new_events initial_world w').
Proof.
  apply (@publish_fails_the_run_only_at_the_credentials_probe Reference.runtime
           env_credentials_denied sample_batch "2023-05-31" initial_world); try reflexivity.
  vm_compute. discriminate.
Defined.

Lemma main_keeps_rows_well_formed_witness :
  forallb row_ok (table (snd (@main Reference.runtime sample_env world_10))) = true.
Proof.
  apply (@main_keeps_rows_well_formed Reference.runtime sample_env world_10).
  vm_compute. reflexivity.
Defined.

Lemma load_returns_the_size_of_the_last_page_witness :
  exists w',
    load_data_to_database sample_env batch_101 initial_world =
      (Ret (Z.of_nat ((List.length batch_101 - 1) mod 100 + 1)), w') /\
    table w' = table initial_world ++ batch_101 /\
    ((List.length batch_101 <= 100)%nat <->
     Z.of_nat ((List.length batch_101 - 1) mod 100 + 1) = Z.of_nat (List.length batch_101)).
Proof.
  apply (load_returns_the_size_of_the_last_page sample_env batch_101 initial_world).
  - reflexivity.
  - discriminate.
Defined.

Lemma daily_statistics_are_consistent_witness :
  exists stats w',
    @get_daily_statistics Reference.runtime sample_env "2023-05-31" world_10 =
      (Ret (Some stats), w') /\
    table w' = table world_10 /\
    total_attempts stats =
      successful_attempts stats + failed_attempts stats + run_attempts stats /\
    total_attempts stats = run_count stats + submit_count stats /\
    0 <= unique_users stats <= total_attempts stats /\
    (total_attempts stats = 0 \/ 1 <= unique_users stats).
Proof.
  apply (@daily_statistics_are_consistent Reference.runtime sample_env "2023-05-31" world_10).
  - vm_compute. reflexivity.
  - reflexivity.
Defined.

Lemma rerun_stores_the_batch_twice_witness :
  table (snd (@main Reference.runtime sample_env
                (snd (@main Reference.runtime sample_env initial_world)))) =
    table initial_world ++ @accepted_of Reference.runtime sample_batch
      ++ @accepted_of Reference.runtime sample_batch.
Proof.
  apply (@rerun_stores_the_batch_twice Reference.runtime sample_env sample_batch
           initial_world); try reflexivity.
  vm_compute. discriminate.
Defined.
